(** * freebird: event reconciliation core

    A shallow embedding of [lib/freebird.js] (the constructor, the lookup
    functions, the two delivery modes of [_fire], [_tweet],
    [_changeFireMode]) and of [lib/components/handlers.js] (the netcore
    event handlers and their wiring), together with the properties of the
    core that the specification states and further properties that the
    code shows.

    JavaScript values that the handlers only pass around are kept as
    [JsVal] terms; every call to a collaborator that is not part of the
    two source files (netcore, registry, domain objects, timers) is
    recorded in a trace, and its asynchronous completion is an event of
    the environment. *)

From Stdlib Require Import List String ZArith Bool Arith Lia Permutation DecimalString.
From Stdlib Require Import SpecFloat.
From Equations Require Import Equations.
Import ListNotations.

Set Implicit Arguments.
Open Scope string_scope.
Open Scope list_scope.

(* ===================================================================== *)
(** ** JavaScript values and names                                        *)
(* ===================================================================== *)

(** Error objects: only [err.message] is ever read. *)
Record Err := mkErr { message : string }.

(** Device and gadget objects are mutable JavaScript objects: a
    reference is the identity of the object. *)
Inductive ObjRef :=
| RDev (oid : nat)
| RGad (oid : nat).

#[warnings="-register-all"] Inductive JsVal :=
| VUndef
| VNull
| VBool (b : bool)
| VNum (n : Z)
| VStr (s : string)
| VObj (fields : list (string * JsVal))
| VRef (r : ObjRef)                      (* the object itself *)
| VGet (r : ObjRef) (path : list string) (* a value read off r along path, not tracked *)
| VDump (r : ObjRef)                     (* utils.dumpDeviceInfo(r) / utils.dumpGadgetInfo(r) *)
| VErr (e : Err).

(** JavaScript truthiness, as used by [!!mode], [delta.status] and [if (err)]. *)
Definition truthy (v : JsVal) : bool :=
  match v with
  | VUndef | VNull => false
  | VBool b => b
  | VNum n => negb (Z.eqb n 0)
  | VStr s => negb (String.eqb s EmptyString)
  | _ => true
  end.

(** [obj.key] on an object literal. *)
Fixpoint field (key : string) (fields : list (string * JsVal)) : JsVal :=
  match fields with
  | [] => VUndef
  | (k, v) :: rest => if String.eqb k key then v else field key rest
  end.

Definition prop (v : JsVal) (key : string) : JsVal :=
  match v with
  | VObj fields => field key fields
  | _ => VUndef
  end.

(** A registry id that may not be assigned yet ([_.isNil(dev.get('id'))]). *)
Definition idVal (id : option nat) : JsVal :=
  match id with
  | Some n => VNum (Z.of_nat n)
  | None => VUndef
  end.

(** The constant tables [EVENTS_TO_TOP] and [EVENTS_FROM_BOTTOM] of the
    package freebird-constants are not part of the sources.  Their entries
    are kept as distinct abstract names; [Name s] is a string literal of
    the source such as ['warn'] or [namespace + 'Changed']. *)
Inductive TopEvt :=
| ERROR | NC_ENABLED | NC_DISABLED | NC_STARTED | NC_STOPPED | NC_PERMIT_JOIN
| DEV_INCOMING | DEV_LEAVING | DEV_REPORTING
| DEV_NET_CHANGED | DEV_STATUS_CHANGED | DEV_PROPS_CHANGED | DEV_ATTRS_CHANGED
| GAD_INCOMING | GAD_LEAVING | GAD_REPORTING
| GAD_PANEL_CHANGED | GAD_PROPS_CHANGED | GAD_ATTRS_CHANGED
| DEV_BAN_INCOMING | DEV_BAN_REPORTING | GAD_BAN_INCOMING | GAD_BAN_REPORTING.

Inductive BtmEvt :=
| NcError | NcEnabled | NcDisabled | NcStarted | NcStopped | NcReady | NcPermitJoin
| NcDevIncoming | NcDevLeaving | NcDevNetChanging | NcDevReporting
| NcGadIncoming | NcGadReporting
| NcBannedDevIncoming | NcBannedDevReporting | NcBannedGadIncoming | NcBannedGadReporting
| NcNetBan | NcNetUnban | NcNetPing
| DevError | DevNetChanged | DevPropsChanged | DevAttrsChanged
| GadError | GadPanelChanged | GadPropsChanged | GadAttrsChanged | GadAttrsAppend.

Inductive EvtName :=
| EVT_TOP (e : TopEvt)
| EVT_BTM (e : BtmEvt)
| Name (s : string)
| NoName.                                (* undefined *)

(* ===================================================================== *)
(** ** lib/freebird.js: delivery modes                                    *)
(* ===================================================================== *)

Module Dispatcher.

(** The function currently bound to [this._fire]. *)
Inductive FireMode := LazyFire | NormalFire.

(** [RPC.Subsys] of freebird-constants: the three subsystem tags. *)
Inductive Subsys := SubsysNet | SubsysDev | SubsysGad.

(** The indication record built by [_tweet]. *)
Record Ind := mkInd {
  ind_intf : string;
  ind_subsys : option Subsys;   (* null when the tag is not recognised *)
  ind_type : EvtName;
  ind_id : JsVal;
  ind_data : JsVal
}.

(** Callbacks handed to [process.nextTick] and [setImmediate]. *)
Inductive Task :=
| TEmit (evt : EvtName) (data : JsVal)   (* function () { self.emit(evt, data); } *)
| TKeepReleasing                         (* keepReleasing.bind(this) *)
| TIndicate (ind : Ind).                 (* self._apiAgent.indicate(ind, ...) *)

Record Freebird := mkFreebird {
  fire : FireMode;                        (* this._fire *)
  eventQueue : list (EvtName * JsVal);    (* this._eventQueue, oldest first *)
  ticks : list Task;                      (* process.nextTick queue *)
  immediates : list Task;                 (* setImmediate queue *)
  emitted : list (EvtName * JsVal);       (* calls of this.emit, oldest first *)
  indicated : list Ind                    (* calls of _apiAgent.indicate *)
}.

Definition nextTick (t : Task) (fb : Freebird) : Freebird :=
  mkFreebird (fire fb) (eventQueue fb) (ticks fb ++ [t]) (immediates fb)
             (emitted fb) (indicated fb).

Definition setImmediate (t : Task) (fb : Freebird) : Freebird :=
  mkFreebird (fire fb) (eventQueue fb) (ticks fb) (immediates fb ++ [t])
             (emitted fb) (indicated fb).

Definition set_fire (m : FireMode) (fb : Freebird) : Freebird :=
  mkFreebird m (eventQueue fb) (ticks fb) (immediates fb) (emitted fb) (indicated fb).

Definition set_eventQueue (q : list (EvtName * JsVal)) (fb : Freebird) : Freebird :=
  mkFreebird (fire fb) q (ticks fb) (immediates fb) (emitted fb) (indicated fb).

(** [this.emit(evt, data)]: delivery to the subscribers. *)
Definition emit (evt : EvtName) (data : JsVal) (fb : Freebird) : Freebird :=
  mkFreebird (fire fb) (eventQueue fb) (ticks fb) (immediates fb)
             (emitted fb ++ [(evt, data)]) (indicated fb).

Definition indicate (ind : Ind) (fb : Freebird) : Freebird :=
  mkFreebird (fire fb) (eventQueue fb) (ticks fb) (immediates fb)
             (emitted fb) (indicated fb ++ [ind]).

(** [evt === BTM_EVTS.NcDevIncoming] *)
Definition isNcDevIncoming (evt : EvtName) : bool :=
  match evt with
  | EVT_BTM NcDevIncoming => true
  | _ => false
  end.

Definition _normalFire (evt : EvtName) (data : JsVal) (fb : Freebird) : Freebird :=
  if isNcDevIncoming evt
  then nextTick (TEmit evt data) fb
  else setImmediate (TEmit evt data) fb.

Definition _lazyFire (evt : EvtName) (data : JsVal) (fb : Freebird) : Freebird :=
  set_eventQueue (eventQueue fb ++ [(evt, data)]) fb.

Definition _fire (evt : EvtName) (data : JsVal) (fb : Freebird) : Freebird :=
  match fire fb with
  | NormalFire => _normalFire evt data fb
  | LazyFire => _lazyFire evt data fb
  end.

Definition subsysOf (subsys : string) : option Subsys :=
  if String.eqb subsys "net" then Some SubsysNet
  else if String.eqb subsys "dev" then Some SubsysDev
  else if String.eqb subsys "gad" then Some SubsysGad
  else None.

Definition _tweet (subsys : string) (indType : EvtName) (id data : JsVal)
                  (fb : Freebird) : Freebird :=
  setImmediate (TIndicate (mkInd "IND" (subsysOf subsys) indType id data)) fb.

(** What [this.emit] does to the callback that calls it.  [emit] is the
    one of Node's EventEmitter: it calls the subscribers in turn, and it
    throws when one of them throws, or when the event is ['error'] and
    nobody listens to it.  An exception leaves the callback at once. *)
Inductive Delivery := Returns | Throws.

Definition keepReleasing (delivery : Delivery) (fb : Freebird) : Freebird :=
  match eventQueue fb with
  | evtObj :: rest =>                      (* this._eventQueue.shift() *)
      let fb := emit (fst evtObj) (snd evtObj) (set_eventQueue rest fb) in
      match delivery with
      | Returns => setImmediate TKeepReleasing fb
      | Throws => fb                       (* setImmediate is not reached *)
      end
  | [] => set_fire NormalFire fb
  end.

Definition _changeFireMode (mode : JsVal) (fb : Freebird) : Freebird :=
  if truthy mode then
    match eventQueue fb with
    | _ :: _ => setImmediate TKeepReleasing fb
    | [] => set_fire NormalFire fb
    end
  else set_fire LazyFire fb.

(** A scheduled callback runs; [delivery] is what the [emit] in it does,
    if it makes one. *)
Definition runTask (delivery : Delivery) (t : Task) (fb : Freebird) : Freebird :=
  match t with
  | TEmit evt data => emit evt data fb     (* nothing follows the emit *)
  | TKeepReleasing => keepReleasing delivery fb
  | TIndicate ind => indicate ind fb
  end.

(** One turn of the event loop: the next-tick queue is served before the
    immediate queue, each of them first in, first out. *)
Definition tick (delivery : Delivery) (fb : Freebird) : Freebird :=
  match ticks fb with
  | t :: rest =>
      runTask delivery t (mkFreebird (fire fb) (eventQueue fb) rest (immediates fb)
                                     (emitted fb) (indicated fb))
  | [] =>
      match immediates fb with
      | t :: rest =>
          runTask delivery t (mkFreebird (fire fb) (eventQueue fb) [] rest
                                         (emitted fb) (indicated fb))
      | [] => fb
      end
  end.

(** What happens after the mode switch: somebody calls [_fire] (a handler,
    a netcore, or the callback of [indicate] with its ['warn']), or the
    event loop runs its next callback.  In a [Tick] the delivery that the
    callback makes returns; in a [TickThrows] it throws. *)
Inductive Act :=
| Fire (evt : EvtName) (data : JsVal)
| Tweet (subsys : string) (indType : EvtName) (id data : JsVal)
| Tick
| TickThrows.

Definition act (fb : Freebird) (a : Act) : Freebird :=
  match a with
  | Fire evt data => _fire evt data fb
  | Tweet subsys indType id data => _tweet subsys indType id data fb
  | Tick => tick Returns fb
  | TickThrows => tick Throws fb
  end.

Definition run (acts : list Act) (fb : Freebird) : Freebird :=
  fold_left act acts fb.

Definition isTick (a : Act) : bool :=
  match a with Tick | TickThrows => true | _ => false end.

Definition isThrow (a : Act) : bool :=
  match a with TickThrows => true | _ => false end.

Definition ticksIn (acts : list Act) : nat := List.length (filter isTick acts).

Fixpoint firedIn (acts : list Act) : list (EvtName * JsVal) :=
  match acts with
  | [] => []
  | Fire evt data :: rest => (evt, data) :: firedIn rest
  | _ :: rest => firedIn rest
  end.

Definition isIndicate (t : Task) : bool :=
  match t with TIndicate _ => true | _ => false end.

(** A scheduled callback that may sit in the queues once the buffer is
    drained: an indication, or the delivery of an event fired since. *)
Definition laterTask (fired : list (EvtName * JsVal)) (t : Task) : Prop :=
  match t with
  | TEmit evt data => In (evt, data) fired
  | TKeepReleasing => False
  | TIndicate _ => True
  end.

(** The dispatcher while [keepReleasing] is still at work: [e0] was
    emitted before the switch, [B] was buffered then, [F] was fired since,
    [n] turns of the event loop have passed. *)
Definition Draining (e0 B F : list (EvtName * JsVal)) (n : nat) (fb : Freebird) : Prop :=
  fire fb = LazyFire /\ ticks fb = [] /\
  (exists i1 i2, immediates fb = i1 ++ TKeepReleasing :: i2
                 /\ forallb isIndicate i1 = true /\ forallb isIndicate i2 = true) /\
  exists D, emitted fb = e0 ++ D /\ D ++ eventQueue fb = B ++ F /\ List.length D <= n.

(** The dispatcher after [keepReleasing] has found the buffer empty. *)
Definition Drained (e0 B F : list (EvtName * JsVal)) (n : nat) (fb : Freebird) : Prop :=
  fire fb = NormalFire /\ eventQueue fb = [] /\
  Forall (laterTask F) (ticks fb) /\ Forall (laterTask F) (immediates fb) /\
  exists rest, emitted fb = e0 ++ B ++ rest /\ incl rest F
               /\ List.length (B ++ rest) <= n.

(** The dispatcher after a delivery of [keepReleasing] has thrown:
    nothing is scheduled that would go on with the buffer. *)
Definition Stalled (e0 B F : list (EvtName * JsVal)) (n : nat) (fb : Freebird) : Prop :=
  fire fb = LazyFire /\ ticks fb = [] /\ forallb isIndicate (immediates fb) = true /\
  exists D, emitted fb = e0 ++ D /\ D ++ eventQueue fb = B ++ F /\ List.length D <= n.

(** [thrown] tells whether a delivery has thrown since the switch. *)
Definition DrainInv (e0 B F : list (EvtName * JsVal)) (n : nat) (thrown : bool)
                    (fb : Freebird) : Prop :=
  Draining e0 B F n fb \/ Drained e0 B F n fb \/
  (thrown = true /\ Stalled e0 B F n fb).

(** [this._eventQueue.length = 0] *)
Definition _clearEventQueue (fb : Freebird) : Freebird := set_eventQueue [] fb.

(** The events and the indications that the scheduled callbacks of a
    queue will deliver, in the order of the queue. *)
Fixpoint emits (q : list Task) : list (EvtName * JsVal) :=
  match q with
  | [] => []
  | TEmit evt data :: rest => (evt, data) :: emits rest
  | _ :: rest => emits rest
  end.

Fixpoint inds (q : list Task) : list Ind :=
  match q with
  | [] => []
  | TIndicate ind :: rest => ind :: inds rest
  | _ :: rest => inds rest
  end.

(** The indication records that the [_tweet] calls of a run build. *)
Fixpoint tweetedIn (acts : list Act) : list Ind :=
  match acts with
  | [] => []
  | Tweet subsys indType id data :: rest =>
      mkInd "IND" (subsysOf subsys) indType id data :: tweetedIn rest
  | _ :: rest => tweetedIn rest
  end.

Definition isKeepReleasing (t : Task) : bool :=
  match t with TKeepReleasing => true | _ => false end.

(** [_fire(e.name, e.msg)] *)
Definition fireOf (e : EvtName * JsVal) : Act := Fire (fst e) (snd e).

(** [evt.name === BTM_EVTS.NcDevIncoming] on a fired event. *)
Definition isArrival (e : EvtName * JsVal) : bool := isNcDevIncoming (fst e).

(** [function () { self.emit(e.name, e.msg); }] *)
Definition emitTask (e : EvtName * JsVal) : Task := TEmit (fst e) (snd e).

End Dispatcher.

(* ===================================================================== *)
(** ** lib/components/handlers.js: the netcore event handlers             *)
(* ===================================================================== *)

Module Handlers.

(** *** Data *)

Inductive AuxId :=
| AuxStr (s : string)
| AuxNum (n : Z).

(** [a === b] on auxiliary ids *)
Definition auxId_eqb (a b : AuxId) : bool :=
  match a, b with
  | AuxStr s, AuxStr t => String.eqb s t
  | AuxNum n, AuxNum m => Z.eqb n m
  | _, _ => false
  end.

Definition auxVal (a : AuxId) : JsVal :=
  match a with
  | AuxStr s => VStr s
  | AuxNum n => VNum n
  end.

Record Netcore := mkNetcore {
  nc_name : string;          (* nc.getName() *)
  nc_joinable : bool         (* nc.isJoinable() *)
}.

(** A record of [dev.get('gadTable')] *)
Record GadRec := mkGadRec {
  rec_gadId : nat;
  rec_auxId : AuxId
}.

Record Device := mkDevice {
  dev_oid : nat;                 (* identity of the object *)
  dev_id : option nat;           (* dev.get('id'), nil until the registry assigns it *)
  dev_netcore : string;          (* dev.get('netcore').getName() *)
  dev_permAddr : string;         (* dev.get('permAddr') *)
  dev_removing : bool;           (* dev._removing *)
  dev_gadTable : list GadRec     (* dev.get('gadTable') *)
}.

Record Gadget := mkGadget {
  gad_oid : nat;
  gad_id : option nat;           (* gad.get('id') *)
  gad_netcore : string;          (* gad.get('netcore').getName() *)
  gad_permAddr : string;         (* gad.get('permAddr') *)
  gad_auxId : AuxId;             (* gad.get('auxId') *)
  gad_name : string              (* gad.get('props').name *)
}.

(** Notification shapes. *)
Record DevMsg := mkDevMsg {      (* { ncName, permAddr, raw: rawDev } *)
  dm_ncName : string;
  dm_permAddr : string;
  dm_raw : JsVal
}.

Record AddrMsg := mkAddrMsg {    (* { ncName, permAddr } *)
  am_ncName : string;
  am_permAddr : string
}.

Record GadMsg := mkGadMsg {      (* { ncName, permAddr, auxId, raw: rawGad } *)
  gm_ncName : string;
  gm_permAddr : string;
  gm_auxId : AuxId;
  gm_raw : JsVal
}.

Record BanMsg := mkBanMsg {      (* banned incoming / reporting, of a device or a gadget *)
  bm_ncName : string;
  bm_permAddr : string;
  bm_auxId : option AuxId        (* undefined in the device shapes *)
}.

Record UpdMsg := mkUpdMsg {      (* { ncName, permAddr, [auxId], id, data: delta, _data: oldVal } *)
  um_ncName : string;
  um_permAddr : string;
  um_auxId : option AuxId;
  um_id : JsVal;
  um_data : JsVal;
  um_oldData : JsVal
}.

Definition optAuxVal (a : option AuxId) : JsVal :=
  match a with
  | Some a => auxVal a
  | None => VUndef
  end.

(** The message object itself, when a handler passes it on. *)
Definition updMsgVal (msg : UpdMsg) : JsVal :=
  VObj [("ncName", VStr (um_ncName msg)); ("permAddr", VStr (um_permAddr msg));
        ("auxId", optAuxVal (um_auxId msg)); ("id", um_id msg);
        ("data", um_data msg); ("_data", um_oldData msg)].

(** *** Calls to collaborators, and their pending callbacks *)

Inductive Outcome :=
| Failed (err : Err)              (* callback(err) *)
| CookedDev (brewedDev : Device)  (* callback(null, brewedDev) *)
| CookedGad (brewedGad : Gadget)  (* callback(null, brewedGad) *)
| Registered (id : nat)           (* callback(null, id) *)
| Succeeded (v : JsVal)           (* callback(null[, diff]) *)
| Elapsed.                        (* a timer fires *)

Inductive Box := Devbox | Gadbox.

Inductive Call :=
| Fire (evt : EvtName) (data : JsVal)                       (* fb._fire(evt, data) *)
| Tweet (subsys : string) (indType : EvtName) (id data : JsVal) (* fb._tweet(...) *)
| Emit (msg : GadMsg)                    (* freebird.emit(EVT_BTM.NcGadIncoming, msg) *)
| CookRawDev (nc : string) (raw : JsVal)                    (* nc.cookRawDev(devIn, raw, cb) *)
| CookRawGad (nc : string) (dev : nat) (auxId : AuxId) (raw : JsVal) (* nc.cookRawGad(gadIn, raw, cb) *)
| Register (r : ObjRef)                                     (* freebird.register(type, obj, cb) *)
| Unregister (r : ObjRef)                                   (* freebird.unregister(type, obj, cb) *)
| NcRemove (nc : string) (permAddr : string)                (* nc.remove(permAddr, cb) *)
| Method (r : ObjRef) (name : string) (args : list JsVal)   (* obj.name(args) *)
| Assign (r : ObjRef) (fld : string) (v : JsVal)            (* obj.fld = v *)
| BoxModify (box : Box) (id : JsVal) (namespace : string) (delta : JsVal) (* box.modify(...) *)
| SetTimeout (ms : nat)                                     (* setTimeout(..., ms) *)
| Back (o : Outcome).                                       (* a collaborator calls back *)

(** The variables a run of [ncGadIncoming] closes over. *)
Record GadCook := mkGadCook {
  gc_msg : GadMsg;
  gc_nc : option Netcore;
  gc_dev : Device;
  gc_gad : option Gadget;
  gc_syncTimes : nat
}.

(** The callbacks handed to collaborators, with what they close over. *)
Inductive Pending :=
| CookingDev (msg : DevMsg) (nc : Netcore) (dev : option Device) (queueEvent : nat)
| RegisteringDev (msg : DevMsg) (devIn : Device) (queueEvent : nat)
| UnregisteringGad (msg : AddrMsg) (dev : Device) (devId : option nat)
                   (gadTbl : list (option Gadget)) (gad : Gadget)
| UnregisteringDev (msg : AddrMsg) (dev : Device) (devId : option nat)
| Sleeping (c : GadCook)
| CookingGad (c : GadCook) (nc : Netcore)
| RegisteringGad (msg : GadMsg) (gadIn : Gadget)
| Removing (ncName : string) (dev : Device)
| BanUnregistering (msg : BanMsg) (gad : Gadget) (gadId : option nat)
| Modifying (type namespace : string) (msg : UpdMsg).

(** *** The freebird object, as the handlers see it *)

Record Freebird := mkFreebird {
  netcores : list Netcore;          (* this._netcores *)
  devbox : list Device;             (* this._devbox *)
  gadbox : list Gadget;             (* this._gadbox *)
  gadEventQueue : list GadMsg;      (* this._gadEventQueue *)
  listeners : list nat;             (* the queueEvent closures listening on NcGadIncoming,
                                       after ncGadIncoming itself, in order of attachment *)
  nextListener : nat;               (* names the next closure *)
  pending : list Pending;           (* callbacks not called back yet *)
  trace : list Call                 (* calls made so far, oldest first *)
}.

Definition set_netcores (ncs : list Netcore) (fb : Freebird) : Freebird :=
  mkFreebird ncs (devbox fb) (gadbox fb) (gadEventQueue fb) (listeners fb)
             (nextListener fb) (pending fb) (trace fb).

Definition set_devbox (b : list Device) (fb : Freebird) : Freebird :=
  mkFreebird (netcores fb) b (gadbox fb) (gadEventQueue fb) (listeners fb)
             (nextListener fb) (pending fb) (trace fb).

Definition set_gadbox (b : list Gadget) (fb : Freebird) : Freebird :=
  mkFreebird (netcores fb) (devbox fb) b (gadEventQueue fb) (listeners fb)
             (nextListener fb) (pending fb) (trace fb).

Definition set_gadEventQueue (q : list GadMsg) (fb : Freebird) : Freebird :=
  mkFreebird (netcores fb) (devbox fb) (gadbox fb) q (listeners fb)
             (nextListener fb) (pending fb) (trace fb).

Definition set_listeners (l : list nat) (n : nat) (fb : Freebird) : Freebird :=
  mkFreebird (netcores fb) (devbox fb) (gadbox fb) (gadEventQueue fb) l
             n (pending fb) (trace fb).

Definition set_pending (p : list Pending) (fb : Freebird) : Freebird :=
  mkFreebird (netcores fb) (devbox fb) (gadbox fb) (gadEventQueue fb) (listeners fb)
             (nextListener fb) p (trace fb).

Definition set_trace (t : list Call) (fb : Freebird) : Freebird :=
  mkFreebird (netcores fb) (devbox fb) (gadbox fb) (gadEventQueue fb) (listeners fb)
             (nextListener fb) (pending fb) t.

(** *** A handler runs on the freebird object and may throw *)

Inductive Exn :=
| TypeError (what : string).

Definition M (A : Type) : Type := Freebird -> Freebird * (Exn + A).

Definition ret {A} (a : A) : M A := fun fb => (fb, inr a).

Definition bind {A B} (m : M A) (k : A -> M B) : M B :=
  fun fb =>
    match m fb with
    | (fb', inr a) => k a fb'
    | (fb', inl e) => (fb', inl e)
    end.

Definition throw {A} (e : Exn) : M A := fun fb => (fb, inl e).

Definition gets {A} (f : Freebird -> A) : M A := fun fb => (fb, inr (f fb)).

Definition modify (f : Freebird -> Freebird) : M unit := fun fb => (f fb, inr tt).

Declare Scope handler_scope.
Delimit Scope handler_scope with handler.
Notation "x <- m ;; k" := (bind m (fun x => k))
  (at level 61, m at next level, right associativity) : handler_scope.
Notation "m ;; k" := (bind m (fun _ => k))
  (at level 61, right associativity) : handler_scope.
Open Scope handler_scope.

(** The state a computation leaves, and the exception it throws if any. *)
Definition exec {A} (m : M A) (fb : Freebird) : Freebird := fst (m fb).

Definition thrown {A} (m : M A) (fb : Freebird) : option Exn :=
  match snd (m fb) with
  | inl e => Some e
  | inr _ => None
  end.

(** [_.forEach(arr, f)] *)
Fixpoint forEach {A} (arr : list A) (f : A -> M unit) : M unit :=
  match arr with
  | [] => ret tt
  | x :: rest => f x ;; forEach rest f
  end.

Definition call (c : Call) : M unit :=
  modify (fun fb => set_trace (trace fb ++ [c]) fb).

Definition await (p : Pending) : M unit :=
  modify (fun fb => set_pending (pending fb ++ [p]) fb).

(** [this._fire] and [this._tweet] belong to lib/freebird.js: a handler
    only calls them; what becomes of the calls is [Dispatcher]'s. *)
Definition _fire (evt : EvtName) (data : JsVal) : M unit := call (Fire evt data).

Definition _tweet (subsys : string) (indType : EvtName) (id data : JsVal) : M unit :=
  call (Tweet subsys indType id data).

(** *** lib/freebird.js: [findByNet] and [findById], one function per type *)

Definition findByNet_netcore (ncName : string) : M (option Netcore) :=
  gets (fun fb => find (fun nc => String.eqb (nc_name nc) ncName) (netcores fb)).

Definition findByNet_device (ncName permAddr : string) : M (option Device) :=
  gets (fun fb =>
    find (fun dev => String.eqb (dev_permAddr dev) permAddr
                     && String.eqb (dev_netcore dev) ncName) (devbox fb)).

Definition optAuxId_eqb (a : AuxId) (b : option AuxId) : bool :=
  match b with
  | Some b => auxId_eqb a b
  | None => false
  end.

Definition findByNet_gadget (ncName permAddr : string) (auxId : option AuxId)
  : M (option Gadget) :=
  gets (fun fb =>
    find (fun gad => String.eqb (gad_permAddr gad) permAddr
                     && optAuxId_eqb (gad_auxId gad) auxId
                     && String.eqb (gad_netcore gad) ncName) (gadbox fb)).

(** [findById('gadget', id)], that is [this._gadbox.get(id)] *)
Definition getGadget (fb : Freebird) (id : nat) : option Gadget :=
  find (fun gad => match gad_id gad with
                   | Some i => Nat.eqb i id
                   | None => false
                   end) (gadbox fb).

(** Reading an object again at a later turn: its state in the box if it
    is still there, else as it was last seen. *)
Definition devNow (fb : Freebird) (dev : Device) : Device :=
  match find (fun d => Nat.eqb (dev_oid d) (dev_oid dev)) (devbox fb) with
  | Some d => d
  | None => dev
  end.

Definition gadNow (fb : Freebird) (gad : Gadget) : Gadget :=
  match find (fun g => Nat.eqb (gad_oid g) (gad_oid gad)) (gadbox fb) with
  | Some g => g
  | None => gad
  end.

Definition nowDev (dev : Device) : M Device := gets (fun fb => devNow fb dev).

Definition nowGad (gad : Gadget) : M Gadget := gets (fun fb => gadNow fb gad).

(** [nc.isJoinable()] on the netcore object held by a closure. *)
Definition joinableNow (fb : Freebird) (nc : Netcore) : bool :=
  match find (fun n => String.eqb (nc_name n) (nc_name nc)) (netcores fb) with
  | Some n => nc_joinable n
  | None => nc_joinable nc
  end.

Definition isJoinable (nc : Netcore) : M bool := gets (fun fb => joinableNow fb nc).

(** *** The registry, seen from the handlers

    [lib/components/registry.js] is not part of the sources. *)

Definition setDevId (id : option nat) (dev : Device) : Device :=
  mkDevice (dev_oid dev) id (dev_netcore dev) (dev_permAddr dev)
           (dev_removing dev) (dev_gadTable dev).

Definition setGadId (id : option nat) (gad : Gadget) : Gadget :=
  mkGadget (gad_oid gad) id (gad_netcore gad) (gad_permAddr gad)
           (gad_auxId gad) (gad_name gad).

Definition isDev (oid : nat) (d : Device) : bool := Nat.eqb (dev_oid d) oid.
Definition isGad (oid : nat) (g : Gadget) : bool := Nat.eqb (gad_oid g) oid.

(** Modelled from the spec: [register(entity) -> (error, id)], "registry
    assigns an id", and a registration "still in flight" leaves the entity
    findable with no id assigned yet.  The call puts the object into its
    box; the completion assigns the id, or takes the object out again. *)
Definition register_device (devIn : Device) (cb : Pending) : M unit :=
  call (Register (RDev (dev_oid devIn))) ;;
  modify (fun fb => set_devbox (devbox fb ++ [devIn]) fb) ;;
  await cb.

Definition register_gadget (gadIn : Gadget) (cb : Pending) : M unit :=
  call (Register (RGad (gad_oid gadIn))) ;;
  modify (fun fb => set_gadbox (gadbox fb ++ [gadIn]) fb) ;;
  await cb.

(** Modelled from the spec: [unregister(entity) -> error?]; the entity
    leaves its box when the registry reports success. *)
Definition unregister_device (dev : Device) (cb : Pending) : M unit :=
  call (Unregister (RDev (dev_oid dev))) ;;
  await cb.

Definition unregister_gadget (gad : Gadget) (cb : Pending) : M unit :=
  call (Unregister (RGad (gad_oid gad))) ;;
  await cb.

(** Modelled from the spec: what the registry has done to its boxes by
    the time it calls back. *)
Definition settle (p : Pending) (o : Outcome) : M unit :=
  match p, o with
  | RegisteringDev _ devIn _, Registered id =>
      modify (fun fb =>
        set_devbox (map (fun d => if isDev (dev_oid devIn) d
                                  then setDevId (Some id) d else d) (devbox fb)) fb)
  | RegisteringDev _ devIn _, Failed _ =>
      modify (fun fb =>
        set_devbox (filter (fun d => negb (isDev (dev_oid devIn) d)) (devbox fb)) fb)
  | RegisteringGad _ gadIn, Registered id =>
      modify (fun fb =>
        set_gadbox (map (fun g => if isGad (gad_oid gadIn) g
                                  then setGadId (Some id) g else g) (gadbox fb)) fb)
  | RegisteringGad _ gadIn, Failed _ =>
      modify (fun fb =>
        set_gadbox (filter (fun g => negb (isGad (gad_oid gadIn) g)) (gadbox fb)) fb)
  | UnregisteringGad _ _ _ _ gad, Succeeded _
  | BanUnregistering _ gad _, Succeeded _ =>
      modify (fun fb =>
        set_gadbox (filter (fun g => negb (isGad (gad_oid gad) g)) (gadbox fb)) fb)
  | UnregisteringDev _ dev _, Succeeded _ =>
      modify (fun fb =>
        set_devbox (filter (fun d => negb (isDev (dev_oid dev) d)) (devbox fb)) fb)
  | _, _ => ret tt
  end.

(** *** The coalescing queue *)

Definition sameGadKey (a b : GadMsg) : bool :=
  String.eqb (gm_ncName b) (gm_ncName a)
  && String.eqb (gm_permAddr b) (gm_permAddr a)
  && auxId_eqb (gm_auxId b) (gm_auxId a).

(** [queueEvent(gadMsgIn)] on the array [freebird._gadEventQueue] *)
Definition queueEvent_on (queue : list GadMsg) (gadMsgIn : GadMsg) : list GadMsg :=
  let isEventExist := existsb (sameGadKey gadMsgIn) queue in       (* _.some *)
  if isEventExist
  then filter (fun gadMsg => negb (sameGadKey gadMsgIn gadMsg)) queue  (* _.remove *)
  else queue ++ [gadMsgIn].                                            (* push *)

Definition queueEvent (gadMsgIn : GadMsg) : M unit :=
  modify (fun fb => set_gadEventQueue (queueEvent_on (gadEventQueue fb) gadMsgIn) fb).

(** [freebird.on(EVT_BTM.NcGadIncoming, queueEvent)]: the closure gets a name. *)
Definition on_NcGadIncoming : M nat :=
  l <- gets nextListener ;;
  modify (fun fb => set_listeners (listeners fb ++ [l]) (S l) fb) ;;
  ret l.

(** [freebird.removeListener(EVT_BTM.NcGadIncoming, queueEvent)] *)
Definition removeListener (queueEvent : nat) : M unit :=
  modify (fun fb =>
    set_listeners (filter (fun l => negb (Nat.eqb l queueEvent)) (listeners fb))
                  (nextListener fb) fb).

(** *** handlers.ncGadIncoming *)

Definition errorInfo (ncName : string) (err : Err) : JsVal :=
  VObj [("netcore", VStr ncName); ("message", VStr (message err))].

Definition online : JsVal := VObj [("status", VStr "online")].
Definition offline : JsVal := VObj [("status", VStr "offline")].

Definition setSyncTimes (n : nat) (c : GadCook) : GadCook :=
  mkGadCook (gc_msg c) (gc_nc c) (gc_dev c) (gc_gad c) n.

Definition doGadCook (c : GadCook) : M unit :=
  let msg := gc_msg c in
  dev <- nowDev (gc_dev c) ;;
  match dev_id dev with
  | None =>                                       (* _.isNil(dev.get('id')) *)
      let syncTimes := S (gc_syncTimes c) in
      if Nat.ltb 50 syncTimes                     (* ++syncTimes > 50 *)
      then ret tt
      else call (SetTimeout 20) ;;
           await (Sleeping (setSyncTimes syncTimes c))
  | Some _ =>
      match gc_nc c with
      | None => throw (TypeError "nc is undefined: nc.cookRawGad")
      | Some nc =>
          call (CookRawGad (nc_name nc) (dev_oid dev) (gm_auxId msg) (gm_raw msg)) ;;
          await (CookingGad c nc)
      end
  end.

Definition nameFromPanel (r gadIn : ObjRef) : Call :=
  Method r "set" [VStr "props"; VObj [("name", VGet gadIn ["panel"; "classId"])]].

Definition ncGadIncoming_registered (msg : GadMsg) (gadIn : Gadget)
                                    (res : Err + nat) : M unit :=
  match res with
  | inl err =>
      _fire (Name "warn") (VErr err) ;;
      _tweet "gad" (Name "error") (VNum 0) (errorInfo (gm_ncName msg) err)
  | inr id =>
      let r := RGad (gad_oid gadIn) in
      call (Method r "enable" []) ;;
      (if String.eqb (gad_name gadIn) "unknown"
       then call (nameFromPanel r r)
       else ret tt) ;;
      _fire (EVT_TOP GAD_INCOMING)
            (VObj [("ncName", VStr (gm_ncName msg)); ("permAddr", VStr (gm_permAddr msg));
                   ("auxId", auxVal (gm_auxId msg)); ("id", idVal (gad_id gadIn));
                   ("gadget", VRef r)]) ;;
      _tweet "gad" (Name "gadIncoming") (idVal (gad_id gadIn)) (VDump r)
  end.

Definition ncGadIncoming_cooked (c : GadCook) (nc : Netcore)
                                (res : Err + Gadget) : M unit :=
  let msg := gc_msg c in
  modify (fun fb =>
    set_gadEventQueue
      (filter (fun gadMsg => negb (sameGadKey msg gadMsg)) (gadEventQueue fb)) fb) ;;
  match res with
  | inl err => _tweet "net" (Name "error") (VNum 0) (errorInfo (gm_ncName msg) err)
  | inr brewedGad =>
      let gadIn := brewedGad in
      let rIn := RGad (gad_oid gadIn) in
      match gc_gad c with
      | Some gad =>
          let r := RGad (gad_oid gad) in
          call (Method r "set" [VStr "_raw"; VGet rIn ["raw"]]) ;;
          call (Assign r "extra" (VGet rIn ["extra"])) ;;
          call (Method r "set" [VStr "panel"; VGet rIn ["panel"]]) ;;
          call (Method r "set" [VStr "attrs"; VGet rIn ["attrs"]]) ;;
          g <- nowGad gad ;;
          if String.eqb (gad_name g) "unknown"
          then call (nameFromPanel r rIn)
          else ret tt
      | None =>
          joinable <- isJoinable nc ;;
          if joinable
          then register_gadget gadIn (RegisteringGad msg gadIn)
          else ret tt
      end
  end.

Definition ncGadIncoming (msg : GadMsg) : M unit :=
  let ncName := gm_ncName msg in
  nc <- findByNet_netcore ncName ;;
  dev <- findByNet_device ncName (gm_permAddr msg) ;;
  gad <- findByNet_gadget ncName (gm_permAddr msg) (Some (gm_auxId msg)) ;;
  match dev with
  | None => ret tt              (* device not found, ignore this gad incoming *)
  | Some dev =>
      modify (fun fb => set_gadEventQueue (gadEventQueue fb ++ [msg]) fb) ;;
      call (Method (RDev (dev_oid dev)) "_poke" []) ;;
      call (Method (RDev (dev_oid dev)) "set" [VStr "net"; online]) ;;
      doGadCook (mkGadCook msg nc dev gad 0)
  end.

(** [freebird.emit(EVT_BTM.NcGadIncoming, msg)]: [ncGadIncoming] was
    attached first, the [queueEvent] closures follow. *)
Definition emit_NcGadIncoming (msg : GadMsg) : M unit :=
  lsns <- gets listeners ;;
  ncGadIncoming msg ;;
  forEach lsns (fun _ => queueEvent msg).

(** *** handlers.ncDevIncoming *)

(** The predicate [releasQueueEvent] hands to [_.remove] *)
Definition sameDevKey (msg : DevMsg) (gadMsg : GadMsg) : bool :=
  String.eqb (gm_ncName gadMsg) (dm_ncName msg)
  && String.eqb (gm_permAddr gadMsg) (dm_permAddr msg).

Definition releasQueueEvent (msg : DevMsg) : M unit :=
  queue <- gets gadEventQueue ;;
  let evt := filter (sameDevKey msg) queue in                      (* _.remove *)
  modify (set_gadEventQueue (filter (fun m => negb (sameDevKey msg m)) queue)) ;;
  forEach evt (fun msg => call (Emit msg) ;; emit_NcGadIncoming msg).

Definition ncDevIncoming_registered (msg : DevMsg) (devIn : Device) (queueEvent : nat)
                                    (res : Err + nat) : M unit :=
  removeListener queueEvent ;;
  match res with
  | inl err => _tweet "net" (Name "error") (VNum 0) (errorInfo (dm_ncName msg) err)
  | inr id =>
      let r := RDev (dev_oid devIn) in
      call (Method r "enable" []) ;;
      call (Method r "_poke" []) ;;
      call (Method r "set" [VStr "net"; online]) ;;
      _fire (EVT_TOP DEV_INCOMING)
            (VObj [("ncName", VStr (dm_ncName msg)); ("permAddr", VStr (dm_permAddr msg));
                   ("id", idVal (dev_id devIn)); ("device", VRef r)]) ;;
      _tweet "dev" (Name "devIncoming") (idVal (dev_id devIn)) (VDump r) ;;
      releasQueueEvent msg
  end.

Definition ncDevIncoming_cooked (msg : DevMsg) (nc : Netcore) (dev : option Device)
                                (queueEvent : nat) (res : Err + Device) : M unit :=
  match res with
  | inl err => _tweet "net" (Name "error") (VNum 0) (errorInfo (dm_ncName msg) err)
  | inr brewedDev =>
      let devIn := brewedDev in
      let rIn := RDev (dev_oid devIn) in
      match dev with
      | Some dev =>     (* dev already exists, no need to fire EVT_TOP.DEV_INCOMING *)
          let r := RDev (dev_oid dev) in
          removeListener queueEvent ;;
          call (Method r "_poke" []) ;;
          call (Method r "set" [VStr "_raw"; VGet rIn ["raw"]]) ;;
          call (Assign r "extra" (VGet rIn ["extra"])) ;;
          call (Method r "set"
                  [VStr "net";
                   VObj [("role", VGet rIn ["net"; "role"]);
                         ("parent", VGet rIn ["net"; "parent"]);
                         ("maySleep", VGet rIn ["net"; "maySleep"]);
                         ("sleepPeriod", VGet rIn ["net"; "sleepPeriod"]);
                         ("address", VGet rIn ["net"; "address"])]]) ;;
          call (Method r "set" [VStr "attrs"; VGet rIn ["attrs"]]) ;;
          call (Method r "set" [VStr "net"; online])
      | None =>
          joinable <- isJoinable nc ;;
          if joinable
          then register_device devIn (RegisteringDev msg devIn queueEvent)
          else removeListener queueEvent
               (* do nothing if netcore is not allowed for joining *)
      end
  end.

Definition ncDevIncoming (msg : DevMsg) : M unit :=
  nc <- findByNet_netcore (dm_ncName msg) ;;
  queueEvent <- on_NcGadIncoming ;;
  match nc with
  | None => ret tt
  | Some nc =>
      dev <- findByNet_device (dm_ncName msg) (dm_permAddr msg) ;;
      call (CookRawDev (nc_name nc) (dm_raw msg)) ;;
      await (CookingDev msg nc dev queueEvent)
  end.

(** *** handlers.ncDevLeaving *)

(** [arr.pop()]: the last element and what is left of the array. *)
Definition pop {A} (arr : list A) : option (A * list A) :=
  match rev arr with
  | [] => None
  | x :: r => Some (x, rev r)
  end.

Definition inspect {A} (a : A) : {b : A | a = b} := exist _ a eq_refl.

Definition addrInfo (msg : AddrMsg) : JsVal :=
  VObj [("netcore", VStr (am_ncName msg)); ("permAddr", VStr (am_permAddr msg))].

Equations? removeGadget (msg : AddrMsg) (dev : Device) (devId : option nat)
                        (gadTbl : list (option Gadget)) : M unit
  by wf (List.length gadTbl) lt :=
removeGadget msg dev devId gadTbl with inspect (pop gadTbl) := {
  | exist _ None _ =>                                  (* gadTbl.length === 0 *)
      unregister_device dev (UnregisteringDev msg dev devId)
  | exist _ (Some (None, rest)) _ =>                   (* if (!gad) return removeGadget() *)
      removeGadget msg dev devId rest
  | exist _ (Some (Some gad, rest)) _ =>
      unregister_gadget gad (UnregisteringGad msg dev devId rest gad) }.
Proof.
  unfold pop in e.
  destruct (rev gadTbl) as [|x r] eqn:E; [discriminate|].
  inversion e; subst.
  rewrite <- (length_rev gadTbl), E, length_rev. simpl. lia.
Qed.

Definition removeGadget_unregistered (msg : AddrMsg) (dev : Device) (devId : option nat)
    (gadTbl : list (option Gadget)) (gad : Gadget) (err : option Err) : M unit :=
  let gadId := idVal (gad_id gad) in
  let auxId := auxVal (gad_auxId gad) in
  match err with
  | None =>
      _fire (EVT_TOP GAD_LEAVING)
            (VObj [("ncName", VStr (am_ncName msg)); ("permAddr", VStr (am_permAddr msg));
                   ("auxId", auxId); ("id", gadId)]) ;;
      _tweet "gad" (Name "gadLeaving") gadId
             (VObj [("netcore", VStr (am_ncName msg)); ("permAddr", VStr (am_permAddr msg));
                    ("auxId", auxId)])
  | Some err =>
      _fire (Name "warn") (VErr err) ;;
      _tweet "gad" (Name "error") gadId (errorInfo (am_ncName msg) err)
  end ;;
  removeGadget msg dev devId gadTbl.

Definition ncDevLeaving_unregistered (msg : AddrMsg) (devId : option nat)
                                     (err : option Err) : M unit :=
  match err with
  | None =>
      _fire (EVT_TOP DEV_LEAVING)
            (VObj [("ncName", VStr (am_ncName msg)); ("permAddr", VStr (am_permAddr msg));
                   ("id", idVal devId)]) ;;
      _tweet "dev" (Name "devLeaving") (idVal devId) (addrInfo msg)
  | Some err =>
      _fire (Name "warn") (VErr err) ;;
      _tweet "dev" (Name "error") (idVal devId) (errorInfo (am_ncName msg) err)
  end.

Definition ncDevLeaving (msg : AddrMsg) : M unit :=
  nc <- findByNet_netcore (am_ncName msg) ;;
  dev <- findByNet_device (am_ncName msg) (am_permAddr msg) ;;
  match dev with
  | None => ret tt                                  (* dev not found, do nothing *)
  | Some dev =>
      call (Method (RDev (dev_oid dev)) "_poke" []) ;;
      let devId := dev_id dev in
      call (Method (RDev (dev_oid dev)) "set" [VStr "net"; offline]) ;;
      if dev_removing dev
      then gadTbl <- gets (fun fb =>
                       map (fun rec => getGadget fb (rec_gadId rec)) (dev_gadTable dev)) ;;
           removeGadget msg dev devId gadTbl
      else ret tt
  end.

(** *** Banned devices and gadgets, and handlers.ncNetBan *)

(** [nc.remove(permAddr, cb)], where [nc] may be undefined *)
Definition nc_remove (nc : option Netcore) (permAddr : string) (cb : Pending) : M unit :=
  match nc with
  | None => throw (TypeError "nc is undefined: nc.remove")
  | Some nc => call (NcRemove (nc_name nc) permAddr) ;; await cb
  end.

(** The callback given to [nc.remove] by [ncNetBan] and by [bannedComponent]. *)
Definition nc_remove_done (ncName : string) (dev : Device) (err : option Err) : M unit :=
  match err with
  | Some err =>
      d <- nowDev dev ;;
      _fire (Name "warn") (VErr err) ;;
      _tweet "dev" (Name "error") (idVal (dev_id d)) (errorInfo ncName err)
  | None => ret tt
  end.

Definition ncNetBan (msg : AddrMsg) : M unit :=
  let ncName := am_ncName msg in
  let permAddr := am_permAddr msg in
  nc <- findByNet_netcore ncName ;;
  dev <- findByNet_device ncName permAddr ;;
  match dev with
  | Some dev => nc_remove nc permAddr (Removing ncName dev)
  | None => ret tt
  end.

Definition getBannedEventName (type indType : string) : EvtName :=
  if String.eqb type "device" then
    if String.eqb indType "bannedReport" then EVT_TOP DEV_BAN_REPORTING
    else if String.eqb indType "bannedIncoming" then EVT_TOP DEV_BAN_INCOMING
    else NoName
  else if String.eqb type "gadget" then
    if String.eqb indType "bannedReport" then EVT_TOP GAD_BAN_REPORTING
    else if String.eqb indType "bannedIncoming" then EVT_TOP GAD_BAN_INCOMING
    else NoName
  else NoName.

Definition bannedGad_unregistered (msg : BanMsg) (gadId : option nat)
                                  (err : option Err) : M unit :=
  match err with
  | None =>
      _fire (EVT_TOP GAD_LEAVING)
            (VObj [("ncName", VStr (bm_ncName msg)); ("permAddr", VStr (bm_permAddr msg));
                   ("auxId", optAuxVal (bm_auxId msg)); ("id", idVal gadId)]) ;;
      _tweet "gad" (Name "gadLeaving") (idVal gadId)
             (VObj [("netcore", VStr (bm_ncName msg)); ("permAddr", VStr (bm_permAddr msg));
                    ("auxId", optAuxVal (bm_auxId msg))])
  | Some err =>
      _fire (Name "warn") (VErr err) ;;
      _tweet "gad" (Name "error") (idVal gadId) (errorInfo (bm_ncName msg) err)
  end.

Definition bannedComponent (type indType : string) (msg : BanMsg) : M unit :=
  nc <- findByNet_netcore (bm_ncName msg) ;;
  let ncName := bm_ncName msg in
  let permAddr := bm_permAddr msg in
  let evtName := getBannedEventName type indType in
  if String.eqb type "device" then
    component <- findByNet_device ncName permAddr ;;
    let componentId := match component with
                       | Some c => idVal (dev_id c)
                       | None => VNum 0
                       end in
    _fire evtName (VObj [("ncName", VStr ncName); ("permAddr", VStr permAddr)]) ;;
    _tweet "dev" evtName componentId
           (VObj [("netcore", VStr ncName); ("permAddr", VStr permAddr)]) ;;
    match component with
    | Some c => nc_remove nc permAddr (Removing ncName c)
    | None => ret tt
    end
  else if String.eqb type "gadget" then
    component <- findByNet_gadget ncName permAddr (bm_auxId msg) ;;
    let componentId := match component with
                       | Some c => idVal (gad_id c)
                       | None => VNum 0
                       end in
    _fire evtName (VObj [("ncName", VStr ncName); ("permAddr", VStr permAddr);
                         ("auxId", optAuxVal (bm_auxId msg))]) ;;
    _tweet "gad" evtName componentId
           (VObj [("netcore", VStr ncName); ("permAddr", VStr permAddr);
                  ("auxId", optAuxVal (bm_auxId msg))]) ;;
    match component with
    | Some c =>
        let gadId := gad_id c in
        unregister_gadget c (BanUnregistering msg c gadId)
    | None => ret tt
    end
  else ret tt.

Definition ncBannedDevIncoming (msg : BanMsg) : M unit :=
  bannedComponent "device" "bannedIncoming" msg.

Definition ncBannedDevReporting (msg : BanMsg) : M unit :=
  bannedComponent "device" "bannedReport" msg.

Definition ncBannedGadIncoming (msg : BanMsg) : M unit :=
  bannedComponent "gadget" "bannedIncoming" msg.

Definition ncBannedGadReporting (msg : BanMsg) : M unit :=
  bannedComponent "gadget" "bannedReport" msg.

(** *** The generic update pipeline *)

Definition getUpdateEventName (type namespace : string) : EvtName :=
  if String.eqb type "dev" then
    if String.eqb namespace "net" then EVT_TOP DEV_NET_CHANGED
    else if String.eqb namespace "props" then EVT_TOP DEV_PROPS_CHANGED
    else if String.eqb namespace "attrs" then EVT_TOP DEV_ATTRS_CHANGED
    else NoName
  else if String.eqb type "gad" then
    if String.eqb namespace "panel" then EVT_TOP GAD_PANEL_CHANGED
    else if String.eqb namespace "props" then EVT_TOP GAD_PROPS_CHANGED
    else if String.eqb namespace "attrs" then EVT_TOP GAD_ATTRS_CHANGED
    else NoName
  else NoName.

(** [evtName === EVT_TOP.DEV_NET_CHANGED] *)
Definition isDevNetChanged (evtName : EvtName) : bool :=
  match evtName with
  | EVT_TOP DEV_NET_CHANGED => true
  | _ => false
  end.

(** [delta.status]: reading a property of undefined or null throws. *)
Definition getProp (v : JsVal) (key : string) : M JsVal :=
  match v with
  | VUndef | VNull => throw (TypeError "cannot read a property of undefined")
  | _ => ret (prop v key)
  end.

Definition updateComponent_modified (type namespace : string) (msg : UpdMsg)
                                    (res : Err + JsVal) : M unit :=
  let ncName := um_ncName msg in
  let id := um_id msg in
  let delta := um_data msg in
  let evtName := getUpdateEventName type namespace in
  match res with
  | inl err =>
      _fire (Name "warn") (VErr err) ;;
      _tweet type (Name "error") id (errorInfo ncName err)
  | inr diff =>
      _fire evtName (updMsgVal msg) ;;
      _tweet type (Name (String.append namespace "Changed")) (um_id msg) delta ;;
      if isDevNetChanged evtName then
        status <- getProp delta "status" ;;
        if truthy status then
          _fire (EVT_TOP DEV_STATUS_CHANGED)
                (VObj [("ncName", VStr (um_ncName msg)); ("permAddr", VStr (um_permAddr msg));
                       ("id", um_id msg); ("data", VObj [("status", status)])]) ;;
          _tweet "dev" (Name "statusChanged") (um_id msg) (VObj [("status", status)])
        else ret tt
      else ret tt
  end.

Definition updateComponent (type namespace : string) (msg : UpdMsg) : M unit :=
  let box := if String.eqb type "dev" then Devbox else Gadbox in
  call (BoxModify box (um_id msg) namespace (um_data msg)) ;;
  await (Modifying type namespace msg).

Definition devNetChanged (msg : UpdMsg) : M unit := updateComponent "dev" "net" msg.
Definition devAttrsChanged (msg : UpdMsg) : M unit := updateComponent "dev" "attrs" msg.
Definition gadPanelChanged (msg : UpdMsg) : M unit := updateComponent "gad" "panel" msg.
Definition gadAttrsChanged (msg : UpdMsg) : M unit := updateComponent "gad" "attrs" msg.

(** *** The listeners attached by [attachEventListeners], and the environment *)

Inductive Notification :=
| OnNcDevIncoming (msg : DevMsg)
| OnNcDevLeaving (msg : AddrMsg)
| OnNcGadIncoming (msg : GadMsg)
| OnNcBannedDevIncoming (msg : BanMsg)
| OnNcBannedDevReporting (msg : BanMsg)
| OnNcBannedGadIncoming (msg : BanMsg)
| OnNcBannedGadReporting (msg : BanMsg)
| OnNcNetBan (msg : AddrMsg)
| OnDevNetChanged (msg : UpdMsg)
| OnDevAttrsChanged (msg : UpdMsg)
| OnGadPanelChanged (msg : UpdMsg)
| OnGadAttrsChanged (msg : UpdMsg).

(** [freebird.emit(EVT_BTM.X, msg)] *)
Definition emit (n : Notification) : M unit :=
  match n with
  | OnNcDevIncoming msg => ncDevIncoming msg
  | OnNcDevLeaving msg => ncDevLeaving msg
  | OnNcGadIncoming msg => emit_NcGadIncoming msg
  | OnNcBannedDevIncoming msg => ncBannedDevIncoming msg
  | OnNcBannedDevReporting msg => ncBannedDevReporting msg
  | OnNcBannedGadIncoming msg => ncBannedGadIncoming msg
  | OnNcBannedGadReporting msg => ncBannedGadReporting msg
  | OnNcNetBan msg => ncNetBan msg
  | OnDevNetChanged msg => devNetChanged msg
  | OnDevAttrsChanged msg => devAttrsChanged msg
  | OnGadPanelChanged msg => gadPanelChanged msg
  | OnGadAttrsChanged msg => gadAttrsChanged msg
  end.

(** The callback behind a pending call, applied to what the collaborator
    reports; [None] when the report is not one this collaborator makes. *)
Definition resume (p : Pending) (o : Outcome) : option (M unit) :=
  match p, o with
  | CookingDev msg nc dev queueEvent, Failed err =>
      Some (ncDevIncoming_cooked msg nc dev queueEvent (inl err))
  | CookingDev msg nc dev queueEvent, CookedDev brewedDev =>
      Some (ncDevIncoming_cooked msg nc dev queueEvent (inr brewedDev))
  | RegisteringDev msg devIn queueEvent, Failed err =>
      Some (ncDevIncoming_registered msg devIn queueEvent (inl err))
  | RegisteringDev msg devIn queueEvent, Registered id =>
      Some (ncDevIncoming_registered msg (setDevId (Some id) devIn) queueEvent (inr id))
  | UnregisteringGad msg dev devId gadTbl gad, Failed err =>
      Some (removeGadget_unregistered msg dev devId gadTbl gad (Some err))
  | UnregisteringGad msg dev devId gadTbl gad, Succeeded _ =>
      Some (removeGadget_unregistered msg dev devId gadTbl gad None)
  | UnregisteringDev msg dev devId, Failed err =>
      Some (ncDevLeaving_unregistered msg devId (Some err))
  | UnregisteringDev msg dev devId, Succeeded _ =>
      Some (ncDevLeaving_unregistered msg devId None)
  | Sleeping c, Elapsed => Some (doGadCook c)
  | CookingGad c nc, Failed err => Some (ncGadIncoming_cooked c nc (inl err))
  | CookingGad c nc, CookedGad brewedGad => Some (ncGadIncoming_cooked c nc (inr brewedGad))
  | RegisteringGad msg gadIn, Failed err =>
      Some (ncGadIncoming_registered msg gadIn (inl err))
  | RegisteringGad msg gadIn, Registered id =>
      Some (ncGadIncoming_registered msg (setGadId (Some id) gadIn) (inr id))
  | Removing ncName dev, Failed err => Some (nc_remove_done ncName dev (Some err))
  | Removing ncName dev, Succeeded _ => Some (nc_remove_done ncName dev None)
  | BanUnregistering msg gad gadId, Failed err =>
      Some (bannedGad_unregistered msg gadId (Some err))
  | BanUnregistering msg gad gadId, Succeeded _ =>
      Some (bannedGad_unregistered msg gadId None)
  | Modifying type namespace msg, Failed err =>
      Some (updateComponent_modified type namespace msg (inl err))
  | Modifying type namespace msg, Succeeded diff =>
      Some (updateComponent_modified type namespace msg (inr diff))
  | _, _ => None
  end.

(** [arr.splice(k, 1)] *)
Fixpoint dropNth {A} (k : nat) (arr : list A) : list A :=
  match arr, k with
  | [], _ => []
  | _ :: rest, O => rest
  | x :: rest, S k => x :: dropNth k rest
  end.

(** The collaborator behind the [k]-th pending call calls back. *)
Definition complete (k : nat) (o : Outcome) : M unit :=
  pend <- gets pending ;;
  match nth_error pend k with
  | None => ret tt
  | Some p =>
      match resume p o with
      | None => ret tt
      | Some callback =>
          modify (set_pending (dropNth k pend)) ;;
          call (Back o) ;;
          settle p o ;;
          callback
      end
  end.

(** A netcore opens or closes its network for joining: what its
    [isJoinable()] answers from then on. *)
Definition permitJoin (ncName : string) (joinable : bool) : M unit :=
  modify (fun fb =>
    set_netcores (map (fun nc => if String.eqb (nc_name nc) ncName
                                 then mkNetcore (nc_name nc) joinable
                                 else nc) (netcores fb)) fb).

(** What the environment does: a netcore (or a domain object) raises a
    notification, a collaborator calls back, a netcore changes its join
    permission. *)
Inductive Event :=
| Notify (n : Notification)
| Complete (k : nat) (o : Outcome)
| PermitJoin (ncName : string) (joinable : bool).

Definition handle (e : Event) : M unit :=
  match e with
  | Notify n => emit n
  | Complete k o => complete k o
  | PermitJoin ncName joinable => permitJoin ncName joinable
  end.

Definition step (fb : Freebird) (e : Event) : Freebird := exec (handle e) fb.

Definition run (events : list Event) (fb : Freebird) : Freebird :=
  fold_left step events fb.

(** A freebird with its netcores, before anything has happened. *)
Definition fresh (ncs : list Netcore) : Freebird :=
  mkFreebird ncs [] [] [] [] 0 [] [].

(** *** Notions used to state the properties *)

(** **** Kinds of calls *)

Definition isFire (c : Call) : bool :=
  match c with Fire _ _ => true | _ => false end.

Definition isTweet (c : Call) : bool :=
  match c with Tweet _ _ _ _ => true | _ => false end.

Definition isEmit (c : Call) : bool :=
  match c with Emit _ => true | _ => false end.

Definition isUnregister (c : Call) : bool :=
  match c with Unregister _ => true | _ => false end.

Definition isSetTimeout (c : Call) : bool :=
  match c with SetTimeout _ => true | _ => false end.

(** A call that changes a registry, or asks a netcore to remove a device. *)
Definition isCommand (c : Call) : bool :=
  match c with
  | Register _ | Unregister _ | BoxModify _ _ _ _ | NcRemove _ _ => true
  | _ => false
  end.

(** A call that announces something (an event, an indication) or
    commands a registry or a netcore. *)
Definition isLoud (c : Call) : bool := isFire c || isTweet c || isCommand c.

(** The calls [ncGadIncoming] makes before its cook: calls on the device
    object, the retry timer, the cook itself. *)
Definition isGadStart (c : Call) : bool :=
  match c with
  | Method _ _ _ | SetTimeout _ | CookRawGad _ _ _ _ => true
  | _ => false
  end.

(** The delay a call asks of the timer, in milliseconds. *)
Definition delay (c : Call) : nat :=
  match c with
  | SetTimeout ms => ms
  | _ => 0
  end.

(** **** Before and after *)

(** The calls made on the way from [fb] to [fb']. *)
Definition since (fb fb' : Freebird) : list Call :=
  skipn (List.length (trace fb)) (trace fb').

(** The notification left no mark: both registries are as they were, and
    no event, indication or command went out. *)
Definition droppedSilently (fb fb' : Freebird) : Prop :=
  devbox fb' = devbox fb /\ gadbox fb' = gadbox fb /\
  existsb isLoud (since fb fb') = false.

(** What the handlers of a replayed notification leave untouched. *)
Definition sameWorld (s s' : Freebird) : Prop :=
  netcores s' = netcores s /\ devbox s' = devbox s /\ gadbox s' = gadbox s /\
  listeners s' = listeners s /\ nextListener s' = nextListener s.

(** States that a run from a fresh freebird goes through. *)
Definition reachable (fb : Freebird) : Prop :=
  exists ncs events, fb = run events (fresh ncs).

(** One change of join permission. *)
Definition toggle (t : string * bool) : Event := PermitJoin (fst t) (snd t).

(** How a collaborator reports the end of an unregister or remove call. *)
Definition report (err : option Err) : Outcome :=
  match err with
  | Some e => Failed e
  | None => Succeeded VUndef
  end.

(** What the dispatcher of [lib/freebird.js] is asked to do by a
    sequence of calls: its [_fire] and [_tweet]. *)
Definition dispatch (calls : list Call) : list Dispatcher.Act :=
  flat_map (fun c => match c with
                     | Fire evt data => [Dispatcher.Fire evt data]
                     | Tweet subsys indType id data =>
                         [Dispatcher.Tweet subsys indType id data]
                     | _ => []
                     end) calls.

(** The payload of the status-changed event. *)
Definition statusChangedEvent (msg : UpdMsg) (status : JsVal) : JsVal :=
  VObj [("ncName", VStr (um_ncName msg)); ("permAddr", VStr (um_permAddr msg));
        ("id", um_id msg); ("data", VObj [("status", status)])].

(** **** The coalescing queue *)

(** The key of a queued gadget notification. *)
Definition gadKey (msg : GadMsg) : string * string * AuxId :=
  (gm_ncName msg, gm_permAddr msg, gm_auxId msg).

(** Entries of the coalescing queue that carry the key of [msg]. *)
Definition keyCount (queue : list GadMsg) (msg : GadMsg) : nat :=
  List.length (filter (sameGadKey msg) queue).

Definition atMostOnePerKey (queue : list GadMsg) : Prop :=
  forall msg, keyCount queue msg <= 1.

(** **** Payloads and call sequences *)

Definition bannedDevInfo (msg : BanMsg) : JsVal :=
  VObj [("netcore", VStr (bm_ncName msg)); ("permAddr", VStr (bm_permAddr msg))].

Definition bannedDevEvent (msg : BanMsg) : JsVal :=
  VObj [("ncName", VStr (bm_ncName msg)); ("permAddr", VStr (bm_permAddr msg))].

(** The payload of the "device incoming" event. *)
Definition devIncomingEvent (msg : DevMsg) (devIn : Device) : JsVal :=
  VObj [("ncName", VStr (dm_ncName msg)); ("permAddr", VStr (dm_permAddr msg));
        ("id", idVal (dev_id devIn)); ("device", VRef (RDev (dev_oid devIn)))].

(** The entries of an array that are not undefined. *)
Definition present {A} (arr : list (option A)) : list A :=
  flat_map (fun o => match o with Some x => [x] | None => [] end) arr.

(** One gadget of the cascade: the unregister call, its completion, and
    what [removeGadget] announces then. *)
Definition gadgetRemoval (msg : AddrMsg) (gad : Gadget) (err : option Err) : list Call :=
  [Unregister (RGad (gad_oid gad)); Back (report err)] ++
  match err with
  | None =>
      [Fire (EVT_TOP GAD_LEAVING)
            (VObj [("ncName", VStr (am_ncName msg)); ("permAddr", VStr (am_permAddr msg));
                   ("auxId", auxVal (gad_auxId gad)); ("id", idVal (gad_id gad))]);
       Tweet "gad" (Name "gadLeaving") (idVal (gad_id gad))
             (VObj [("netcore", VStr (am_ncName msg)); ("permAddr", VStr (am_permAddr msg));
                    ("auxId", auxVal (gad_auxId gad))])]
  | Some e =>
      [Fire (Name "warn") (VErr e);
       Tweet "gad" (Name "error") (idVal (gad_id gad)) (errorInfo (am_ncName msg) e)]
  end.

(** The end of the cascade: the device itself. *)
Definition deviceRemoval (msg : AddrMsg) (dev : Device) (err : option Err) : list Call :=
  [Unregister (RDev (dev_oid dev)); Back (report err)] ++
  match err with
  | None =>
      [Fire (EVT_TOP DEV_LEAVING)
            (VObj [("ncName", VStr (am_ncName msg)); ("permAddr", VStr (am_permAddr msg));
                   ("id", idVal (dev_id dev))]);
       Tweet "dev" (Name "devLeaving") (idVal (dev_id dev)) (addrInfo msg)]
  | Some e =>
      [Fire (Name "warn") (VErr e);
       Tweet "dev" (Name "error") (idVal (dev_id dev)) (errorInfo (am_ncName msg) e)]
  end.

(** [ncGadIncoming] between two readiness checks of [doGadCook]: the
    device still has no id, [j] timers have fired, the next one is set. *)
Definition Retrying (fb : Freebird) (msg : GadMsg) (dev : Device) (j : nat)
                    (s : Freebird) : Prop :=
  devbox s = devbox fb /\ gadbox s = gadbox fb /\
  (exists c, pending s = pending fb ++ [Sleeping c] /\
             gc_msg c = msg /\ gc_dev c = dev /\ gc_syncTimes c = S j) /\
  trace s = trace fb
            ++ [Method (RDev (dev_oid dev)) "_poke" [];
                Method (RDev (dev_oid dev)) "set" [VStr "net"; online]]
            ++ List.concat (repeat [SetTimeout 20; Back Elapsed] j)
            ++ [SetTimeout 20].

(** **** Closures and the callbacks that hold them *)

(** The [queueEvent] closure a pending callback holds, and would remove. *)
Definition owned (p : Pending) : option nat :=
  match p with
  | CookingDev _ _ _ queueEvent | RegisteringDev _ _ queueEvent => Some queueEvent
  | _ => None
  end.

(** A property of the listeners, the next name and the pending
    callbacks, and the computations that keep it. *)
Definition holds (Q : list nat -> nat -> list Pending -> Prop) (fb : Freebird) : Prop :=
  Q (listeners fb) (nextListener fb) (pending fb).

Definition Preserves {A} (Q : list nat -> nat -> list Pending -> Prop) (m : M A) : Prop :=
  forall fb, holds Q fb -> holds Q (fst (m fb)).

(** Closures are named in the order they are created. *)
Definition orderedQ (ls : list nat) (n : nat) (pend : list Pending) : Prop :=
  (forall l, In l ls -> l < n) /\
  (forall p q, In p pend -> owned p = Some q -> q < n).

Definition namesInOrder (fb : Freebird) : Prop := holds orderedQ fb.

(** The closure [l] is attached and no pending callback will remove it. *)
Definition leakedQ (l : nat) (ls : list nat) (n : nat) (pend : list Pending) : Prop :=
  In l ls /\ l < n /\ (forall p, In p pend -> owned p <> Some l).

Definition Leaked (l : nat) (fb : Freebird) : Prop := holds (leakedQ l) fb.

(** *** lib/freebird.js: [findById] and [findByNet], with their type argument *)

Inductive Found :=
| FoundNetcore (nc : option Netcore)
| FoundDevice (dev : option Device)
| FoundGadget (gad : option Gadget).

(** [new TypeError('Unknow type: ' + type + ' to find with')] *)
Definition unknownType (type : string) : Exn :=
  TypeError (String.append "Unknow type: " (String.append type " to find with")).

Definition findByNet (type ncName permAddr : string) (auxId : option AuxId) : M Found :=
  if String.eqb type "netcore" then
    nc <- findByNet_netcore ncName ;; ret (FoundNetcore nc)
  else if String.eqb type "device" then
    dev <- findByNet_device ncName permAddr ;; ret (FoundDevice dev)
  else if String.eqb type "gadget" then
    gad <- findByNet_gadget ncName permAddr auxId ;; ret (FoundGadget gad)
  else throw (unknownType type).

(** [findById('device', id)], that is [this._devbox.get(id)] *)
Definition getDevice (fb : Freebird) (id : nat) : option Device :=
  find (fun dev => match dev_id dev with
                   | Some i => Nat.eqb i id
                   | None => false
                   end) (devbox fb).

(** [nc.getName() === id] *)
Definition isName (name : string) (id : JsVal) : bool :=
  match id with
  | VStr s => String.eqb name s
  | _ => false
  end.

(** The registry ids are the natural numbers. *)
Definition boxId (id : JsVal) : option nat :=
  match id with
  | VNum n => if Z.leb 0 n then Some (Z.to_nat n) else None
  | _ => None
  end.

Definition findById (type : string) (id : JsVal) : M Found :=
  if String.eqb type "netcore" then
    gets (fun fb => FoundNetcore (find (fun nc => isName (nc_name nc) id) (netcores fb)))
  else if String.eqb type "device" then
    gets (fun fb => FoundDevice (match boxId id with
                                 | Some n => getDevice fb n
                                 | None => None
                                 end))
  else if String.eqb type "gadget" then
    gets (fun fb => FoundGadget (match boxId id with
                                 | Some n => getGadget fb n
                                 | None => None
                                 end))
  else throw (unknownType type).

(** *** handlers.ncDevNetChanging, ncDevReporting, ncGadReporting *)

Record ReportMsg := mkReportMsg {  (* { ncName, permAddr, [auxId], data, [appendFlag] } *)
  rm_ncName : string;
  rm_permAddr : string;
  rm_auxId : option AuxId;       (* undefined in the device shapes *)
  rm_data : JsVal;
  rm_appendFlag : JsVal
}.

Definition ncDevNetChanging (msg : ReportMsg) : M unit :=
  dev <- findByNet_device (rm_ncName msg) (rm_permAddr msg) ;;
  match dev with
  | Some dev => call (Method (RDev (dev_oid dev)) "set" [VStr "net"; rm_data msg])
  | None => ret tt
  end.

Definition ncDevReporting (msg : ReportMsg) : M unit :=
  dev <- findByNet_device (rm_ncName msg) (rm_permAddr msg) ;;
  match dev with
  | None => ret tt
  | Some dev =>
      let devId := dev_id dev in
      call (Method (RDev (dev_oid dev)) "_poke" []) ;;
      call (Method (RDev (dev_oid dev)) "set" [VStr "net"; online]) ;;
      call (Method (RDev (dev_oid dev)) "set" [VStr "attrs"; rm_data msg]) ;;
      _fire (EVT_TOP DEV_REPORTING)
            (VObj [("ncName", VStr (rm_ncName msg)); ("permAddr", VStr (rm_permAddr msg));
                   ("id", idVal devId); ("data", rm_data msg)])
      (* no need to tweet *)
  end.

Definition ncGadReporting (msg : ReportMsg) : M unit :=
  let ncName := rm_ncName msg in
  dev <- findByNet_device ncName (rm_permAddr msg) ;;
  gad <- findByNet_gadget ncName (rm_permAddr msg) (rm_auxId msg) ;;
  match dev with
  | None => ret tt
  | Some dev =>
      call (Method (RDev (dev_oid dev)) "_poke" []) ;;
      call (Method (RDev (dev_oid dev)) "set" [VStr "net"; online]) ;;
      match gad with
      | None => ret tt
      | Some gad =>
          (if negb (truthy (rm_appendFlag msg))
           then call (Method (RGad (gad_oid gad)) "set" [VStr "attrs"; rm_data msg])
           else call (Method (RGad (gad_oid gad)) "_dangerouslyAppendAttrs" [rm_data msg])) ;;
          _fire (EVT_TOP GAD_REPORTING)
                (VObj [("ncName", VStr (rm_ncName msg)); ("permAddr", VStr (rm_permAddr msg));
                       ("auxId", optAuxVal (rm_auxId msg)); ("id", idVal (gad_id gad));
                       ("data", rm_data msg)]) ;;
          _tweet "gad" (Name "attrsReport") (idVal (gad_id gad)) (rm_data msg)
      end
  end.

(** *** handlers.ncError, devError, gadError *)

Record ErrMsg := mkErrMsg {        (* { ncName, error, [id] } *)
  em_ncName : string;
  em_error : option Err;         (* undefined when the message carries no error *)
  em_id : JsVal
}.

Definition errVal (error : option Err) : JsVal :=
  match error with
  | Some e => VErr e
  | None => VUndef
  end.

(** [msg.error.message]: reading a property of undefined throws. *)
Definition errMessage (error : option Err) : M string :=
  match error with
  | Some e => ret (message e)
  | None => throw (TypeError "cannot read a property of undefined")
  end.

Definition errorMessageInfo (ncName message : string) : JsVal :=
  VObj [("netcore", VStr ncName); ("message", VStr message)].

Definition ncError (errMsg : ErrMsg) : M unit :=
  _fire (EVT_TOP ERROR) (errVal (em_error errMsg)) ;;
  m <- errMessage (em_error errMsg) ;;
  _tweet "net" (Name "error") (VNum 0) (errorMessageInfo (em_ncName errMsg) m).

Definition devError (msg : ErrMsg) : M unit :=
  _fire (Name "warn") (errVal (em_error msg)) ;;
  m <- errMessage (em_error msg) ;;
  _tweet "dev" (Name "error") (em_id msg) (errorMessageInfo (em_ncName msg) m).

Definition gadError (msg : ErrMsg) : M unit :=
  _fire (Name "warn") (errVal (em_error msg)) ;;
  m <- errMessage (em_error msg) ;;
  _tweet "gad" (Name "error") (em_id msg) (errorMessageInfo (em_ncName msg) m).

(** *** Further notions *)

(** The [net/error] indication the cook and registration callbacks send. *)
Definition netError (ncName : string) (err : Err) : Call :=
  Tweet "net" (Name "error") (VNum 0) (errorInfo ncName err).

(** What [ncDevIncoming] copies from the cooked object onto a device that
    is registered already. *)
Definition devRefresh (dev devIn : Device) : list Call :=
  let r := RDev (dev_oid dev) in
  let rIn := RDev (dev_oid devIn) in
  [Method r "_poke" [];
   Method r "set" [VStr "_raw"; VGet rIn ["raw"]];
   Assign r "extra" (VGet rIn ["extra"]);
   Method r "set"
     [VStr "net";
      VObj [("role", VGet rIn ["net"; "role"]);
            ("parent", VGet rIn ["net"; "parent"]);
            ("maySleep", VGet rIn ["net"; "maySleep"]);
            ("sleepPeriod", VGet rIn ["net"; "sleepPeriod"]);
            ("address", VGet rIn ["net"; "address"])]];
   Method r "set" [VStr "attrs"; VGet rIn ["attrs"]];
   Method r "set" [VStr "net"; online]].

(** What [ncGadIncoming] copies from the cooked object onto a gadget that
    is registered already; the name only while it is ['unknown']. *)
Definition gadRefresh (gad gadIn : Gadget) (name : string) : list Call :=
  let r := RGad (gad_oid gad) in
  let rIn := RGad (gad_oid gadIn) in
  [Method r "set" [VStr "_raw"; VGet rIn ["raw"]];
   Assign r "extra" (VGet rIn ["extra"]);
   Method r "set" [VStr "panel"; VGet rIn ["panel"]];
   Method r "set" [VStr "attrs"; VGet rIn ["attrs"]]]
  ++ (if String.eqb name "unknown" then [nameFromPanel r rIn] else []).

(** The payload of the "gadget incoming" event. *)
Definition gadIncomingEvent (msg : GadMsg) (gadIn : Gadget) : JsVal :=
  VObj [("ncName", VStr (gm_ncName msg)); ("permAddr", VStr (gm_permAddr msg));
        ("auxId", auxVal (gm_auxId msg)); ("id", idVal (gad_id gadIn));
        ("gadget", VRef (RGad (gad_oid gadIn)))].

(** The announcement of a registered gadget. *)
Definition gadAnnounce (msg : GadMsg) (gadIn : Gadget) : list Call :=
  let r := RGad (gad_oid gadIn) in
  [Method r "enable" []]
  ++ (if String.eqb (gad_name gadIn) "unknown" then [nameFromPanel r r] else [])
  ++ [Fire (EVT_TOP GAD_INCOMING) (gadIncomingEvent msg gadIn);
      Tweet "gad" (Name "gadIncoming") (idVal (gad_id gadIn)) (VDump r)].

(** The calls [ncGadIncoming] makes on the device it found. *)
Definition touch (dev : Device) : list Call :=
  [Method (RDev (dev_oid dev)) "_poke" [];
   Method (RDev (dev_oid dev)) "set" [VStr "net"; online]].

(** The two payloads of a banned gadget's notification. *)
Definition bannedGadEvent (msg : BanMsg) : JsVal :=
  VObj [("ncName", VStr (bm_ncName msg)); ("permAddr", VStr (bm_permAddr msg));
        ("auxId", optAuxVal (bm_auxId msg))].

Definition bannedGadInfo (msg : BanMsg) : JsVal :=
  VObj [("netcore", VStr (bm_ncName msg)); ("permAddr", VStr (bm_permAddr msg));
        ("auxId", optAuxVal (bm_auxId msg))].

(** What the callback of a banned gadget's unregistration announces. *)
Definition bannedGadLeaving (msg : BanMsg) (gadId : option nat) (err : option Err)
  : list Call :=
  match err with
  | None =>
      [Fire (EVT_TOP GAD_LEAVING)
            (VObj [("ncName", VStr (bm_ncName msg)); ("permAddr", VStr (bm_permAddr msg));
                   ("auxId", optAuxVal (bm_auxId msg)); ("id", idVal gadId)]);
       Tweet "gad" (Name "gadLeaving") (idVal gadId) (bannedGadInfo msg)]
  | Some e =>
      [Fire (Name "warn") (VErr e);
       Tweet "gad" (Name "error") (idVal gadId) (errorInfo (bm_ncName msg) e)]
  end.

(** What the callback of [nc.remove] announces. *)
Definition removeFailure (ncName : string) (devId : option nat) (err : option Err)
  : list Call :=
  match err with
  | None => []
  | Some e =>
      [Fire (Name "warn") (VErr e);
       Tweet "dev" (Name "error") (idVal devId) (errorInfo ncName e)]
  end.

(** The two notifications of a banned gadget, and of a banned device,
    with the event each of them raises. *)
Definition bannedGadNotification (n : Notification) (evt : TopEvt) (msg : BanMsg) : Prop :=
  (n = OnNcBannedGadIncoming msg /\ evt = GAD_BAN_INCOMING) \/
  (n = OnNcBannedGadReporting msg /\ evt = GAD_BAN_REPORTING).

Definition bannedDevNotification (n : Notification) (evt : TopEvt) (msg : BanMsg) : Prop :=
  (n = OnNcBannedDevIncoming msg /\ evt = DEV_BAN_INCOMING) \/
  (n = OnNcBannedDevReporting msg /\ evt = DEV_BAN_REPORTING).

(** The four notifications that go through [updateComponent], with the
    type and the namespace their handlers pass. *)
Definition updateOf (n : Notification) : option (string * string * UpdMsg) :=
  match n with
  | OnDevNetChanged msg => Some ("dev", "net", msg)
  | OnDevAttrsChanged msg => Some ("dev", "attrs", msg)
  | OnGadPanelChanged msg => Some ("gad", "panel", msg)
  | OnGadAttrsChanged msg => Some ("gad", "attrs", msg)
  | _ => None
  end.

Definition boxOf (type : string) : Box :=
  if String.eqb type "dev" then Devbox else Gadbox.

(** The event and the indication of a change that the registry took. *)
Definition changedPair (type namespace : string) (msg : UpdMsg) : list Call :=
  [Fire (getUpdateEventName type namespace) (updMsgVal msg);
   Tweet type (Name (String.append namespace "Changed")) (um_id msg) (um_data msg)].

(** The event and the indication of a change that the registry refused. *)
Definition updateFailure (type : string) (msg : UpdMsg) (err : Err) : list Call :=
  [Fire (Name "warn") (VErr err);
   Tweet type (Name "error") (um_id msg) (errorInfo (um_ncName msg) err)].

(** [delta] is undefined or null. *)
Definition isNil (v : JsVal) : bool :=
  match v with
  | VUndef | VNull => true
  | _ => false
  end.

(** The payloads of the two reporting events. *)
Definition devReportingEvent (msg : ReportMsg) (devId : option nat) : JsVal :=
  VObj [("ncName", VStr (rm_ncName msg)); ("permAddr", VStr (rm_permAddr msg));
        ("id", idVal devId); ("data", rm_data msg)].

Definition gadReportingEvent (msg : ReportMsg) (gadId : option nat) : JsVal :=
  VObj [("ncName", VStr (rm_ncName msg)); ("permAddr", VStr (rm_permAddr msg));
        ("auxId", optAuxVal (rm_auxId msg)); ("id", idVal gadId);
        ("data", rm_data msg)].

(** How [ncGadReporting] hands the attributes to the gadget. *)
Definition attrsCall (gad : Gadget) (msg : ReportMsg) : Call :=
  if truthy (rm_appendFlag msg)
  then Method (RGad (gad_oid gad)) "_dangerouslyAppendAttrs" [rm_data msg]
  else Method (RGad (gad_oid gad)) "set" [VStr "attrs"; rm_data msg].

(** The three error handlers, with the event each fires, the subsystem
    and the id of its indication. *)
Definition errorHandlers : list ((ErrMsg -> M unit) * EvtName * string * (ErrMsg -> JsVal)) :=
  [(ncError, EVT_TOP ERROR, "net", fun _ => VNum 0);
   (devError, Name "warn", "dev", em_id);
   (gadError, Name "warn", "gad", em_id)].

(** The types [findById] and [findByNet] know. *)
Definition isFindType (type : string) : bool :=
  String.eqb type "netcore" || String.eqb type "device" || String.eqb type "gadget".

End Handlers.

(* ===================================================================== *)
(** ** lib/freebird.js: the constructor                                   *)
(* ===================================================================== *)

Module Construction.

Inductive Thrown :=
| Error (message : string)
| TypeError (message : string).

(** JavaScript numbers are IEEE 754 doubles. *)
Definition Num : Type := spec_float.

Definition prec : Z := 53.
Definition emax : Z := 1024.

(** The double nearest to a whole number; a number literal of the source. *)
Definition num (z : Z) : Num := binary_normalize prec emax z 0 false.

(** [a * b] and [a < b] on numbers *)
Definition mul (a b : Num) : Num := SFmul prec emax a b.
Definition lt (a b : Num) : bool := SFltb a b.

(** A number is falsy when it is zero or NaN. *)
Definition numTruthy (n : Num) : bool :=
  match n with
  | S754_zero _ | S754_nan => false
  | _ => true
  end.

(** [options.maxDevNum] and [options.maxGadNum]: numbers, or undefined. *)
Record Options := mkOptions {
  maxDevNum : option Num;
  maxGadNum : option Num
}.

(** The option is not given, or given as zero or NaN. *)
Definition unset (v : option Num) : bool :=
  match v with
  | Some n => negb (numTruthy n)
  | None => true
  end.

(** [v || d] on a number that may be undefined *)
Definition orElse (v : option Num) (d : Num) : Num :=
  match v with
  | Some n => if numTruthy n then n else d
  | None => d
  end.

(** An element of [netcores]: what [validate.isNetcore] of
    lib/utils/validate.js says of it, and the netcore it is. *)
Record Candidate := mkCandidate {
  isNetcore : bool;
  netcore : Handlers.Netcore
}.

Definition getName (nc : Candidate) : string := Handlers.nc_name (netcore nc).

(** The first argument: one netcore, or an array of them. *)
Inductive NetcoresArg :=
| One (nc : Candidate)
| Many (ncs : list Candidate).

Definition string_of_nat (i : nat) : string := NilZero.string_of_uint (Nat.to_uint i).

(** The loop over [netcores], from index [i] on, with [this.__ncNames]. *)
Fixpoint checkNetcores (ncs : list Candidate) (i : nat) (ncNames : list string)
  : Thrown + unit :=
  match ncs with
  | [] => inr tt
  | nc :: rest =>
      if negb (isNetcore nc)
      then inl (TypeError (String.append "Element of index "
                             (String.append (string_of_nat i) " is not a valid netcore")))
      else
        let ncName := getName nc in
        if negb (existsb (String.eqb ncName) ncNames)        (* !_.includes *)
        then checkNetcores rest (S i) (ncNames ++ [ncName])
        else inl (Error (String.append "Netcore name duplicates: " ncName))
  end.

(** The object the constructor leaves. *)
Record Built := mkBuilt {
  b_netcores : list Candidate;            (* this._netcores *)
  b_maxDevNum : Num;                      (* capacity of this._devbox *)
  b_maxGadNum : Num;                      (* capacity of this._gadbox *)
  b_handlers : Handlers.Freebird;         (* registries, _gadEventQueue *)
  b_dispatcher : Dispatcher.Freebird      (* _fire, _eventQueue *)
}.

Definition Freebird (netcores : NetcoresArg) (options : option Options) : Thrown + Built :=
  let options := match options with
                 | Some o => o
                 | None => mkOptions None None       (* options || {} *)
                 end in
  let maxDevNum := orElse (maxDevNum options) (num 200) in
  let maxGadNum := orElse (maxGadNum options) (mul (num 3) maxDevNum) in
  if lt maxGadNum maxDevNum
  then inl (Error "Max gadget number cannot be less than max device number")
  else
    let netcores := match netcores with
                    | One nc => [nc]
                    | Many ncs => ncs
                    end in
    match checkNetcores netcores 0 [] with
    | inl e => inl e
    | inr _ =>
        inr (mkBuilt netcores maxDevNum maxGadNum
                     (Handlers.fresh (map netcore netcores))
                     (Dispatcher.mkFreebird Dispatcher.NormalFire [] [] [] [] []))
    end.

End Construction.

(* ===================================================================== *)
(** ** lib/components/handlers.js: attachEventListeners                   *)
(* ===================================================================== *)

Module Wiring.

(** The events of [EVENTS_FROM_BOTTOM] that [attachEventListeners] names. *)
Inductive Channel :=
| Btm (e : BtmEvt)
| DevRead | DevWrite | DevIdentify
| GadRead | GadWrite | GadExec | GadReadReportCfg | GadWriteReportCfg
| GadPanelChangedDisabled.

(** The keys of the [handlers] object. *)
Inductive Handler :=
| ncError | ncEnabled | ncDisabled | ncStarted | ncStopped | ncReady | ncPermitJoin
| ncDevIncoming | ncDevLeaving | ncDevNetChanging | ncDevReporting
| ncGadIncoming | ncGadReporting
| ncBannedDevIncoming | ncBannedDevReporting | ncBannedGadIncoming | ncBannedGadReporting
| ncNetBan | ncNetUnban | ncNetPing
| devError | devNetChanged | devPropsChanged | devAttrsChanged
| devRead | devWrite | devIdentify
| gadError | gadPanelChanged | gadPropsChanged | gadAttrsChanged | gadAttrsAppend
| gadRead | gadWrite | gadExec | gadReadReportCfg | gadWriteReportCfg
| gadPanelChangedDisabled.

(** A listener of the emitter: a handler bound to freebird, or a
    function attached by somebody else. *)
Inductive Listener :=
| Bound (h : Handler)
| Other (l : nat).

(** The listeners of every event, in the order they were attached. *)
Definition Emitter : Type := Channel -> list Listener.

Definition btmIndex (e : BtmEvt) : nat :=
  match e with
  | NcError => 0 | NcEnabled => 1 | NcDisabled => 2 | NcStarted => 3 | NcStopped => 4
  | NcReady => 5 | NcPermitJoin => 6 | NcDevIncoming => 7 | NcDevLeaving => 8
  | NcDevNetChanging => 9 | NcDevReporting => 10 | NcGadIncoming => 11
  | NcGadReporting => 12 | NcBannedDevIncoming => 13 | NcBannedDevReporting => 14
  | NcBannedGadIncoming => 15 | NcBannedGadReporting => 16 | NcNetBan => 17
  | NcNetUnban => 18 | NcNetPing => 19 | DevError => 20 | DevNetChanged => 21
  | DevPropsChanged => 22 | DevAttrsChanged => 23 | GadError => 24
  | GadPanelChanged => 25 | GadPropsChanged => 26 | GadAttrsChanged => 27
  | GadAttrsAppend => 28
  end.

Definition index (c : Channel) : nat :=
  match c with
  | Btm e => btmIndex e
  | DevRead => 29 | DevWrite => 30 | DevIdentify => 31
  | GadRead => 32 | GadWrite => 33 | GadExec => 34
  | GadReadReportCfg => 35 | GadWriteReportCfg => 36 | GadPanelChangedDisabled => 37
  end.

(** [a === b] on event names *)
Definition sameChannel (a b : Channel) : bool := Nat.eqb (index a) (index b).

(** [freebird.removeAllListeners(c)] *)
Definition removeAllListeners (c : Channel) (freebird : Emitter) : Emitter :=
  fun c' => if sameChannel c c' then [] else freebird c'.

(** [freebird.on(c, lsn)] *)
Definition on (c : Channel) (lsn : Listener) (freebird : Emitter) : Emitter :=
  fun c' => if sameChannel c c' then freebird c' ++ [lsn] else freebird c'.

(** The events whose listeners [attachEventListeners] removes first. *)
Definition cleared : list Channel :=
  [Btm NcError; Btm NcEnabled; Btm NcDisabled; Btm NcStarted; Btm NcStopped;
   Btm NcReady; Btm NcPermitJoin; Btm NcDevIncoming; Btm NcDevLeaving;
   Btm NcDevNetChanging; Btm NcDevReporting; Btm NcGadIncoming; Btm NcGadReporting;
   Btm NcBannedDevIncoming; Btm NcBannedDevReporting;
   Btm NcBannedGadIncoming; Btm NcBannedGadReporting;
   Btm DevError; Btm DevNetChanged; Btm DevPropsChanged; Btm DevAttrsChanged;
   Btm GadError; Btm GadPanelChanged; Btm GadPropsChanged; Btm GadAttrsChanged;
   Btm GadAttrsAppend].

(** The handlers it attaches then, in this order. *)
Definition attached : list (Channel * Handler) :=
  [(Btm NcError, ncError); (Btm NcEnabled, ncEnabled); (Btm NcDisabled, ncDisabled);
   (Btm NcStarted, ncStarted); (Btm NcStopped, ncStopped); (Btm NcReady, ncReady);
   (Btm NcPermitJoin, ncPermitJoin);
   (Btm NcDevIncoming, ncDevIncoming); (Btm NcDevLeaving, ncDevLeaving);
   (Btm NcDevNetChanging, ncDevNetChanging); (Btm NcDevReporting, ncDevReporting);
   (Btm NcGadIncoming, ncGadIncoming); (Btm NcGadReporting, ncGadReporting);
   (Btm NcBannedDevIncoming, ncBannedDevIncoming);
   (Btm NcBannedDevReporting, ncBannedDevReporting);
   (Btm NcBannedGadIncoming, ncBannedGadIncoming);
   (Btm NcBannedGadReporting, ncBannedGadReporting);
   (Btm NcNetBan, ncNetBan); (Btm NcNetUnban, ncNetUnban); (Btm NcNetPing, ncNetPing);
   (Btm DevError, devError); (Btm DevNetChanged, devNetChanged);
   (Btm DevPropsChanged, devPropsChanged); (Btm DevAttrsChanged, devAttrsChanged);
   (DevRead, devRead); (DevWrite, devWrite); (DevIdentify, devIdentify);
   (Btm GadError, gadError); (Btm GadPanelChanged, gadPanelChanged);
   (Btm GadPropsChanged, gadPropsChanged); (Btm GadAttrsChanged, gadAttrsChanged);
   (Btm GadAttrsAppend, gadAttrsAppend);
   (GadRead, gadRead); (GadWrite, gadWrite); (GadExec, gadExec);
   (GadReadReportCfg, gadReadReportCfg); (GadWriteReportCfg, gadWriteReportCfg);
   (GadPanelChangedDisabled, gadPanelChangedDisabled)].

Definition attachEventListeners (freebird : Emitter) : Emitter :=
  let freebird := fold_left (fun fb c => removeAllListeners c fb) cleared freebird in
  fold_left (fun fb a => on (fst a) (Bound (snd a)) fb) attached freebird.

End Wiring.

(* ===================================================================== *)
(** ** Properties of the delivery modes                                   *)
(* ===================================================================== *)

Section DeliveryMode.

Import Dispatcher.

Lemma laterTask_grows F F' t :
  incl F F' -> laterTask F t -> laterTask F' t.
Proof.
  intros HF; destruct t; simpl; auto.
Qed.

Lemma laterTasks_grow F F' q :
  incl F F' -> Forall (laterTask F) q -> Forall (laterTask F') q.
Proof.
  intros HF H; induction H; constructor; eauto using laterTask_grows.
Qed.

Lemma indications_later F q :
  forallb isIndicate q = true -> Forall (laterTask F) q.
Proof.
  induction q as [|t q IH]; simpl; intros H; constructor.
  - destruct t; simpl in *; try discriminate; exact I.
  - apply IH. destruct (isIndicate t); [exact H | discriminate].
Qed.

(** Firing an event while the buffer is being drained appends to the buffer. *)
Lemma draining_fire e0 B F n fb evt data :
  Draining e0 B F n fb -> Draining e0 B (F ++ [(evt, data)]) n (_fire evt data fb).
Proof.
  intros (Hf & Ht & (i1 & i2 & Hi & H1 & H2) & D & He & HD & Hn).
  unfold _fire; rewrite Hf; unfold _lazyFire, set_eventQueue, Draining; simpl.
  repeat split; auto.
  - exists i1, i2; auto.
  - exists D; repeat split; auto.
    rewrite app_assoc, HD, app_assoc; reflexivity.
Qed.

Lemma draining_tweet e0 B F n fb subsys indType id data :
  Draining e0 B F n fb -> Draining e0 B F n (_tweet subsys indType id data fb).
Proof.
  intros (Hf & Ht & (i1 & i2 & Hi & H1 & H2) & D & He & HD & Hn).
  unfold _tweet, setImmediate, Draining; simpl.
  repeat split; auto.
  - exists i1, (i2 ++ [TIndicate (mkInd "IND" (subsysOf subsys) indType id data)]).
    rewrite Hi, <- app_assoc; simpl. repeat split; auto.
    rewrite forallb_app, H2; reflexivity.
  - exists D; auto.
Qed.

(** A turn of the loop while draining: an indication goes out, or
    [keepReleasing] delivers the oldest entry, or it finds the buffer
    empty and switches to immediate mode. *)
Lemma draining_tick e0 B F n fb d :
  Draining e0 B F n fb ->
  Draining e0 B F (S n) (tick d fb) \/ Drained e0 B F (S n) (tick d fb) \/
  (d = Throws /\ Stalled e0 B F (S n) (tick d fb)).
Proof.
  intros (Hf & Ht & (i1 & i2 & Hi & H1 & H2) & D & He & HD & Hn).
  unfold tick; rewrite Ht, Hi.
  destruct i1 as [|t i1]; simpl.
  - unfold keepReleasing; simpl.
    destruct (eventQueue fb) as [|[evt data] q] eqn:Hq; simpl.
    + right. left. unfold Drained; simpl. repeat split; auto using indications_later.
      exists F. rewrite app_nil_r in HD. subst D.
      repeat split; auto using incl_refl; lia.
    + assert (HD' : exists D', emitted fb ++ [(evt, data)] = e0 ++ D' /\
                               D' ++ q = B ++ F /\ List.length D' <= S n).
      { exists (D ++ [(evt, data)]). rewrite He, <- !app_assoc; simpl.
        repeat split; auto; rewrite length_app; simpl; lia. }
      destruct d; simpl.
      * left. unfold Draining; simpl. repeat split; auto.
        exists i2, []. auto.
      * right. right. split; [reflexivity|].
        unfold Stalled; simpl. repeat split; auto.
  - left. simpl in H1. destruct t; simpl in H1; try discriminate.
    unfold Draining; simpl. repeat split; auto.
    + exists i1, i2; auto.
    + exists D; auto.
Qed.

(** Once a delivery of [keepReleasing] has thrown, firing only adds to
    the buffer and the event loop only sends indications. *)
Lemma stalled_fire e0 B F n fb evt data :
  Stalled e0 B F n fb -> Stalled e0 B (F ++ [(evt, data)]) n (_fire evt data fb).
Proof.
  intros (Hf & Ht & Hi & D & He & HD & Hn).
  unfold _fire; rewrite Hf; unfold _lazyFire, set_eventQueue, Stalled; simpl.
  repeat split; auto.
  exists D; repeat split; auto.
  rewrite app_assoc, HD, app_assoc; reflexivity.
Qed.

Lemma stalled_tweet e0 B F n fb subsys indType id data :
  Stalled e0 B F n fb -> Stalled e0 B F n (_tweet subsys indType id data fb).
Proof.
  intros (Hf & Ht & Hi & D & He & HD & Hn).
  unfold _tweet, setImmediate, Stalled; simpl.
  repeat split; auto.
  - rewrite forallb_app, Hi; reflexivity.
  - exists D; auto.
Qed.

Lemma stalled_tick e0 B F n fb d :
  Stalled e0 B F n fb -> Stalled e0 B F (S n) (tick d fb).
Proof.
  intros (Hf & Ht & Hi & D & He & HD & Hn).
  unfold tick; rewrite Ht.
  destruct (immediates fb) as [|t iq] eqn:Ei.
  - unfold Stalled. rewrite Hf, Ht, Ei. repeat split; auto.
    exists D; auto.
  - simpl in Hi. destruct t; simpl in Hi; try discriminate.
    unfold Stalled; simpl. repeat split; auto.
    exists D; auto.
Qed.

Lemma drained_fire e0 B F n fb evt data :
  Drained e0 B F n fb -> Drained e0 B (F ++ [(evt, data)]) n (_fire evt data fb).
Proof.
  intros (Hf & Hq & Ht & Hi & rest & He & Hr & Hn).
  assert (HF : incl F (F ++ [(evt, data)])) by (apply incl_appl, incl_refl).
  assert (Hnew : laterTask (F ++ [(evt, data)]) (TEmit evt data))
    by (simpl; apply in_or_app; right; left; reflexivity).
  unfold _fire; rewrite Hf; unfold _normalFire, nextTick, setImmediate.
  destruct (isNcDevIncoming evt); unfold Drained; simpl;
    (repeat split; auto;
     [ try (apply Forall_app; split; [|constructor; auto]); eauto using laterTasks_grow
     | try (apply Forall_app; split; [|constructor; auto]); eauto using laterTasks_grow
     | exists rest; repeat split; auto; eapply incl_tran; eauto ]).
Qed.

Lemma drained_tweet e0 B F n fb subsys indType id data :
  Drained e0 B F n fb -> Drained e0 B F n (_tweet subsys indType id data fb).
Proof.
  intros (Hf & Hq & Ht & Hi & rest & He & Hr & Hn).
  unfold _tweet, setImmediate, Drained; simpl. repeat split; auto.
  - apply Forall_app; split; auto. constructor; simpl; auto.
  - exists rest; auto.
Qed.

Lemma drained_runTask e0 B F n fb d t tq iq :
  laterTask F t ->
  Drained e0 B F n fb ->
  Forall (laterTask F) tq -> Forall (laterTask F) iq ->
  Drained e0 B F (S n)
    (runTask d t (mkFreebird (fire fb) (eventQueue fb) tq iq (emitted fb) (indicated fb))).
Proof.
  intros Hlt (Hf & Hq & _ & _ & rest & He & Hr & Hn) Htq Hiq.
  destruct t as [evt data| |ind]; simpl in Hlt; [| contradiction |];
    unfold Drained; simpl; repeat split; auto.
  - exists (rest ++ [(evt, data)]). rewrite He, <- !app_assoc.
    repeat split; auto.
    + apply incl_app; auto. intros x [<-|[]]; exact Hlt.
    + rewrite !length_app in *; simpl; lia.
  - exists rest; repeat split; auto.
Qed.

Lemma drained_tick e0 B F n fb d :
  Drained e0 B F n fb -> Drained e0 B F (S n) (tick d fb).
Proof.
  intros H. pose proof H as (Hf & Hq & Ht & Hi & rest & He & Hr & Hn).
  unfold tick.
  destruct (ticks fb) as [|t tq] eqn:Etq.
  - destruct (immediates fb) as [|t iq] eqn:Eiq.
    + unfold Drained; repeat split; auto; try (rewrite Etq; constructor);
        try (rewrite Eiq; constructor).
      exists rest; repeat split; auto.
    + inversion Hi; subst. apply drained_runTask; auto.
  - inversion Ht; subst. apply drained_runTask; auto.
Qed.

Lemma drainInv_act e0 B F n thrown fb a :
  DrainInv e0 B F n thrown fb ->
  DrainInv e0 B (F ++ firedIn [a]) (n + ticksIn [a]) (thrown || isThrow a) (act fb a).
Proof.
  unfold DrainInv, ticksIn.
  destruct a as [evt data|subsys indType id data| |]; simpl;
    rewrite ?app_nil_r, ?Nat.add_0_r, ?Nat.add_1_r, ?orb_false_r, ?orb_true_r;
    intros [H|[H|[Ht H]]];
    eauto using draining_fire, drained_fire, draining_tweet, drained_tweet,
                drained_tick, stalled_fire, stalled_tweet, stalled_tick.
  - destruct (@draining_tick e0 B F n fb Returns H) as [H'|[H'|[H' _]]];
      [auto | auto | discriminate].
  - destruct (@draining_tick e0 B F n fb Throws H) as [H'|[H'|[_ H']]]; auto.
Qed.

Lemma firedIn_app a b : firedIn (a ++ b) = firedIn a ++ firedIn b.
Proof.
  induction a as [|[| | |] a IH]; simpl; rewrite ?IH; reflexivity.
Qed.

Lemma ticksIn_app a b : ticksIn (a ++ b) = ticksIn a + ticksIn b.
Proof.
  unfold ticksIn. rewrite filter_app, length_app. reflexivity.
Qed.

Lemma drainInv_run e0 B acts : forall F n thrown fb,
  DrainInv e0 B F n thrown fb ->
  DrainInv e0 B (F ++ firedIn acts) (n + ticksIn acts)
           (thrown || existsb isThrow acts) (run acts fb).
Proof.
  induction acts as [|a acts IH]; intros F n thrown fb H.
  - simpl. rewrite app_nil_r, Nat.add_0_r, orb_false_r. exact H.
  - apply drainInv_act with (a := a) in H. apply IH in H.
    change (run (a :: acts) fb) with (run acts (act fb a)).
    change (a :: acts) with ([a] ++ acts).
    rewrite firedIn_app, ticksIn_app, app_assoc, Nat.add_assoc.
    rewrite existsb_app. cbn [existsb]. rewrite orb_false_r, orb_assoc. exact H.
Qed.

(** The switch itself starts the drain, or finds nothing to drain. *)
Lemma changeFireMode_starts fb mode :
  fire fb = LazyFire -> truthy mode = true ->
  ticks fb = [] -> forallb isIndicate (immediates fb) = true ->
  DrainInv (emitted fb) (eventQueue fb) [] 0 false (_changeFireMode mode fb).
Proof.
  intros Hf Hm Ht Hi. unfold _changeFireMode; rewrite Hm.
  destruct (eventQueue fb) as [|e q] eqn:Hq.
  - right. left. unfold Drained; simpl. rewrite Ht, Hq.
    repeat split; auto using indications_later.
    exists []. rewrite !app_nil_r. repeat split; auto using incl_refl.
  - left. unfold Draining; simpl. rewrite Hq. repeat split; auto.
    + exists (immediates fb), []. auto.
    + exists []. rewrite !app_nil_r. repeat split; auto.
Qed.

Lemma run_app a b fb : run (a ++ b) fb = run b (run a fb).
Proof. unfold run. apply fold_left_app. Qed.




(** In immediate mode with nothing buffered, turns of the loop that only
    send indications leave mode, buffer and deliveries alone. *)
Lemma idle_turns : forall n fb,
  fire fb = NormalFire -> eventQueue fb = [] -> ticks fb = [] ->
  forallb isIndicate (immediates fb) = true ->
  let fb' := run (repeat Tick n) fb in
  fire fb' = NormalFire /\ eventQueue fb' = [] /\ emitted fb' = emitted fb.
Proof.
  induction n as [|n IH]; intros fb Hf Hq Ht Hi; simpl; auto.
  set (fb1 := tick Returns fb).
  assert (H1 : fire fb1 = NormalFire /\ eventQueue fb1 = [] /\ ticks fb1 = []
               /\ forallb isIndicate (immediates fb1) = true /\ emitted fb1 = emitted fb).
  { unfold fb1, tick. rewrite Ht.
    destruct (immediates fb) as [|t iq] eqn:Ei.
    - rewrite Ei. auto.
    - simpl in Hi. destruct t; simpl in Hi; try discriminate. simpl. auto. }
  destruct H1 as (Hf1 & Hq1 & Ht1 & Hi1 & He1).
  destruct (IH fb1 Hf1 Hq1 Ht1 Hi1) as (? & ? & ?).
  repeat split; congruence.
Qed.





End DeliveryMode.

(* ===================================================================== *)
(** ** Properties of the handlers                                         *)
(* ===================================================================== *)

Section HandlerProperties.

Import Handlers.

(** *** Running callbacks *)

Lemma nth_error_last A (l : list A) (x : A) :
  nth_error (l ++ [x]) (List.length l) = Some x.
Proof.
  rewrite nth_error_app2, Nat.sub_diag by lia. reflexivity.
Qed.

Lemma dropNth_last A (l : list A) (x : A) :
  dropNth (List.length l) (l ++ [x]) = l.
Proof.
  induction l as [|y l IH]; simpl; [reflexivity | rewrite IH; reflexivity].
Qed.

(** The callback that was registered last is the one at the end. *)
Lemma complete_last fb p o callback :
  resume p o = Some callback ->
  forall pend, pending fb = pend ++ [p] ->
  complete (List.length pend) o fb
  = (call (Back o) ;; settle p o ;; callback) (set_pending pend fb).
Proof.
  intros Hres pend Hp.
  unfold complete, bind at 1, gets. rewrite Hp, nth_error_last, Hres.
  unfold bind at 1, modify. rewrite dropNth_last. reflexivity.
Qed.

Lemma since_app fb fb' calls :
  trace fb' = trace fb ++ calls -> since fb fb' = calls.
Proof.
  intros H. unfold since. rewrite H, skipn_app, skipn_all, Nat.sub_diag. reflexivity.
Qed.

(** *** The generic update pipeline *)

(** C5. A network-info update of a device whose delta carries a status,
    once the registry has modified the record: the net-changed event and
    indication go out first, the derived status-changed event and
    indication follow, all four with the id of the message.  The
    dispatcher keeps that order: in immediate mode the two events are
    delivered net-changed first, in buffered mode they are buffered
    net-changed first. *)
Theorem status_change_follows_net_change :
  forall fb msg diff status,
    prop (um_data msg) "status" = status ->
    truthy status = true ->
    let fb' := run [Notify (OnDevNetChanged msg);
                    Complete (List.length (pending fb)) (Succeeded diff)] fb in
    since fb fb' =
      [BoxModify Devbox (um_id msg) "net" (um_data msg);
       Back (Succeeded diff);
       Fire (EVT_TOP DEV_NET_CHANGED) (updMsgVal msg);
       Tweet "dev" (Name "netChanged") (um_id msg) (um_data msg);
       Fire (EVT_TOP DEV_STATUS_CHANGED) (statusChangedEvent msg status);
       Tweet "dev" (Name "statusChanged") (um_id msg) (VObj [("status", status)])]
    /\ pending fb' = pending fb
    /\ (forall d,
          Dispatcher.fire d = Dispatcher.NormalFire ->
          Dispatcher.ticks d = [] -> Dispatcher.immediates d = [] ->
          Dispatcher.emitted
            (Dispatcher.run (dispatch (since fb fb') ++ repeat Dispatcher.Tick 4) d)
          = Dispatcher.emitted d
            ++ [(EVT_TOP DEV_NET_CHANGED, updMsgVal msg);
                (EVT_TOP DEV_STATUS_CHANGED, statusChangedEvent msg status)])
    /\ (forall d,
          Dispatcher.fire d = Dispatcher.LazyFire ->
          Dispatcher.eventQueue (Dispatcher.run (dispatch (since fb fb')) d)
          = Dispatcher.eventQueue d
            ++ [(EVT_TOP DEV_NET_CHANGED, updMsgVal msg);
                (EVT_TOP DEV_STATUS_CHANGED, statusChangedEvent msg status)]).
Proof.
  intros fb msg diff status Hs Ht fb'.
  assert (Hdelta : getProp (um_data msg) "status" = ret status).
  { unfold getProp. rewrite <- Hs in *.
    destruct (um_data msg); simpl in Ht; try discriminate; reflexivity. }
  assert (Hsince : since fb fb' =
      [BoxModify Devbox (um_id msg) "net" (um_data msg);
       Back (Succeeded diff);
       Fire (EVT_TOP DEV_NET_CHANGED) (updMsgVal msg);
       Tweet "dev" (Name "netChanged") (um_id msg) (um_data msg);
       Fire (EVT_TOP DEV_STATUS_CHANGED) (statusChangedEvent msg status);
       Tweet "dev" (Name "statusChanged") (um_id msg) (VObj [("status", status)])]
      /\ pending fb' = pending fb).
  { subst fb'.
    set (fb1 := step fb (Notify (OnDevNetChanged msg))).
    assert (H1 : pending fb1 = pending fb ++ [Modifying "dev" "net" msg]) by reflexivity.
    change (run [Notify (OnDevNetChanged msg);
                 Complete (List.length (pending fb)) (Succeeded diff)] fb)
      with (exec (complete (List.length (pending fb)) (Succeeded diff)) fb1).
    unfold exec.
    rewrite (@complete_last fb1 (Modifying "dev" "net" msg) (Succeeded diff) _
               eq_refl (pending fb) H1).
    unfold updateComponent_modified. simpl getUpdateEventName. simpl isDevNetChanged.
    cbv iota. rewrite Hdelta.
    unfold bind, ret, call, _fire, _tweet, modify, settle; simpl. rewrite Ht. simpl.
    split; [|reflexivity].
    apply since_app. rewrite <- !app_assoc. reflexivity. }
  destruct Hsince as (Hsince & Hpend).
  split; [exact Hsince|]. split; [exact Hpend|]. split.
  - intros d Hf Htk Him. rewrite Hsince. destruct d as [f q tk im em ind].
    simpl in Hf, Htk, Him. subst f tk im. simpl. rewrite <- !app_assoc. reflexivity.
  - intros d Hf. rewrite Hsince. destruct d as [f q tk im em ind].
    simpl in Hf. subst f. simpl. rewrite <- !app_assoc. reflexivity.
Qed.

Lemma status_change_follows_net_change_witness :
  let msg := mkUpdMsg "nc1" "0x01" None (VNum 3)
                      (VObj [("status", VStr "offline")]) VUndef in
  let fb := fresh [mkNetcore "nc1" true] in
  prop (um_data msg) "status" = VStr "offline" /\
  truthy (VStr "offline") = true /\
  filter isFire
    (since fb (run [Notify (OnDevNetChanged msg);
                    Complete (List.length (pending fb)) (Succeeded VUndef)] fb))
  = [Fire (EVT_TOP DEV_NET_CHANGED) (updMsgVal msg);
     Fire (EVT_TOP DEV_STATUS_CHANGED)
          (VObj [("ncName", VStr "nc1"); ("permAddr", VStr "0x01"); ("id", VNum 3);
                 ("data", VObj [("status", VStr "offline")])])].
Proof.
  intros msg fb.
  split; [reflexivity|]. split; [reflexivity|].
  destruct (@status_change_follows_net_change fb msg VUndef (VStr "offline")
              eq_refl eq_refl) as (H & _).
  rewrite H. reflexivity.
Defined.

(** *** Banned devices *)

(** C7. A banned-device-incoming notification for a device that is not in
    the registry: the banned event is fired and the banned indication is
    sent with id 0, and that is all -- no registry call, no netcore
    command, the freebird object is otherwise as it was.  When the
    device is registered (and its netcore is known) [nc.remove(permAddr)]
    is issued after the two; and it is never issued for an unregistered
    device. *)
Theorem banned_unknown_device_is_only_announced :
  forall fb msg,
    (findByNet_device (bm_ncName msg) (bm_permAddr msg) fb = (fb, inr None) ->
     emit (OnNcBannedDevIncoming msg) fb
     = (set_trace (trace fb ++
                   [Fire (EVT_TOP DEV_BAN_INCOMING) (bannedDevEvent msg);
                    Tweet "dev" (EVT_TOP DEV_BAN_INCOMING) (VNum 0) (bannedDevInfo msg)])
                  fb,
        inr tt)) /\
    (forall dev nc,
        findByNet_device (bm_ncName msg) (bm_permAddr msg) fb = (fb, inr (Some dev)) ->
        findByNet_netcore (bm_ncName msg) fb = (fb, inr (Some nc)) ->
        since fb (exec (emit (OnNcBannedDevIncoming msg)) fb)
        = [Fire (EVT_TOP DEV_BAN_INCOMING) (bannedDevEvent msg);
           Tweet "dev" (EVT_TOP DEV_BAN_INCOMING) (idVal (dev_id dev)) (bannedDevInfo msg);
           NcRemove (nc_name nc) (bm_permAddr msg)]) /\
    (existsb isCommand (since fb (exec (emit (OnNcBannedDevIncoming msg)) fb)) = true ->
     exists dev,
       findByNet_device (bm_ncName msg) (bm_permAddr msg) fb = (fb, inr (Some dev))).
Proof.
  intros fb msg.
  assert (Hunknown :
    findByNet_device (bm_ncName msg) (bm_permAddr msg) fb = (fb, inr None) ->
    emit (OnNcBannedDevIncoming msg) fb
    = (set_trace (trace fb ++
                  [Fire (EVT_TOP DEV_BAN_INCOMING) (bannedDevEvent msg);
                   Tweet "dev" (EVT_TOP DEV_BAN_INCOMING) (VNum 0) (bannedDevInfo msg)])
                 fb,
       inr tt)).
  { intros Hdev. unfold findByNet_device, gets in Hdev.
    unfold emit, ncBannedDevIncoming, bannedComponent. simpl.
    unfold bind at 1. unfold findByNet_netcore, gets at 1.
    unfold bind at 1. unfold findByNet_device, gets.
    injection Hdev as Hdev. rewrite Hdev.
    unfold bind, _fire, _tweet, call, modify, ret. simpl.
    rewrite <- app_assoc. reflexivity. }
  split; [exact Hunknown|]. split.
  - intros dev nc Hdev Hnc.
    unfold findByNet_device, gets in Hdev. injection Hdev as Hdev.
    unfold findByNet_netcore, gets in Hnc. injection Hnc as Hnc.
    unfold exec, emit, ncBannedDevIncoming, bannedComponent. simpl.
    unfold bind at 1. unfold findByNet_netcore, gets at 1. rewrite Hnc.
    unfold bind at 1. unfold findByNet_device, gets. rewrite Hdev.
    unfold bind, _fire, _tweet, nc_remove, await, call, modify, ret. simpl.
    apply since_app. rewrite <- !app_assoc. reflexivity.
  - intros Hcmd.
    destruct (find (fun dev => String.eqb (dev_permAddr dev) (bm_permAddr msg)
                               && String.eqb (dev_netcore dev) (bm_ncName msg))
                   (devbox fb)) as [dev|] eqn:Hdev.
    + exists dev. unfold findByNet_device, gets. rewrite Hdev. reflexivity.
    + exfalso.
      assert (H : findByNet_device (bm_ncName msg) (bm_permAddr msg) fb = (fb, inr None))
        by (unfold findByNet_device, gets; rewrite Hdev; reflexivity).
      apply Hunknown in H. unfold exec in Hcmd. rewrite H in Hcmd. simpl in Hcmd.
      match type of Hcmd with
      | context [since fb (set_trace (trace fb ++ ?l) fb)] =>
          rewrite (@since_app fb (set_trace (trace fb ++ l) fb) l eq_refl) in Hcmd
      end.
      discriminate.
Qed.

Lemma banned_unknown_device_is_only_announced_witness :
  let fb := fresh [mkNetcore "nc1" true] in
  let msg := mkBanMsg "nc1" "0x0f" None in
  findByNet_device "nc1" "0x0f" fb = (fb, inr None) /\
  since fb (exec (emit (OnNcBannedDevIncoming msg)) fb)
  = [Fire (EVT_TOP DEV_BAN_INCOMING) (bannedDevEvent msg);
     Tweet "dev" (EVT_TOP DEV_BAN_INCOMING) (VNum 0) (bannedDevInfo msg)] /\
  devbox (exec (emit (OnNcBannedDevIncoming msg)) fb) = [] /\
  pending (exec (emit (OnNcBannedDevIncoming msg)) fb) = [].
Proof.
  intros fb msg.
  split; [reflexivity|].
  destruct (@banned_unknown_device_is_only_announced fb msg) as (H & _ & _).
  unfold exec. rewrite (H eq_refl). simpl.
  split; [apply since_app; reflexivity | split; reflexivity].
Defined.

(** C8. With a device in the registry whose netcore freebird does not
    hold, [ncNetBan], the banned-device handlers and [ncGadIncoming] call a
    method of [undefined]: the TypeError is thrown out of the listener,
    to whoever emitted the notification.  [ncDevIncoming] returns early
    in the same situation and throws nothing. *)
Theorem missing_netcore_makes_handlers_throw :
  let dev := mkDevice 0 (Some 1) "nc1" "0x01" false [] in
  let fb := mkFreebird [] [dev] [] [] [] 0 [] [] in
  thrown (emit (OnNcNetBan (mkAddrMsg "nc1" "0x01"))) fb
  = Some (TypeError "nc is undefined: nc.remove") /\
  thrown (emit (OnNcBannedDevIncoming (mkBanMsg "nc1" "0x01" None))) fb
  = Some (TypeError "nc is undefined: nc.remove") /\
  thrown (emit (OnNcBannedDevReporting (mkBanMsg "nc1" "0x01" None))) fb
  = Some (TypeError "nc is undefined: nc.remove") /\
  thrown (emit (OnNcGadIncoming (mkGadMsg "nc1" "0x01" (AuxNum 1) VUndef))) fb
  = Some (TypeError "nc is undefined: nc.cookRawGad") /\
  thrown (emit (OnNcDevIncoming (mkDevMsg "nc1" "0x01" VUndef))) fb = None.
Proof.
  repeat split.
Qed.

(** *** Device arrival *)

Lemma toggles_touch_netcores_only : forall ts fb,
  run (map toggle ts) fb = set_netcores (netcores (run (map toggle ts) fb)) fb.
Proof.
  induction ts as [|t ts IH]; intros fb.
  - destruct fb; reflexivity.
  - simpl. rewrite IH. reflexivity.
Qed.

Lemma toggles_keep_names : forall ts fb ncName nc,
  find (fun n => String.eqb (nc_name n) ncName) (netcores fb) = Some nc ->
  exists nc',
    find (fun n => String.eqb (nc_name n) ncName) (netcores (run (map toggle ts) fb))
    = Some nc' /\ nc_name nc' = nc_name nc.
Proof.
  induction ts as [|[name b] ts IH]; intros fb ncName nc H.
  - exists nc; auto.
  - simpl. 
    assert (H1 : exists nc1,
               find (fun n => String.eqb (nc_name n) ncName)
                    (netcores (step fb (toggle (name, b)))) = Some nc1
               /\ nc_name nc1 = nc_name nc).
    { unfold step, exec, handle, toggle, permitJoin, modify. simpl.
      revert H. generalize (netcores fb). intros ncs.
      induction ncs as [|n ncs IHn]; simpl; [discriminate|].
      destruct (String.eqb (nc_name n) name) eqn:En; simpl.
      - destruct (String.eqb (nc_name n) ncName) eqn:Ec.
        + intros [= <-]. eauto.
        + exact IHn.
      - destruct (String.eqb (nc_name n) ncName) eqn:Ec.
        + intros [= <-]. eauto.
        + exact IHn. }
    destruct H1 as (nc1 & H1 & Hn1).
    destruct (IH _ _ _ H1) as (nc' & H' & Hn'). exists nc'. split; congruence.
Qed.

(** What [ncDevIncoming] leaves behind for a known netcore: the listener
    is attached, the cook is under way. *)
Lemma ncDevIncoming_starts fb msg nc dev :
  findByNet_netcore (dm_ncName msg) fb = (fb, inr (Some nc)) ->
  findByNet_device (dm_ncName msg) (dm_permAddr msg) fb = (fb, inr dev) ->
  step fb (Notify (OnNcDevIncoming msg))
  = set_pending (pending fb ++ [CookingDev msg nc dev (nextListener fb)])
      (set_trace (trace fb ++ [CookRawDev (nc_name nc) (dm_raw msg)])
         (set_listeners (listeners fb ++ [nextListener fb]) (S (nextListener fb)) fb)).
Proof.
  intros Hnc Hdev.
  unfold findByNet_netcore, gets in Hnc. injection Hnc as Hnc.
  unfold findByNet_device, gets in Hdev. injection Hdev as Hdev.
  unfold step, exec, handle, emit, ncDevIncoming.
  unfold bind at 1. unfold findByNet_netcore, gets at 1. rewrite Hnc.
  unfold on_NcGadIncoming, bind, gets, modify, ret, findByNet_device, call, await.
  simpl. rewrite Hdev. reflexivity.
Qed.

(** C9, as the code has it.  A device-incoming notification of a known
    netcore for an unknown device, whose cook succeeds at a moment when
    the netcore does not permit joining, is dropped: besides the cook
    itself nothing is called, no event is fired, no indication is sent,
    both registries and the coalescing queue are as before, nothing is
    left pending and the temporary listener is gone. *)
Theorem unknown_device_is_dropped_when_joining_is_closed :
  forall fb msg nc toggles brewedDev,
    findByNet_netcore (dm_ncName msg) fb = (fb, inr (Some nc)) ->
    findByNet_device (dm_ncName msg) (dm_permAddr msg) fb = (fb, inr None) ->
    let cooking := run (Notify (OnNcDevIncoming msg) :: map toggle toggles) fb in
    joinableNow cooking nc = false ->
    let fb' := step cooking (Complete (List.length (pending fb)) (CookedDev brewedDev)) in
    droppedSilently fb fb' /\
    since fb fb' = [CookRawDev (nc_name nc) (dm_raw msg); Back (CookedDev brewedDev)] /\
    gadEventQueue fb' = gadEventQueue fb /\
    pending fb' = pending fb /\
    listeners fb'
    = filter (fun l => negb (Nat.eqb l (nextListener fb)))
             (listeners fb ++ [nextListener fb]).
Proof.
  intros fb msg nc toggles brewedDev Hnc Hdev cooking Hjoin fb'.
  assert (Hcooking : cooking
                     = set_netcores (netcores cooking)
                         (step fb (Notify (OnNcDevIncoming msg)))).
  { unfold cooking. simpl. apply toggles_touch_netcores_only. }
  rewrite (ncDevIncoming_starts _ Hnc Hdev) in Hcooking.
  assert (Hpend : pending cooking
                  = pending fb ++ [CookingDev msg nc None (nextListener fb)])
    by (rewrite Hcooking; reflexivity).
  assert (Hfb' : fb' = exec (complete (List.length (pending fb)) (CookedDev brewedDev))
                            cooking) by reflexivity.
  unfold exec in Hfb'.
  rewrite (@complete_last cooking (CookingDev msg nc None (nextListener fb))
             (CookedDev brewedDev) _ eq_refl (pending fb) Hpend) in Hfb'.
  unfold ncDevIncoming_cooked, settle, isJoinable, removeListener in Hfb'.
  unfold bind, call, gets, modify, ret in Hfb'. simpl in Hfb'.
  change (joinableNow _ nc) with (joinableNow cooking nc) in Hfb'.
  rewrite Hjoin in Hfb'. simpl in Hfb'.
  assert (Htrace : trace fb' = trace fb ++ [CookRawDev (nc_name nc) (dm_raw msg);
                                            Back (CookedDev brewedDev)]).
  { rewrite Hfb', Hcooking. simpl. rewrite <- app_assoc. reflexivity. }
  assert (Hsince := @since_app fb fb' _ Htrace).
  repeat split; try (rewrite Hfb', Hcooking; reflexivity); try exact Hsince.
  rewrite Hsince. reflexivity.
Qed.

Lemma unknown_device_is_dropped_when_joining_is_closed_witness :
  let nc := mkNetcore "nc1" true in
  let fb := fresh [nc] in
  let msg := mkDevMsg "nc1" "0x01" (VStr "raw") in
  let brewedDev := mkDevice 0 None "nc1" "0x01" false [] in
  let cooking := run (Notify (OnNcDevIncoming msg) :: map toggle [("nc1", false)]) fb in
  let fb' := step cooking (Complete 0 (CookedDev brewedDev)) in
  findByNet_netcore "nc1" fb = (fb, inr (Some nc)) /\
  findByNet_device "nc1" "0x01" fb = (fb, inr None) /\
  joinableNow cooking nc = false /\
  droppedSilently fb fb' /\ pending fb' = [] /\ listeners fb' = [].
Proof.
  intros nc fb msg brewedDev cooking fb'.
  do 3 (split; [reflexivity|]).
  destruct (@unknown_device_is_dropped_when_joining_is_closed
              fb msg nc [("nc1", false)] brewedDev eq_refl eq_refl eq_refl)
    as (Hdrop & _ & _ & Hpend & Hlsn).
  split; [exact Hdrop|]. split; [exact Hpend | exact Hlsn].
Defined.

(** C9, as stated, fails when the cook itself fails: the netcore is known,
    the device is not, joining is not permitted, and yet an error
    indication is sent. *)
Lemma failed_cook_is_not_dropped_silently :
  let nc := mkNetcore "nc1" false in
  let fb := fresh [nc] in
  let msg := mkDevMsg "nc1" "0x01" (VStr "raw") in
  let fb' := run [Notify (OnNcDevIncoming msg);
                  Complete 0 (Failed (mkErr "bad payload"))] fb in
  findByNet_netcore "nc1" fb = (fb, inr (Some nc)) /\
  findByNet_device "nc1" "0x01" fb = (fb, inr None) /\
  joinableNow (step fb (Notify (OnNcDevIncoming msg))) nc = false /\
  filter isTweet (since fb fb')
  = [Tweet "net" (Name "error") (VNum 0)
           (VObj [("netcore", VStr "nc1"); ("message", VStr "bad payload")])] /\
  ~ droppedSilently fb fb'.
Proof.
  repeat split.
  intros (_ & _ & H). vm_compute in H. discriminate.
Qed.

(** *** Replaying queued gadget notifications *)

Lemma sameWorld_refl s : sameWorld s s.
Proof. repeat split. Qed.

Lemma sameWorld_trans s1 s2 s3 : sameWorld s1 s2 -> sameWorld s2 s3 -> sameWorld s1 s3.
Proof.
  intros (A1 & A2 & A3 & A4 & A5) (B1 & B2 & B3 & B4 & B5).
  repeat split; congruence.
Qed.

Lemma listeners_only_touch_queue : forall (ls : list nat) m s,
  exists q, forEach ls (fun _ => queueEvent m) s = (set_gadEventQueue q s, inr tt).
Proof.
  induction ls as [|l ls IH]; intros m s.
  - exists (gadEventQueue s). destruct s; reflexivity.
  - simpl. unfold bind at 1. unfold queueEvent at 1, modify.
    destruct (IH m (set_gadEventQueue (queueEvent_on (gadEventQueue s) m) s)) as (q & Hq).
    exists q. rewrite Hq. reflexivity.
Qed.

(** With its netcore known, the first part of [ncGadIncoming] does not
    throw and only calls the device object, a timer or the gadget cook. *)
Lemma ncGadIncoming_starts_quietly s m nc :
  find (fun n => String.eqb (nc_name n) (gm_ncName m)) (netcores s) = Some nc ->
  exists s' t,
    ncGadIncoming m s = (s', inr tt) /\ trace s' = trace s ++ t /\
    forallb isGadStart t = true /\ sameWorld s s'.
Proof.
  intros Hnc.
  unfold ncGadIncoming. unfold bind at 1. unfold findByNet_netcore, gets at 1.
  rewrite Hnc. unfold bind at 1. unfold findByNet_device, gets at 1.
  unfold bind at 1. unfold findByNet_gadget, gets at 1.
  destruct (find _ (devbox s)) as [dev|].
  - unfold bind at 1. unfold modify at 1.
    unfold bind at 1. unfold call at 1, modify at 1.
    unfold bind at 1. unfold call at 1, modify at 1.
    unfold doGadCook. unfold bind at 1. unfold nowDev, gets at 1.
    cbv beta iota. simpl gc_dev. simpl gc_syncTimes. simpl gc_nc. simpl gc_msg.
    match goal with |- context [dev_id ?d] => destruct (dev_id d) end.
    + do 2 eexists. split; [reflexivity|]. simpl.
      split; [rewrite <- !app_assoc; reflexivity|].
      split; [reflexivity | repeat split].
    + simpl. do 2 eexists. split; [reflexivity|]. simpl.
      split; [rewrite <- !app_assoc; reflexivity|].
      split; [reflexivity | repeat split].
  - exists s, []. rewrite app_nil_r. repeat split.
Qed.

Lemma emit_NcGadIncoming_is_quiet s m nc :
  find (fun n => String.eqb (nc_name n) (gm_ncName m)) (netcores s) = Some nc ->
  exists s' t,
    emit_NcGadIncoming m s = (s', inr tt) /\ trace s' = trace s ++ t /\
    forallb isGadStart t = true /\ sameWorld s s'.
Proof.
  intros Hnc.
  destruct (ncGadIncoming_starts_quietly s m Hnc) as (s1 & t & H1 & Ht & Hq & Hw).
  unfold emit_NcGadIncoming. unfold bind at 1. unfold gets at 1.
  unfold bind at 1. rewrite H1.
  destruct (listeners_only_touch_queue (listeners s) m s1) as (q & Hls).
  exists (set_gadEventQueue q s1), t. rewrite Hls.
  split; [reflexivity|]. split; [exact Ht|]. split; [exact Hq|].
  destruct Hw as (? & ? & ? & ? & ?). repeat split; assumption.
Qed.

Lemma gadStart_not_loud t :
  forallb isGadStart t = true -> existsb isLoud t = false /\ filter isEmit t = [].
Proof.
  induction t as [|c t IH]; simpl; [auto|].
  destruct c; simpl; try discriminate; exact IH.
Qed.

(** Replaying a list of notifications of one netcore: each is emitted,
    in order, and nothing else of note happens. *)
Lemma replay_in_order : forall (evt : list GadMsg) s ncName nc,
  find (fun n => String.eqb (nc_name n) ncName) (netcores s) = Some nc ->
  Forall (fun m => gm_ncName m = ncName) evt ->
  exists s' replay,
    forEach evt (fun m => call (Emit m) ;; emit_NcGadIncoming m) s = (s', inr tt) /\
    trace s' = trace s ++ replay /\
    filter isEmit replay = map Emit evt /\
    existsb isLoud replay = false /\
    sameWorld s s'.
Proof.
  induction evt as [|m evt IH]; intros s ncName nc Hnc Hall.
  - exists s, []. rewrite app_nil_r. repeat split.
  - inversion Hall as [|? ? Hm Hrest]; subst.
    simpl. unfold bind at 1. unfold bind at 1. unfold call at 1, modify at 1.
    set (s0 := set_trace (trace s ++ [Emit m]) s).
    destruct (@emit_NcGadIncoming_is_quiet s0 m nc Hnc) as (s1 & t & H1 & Ht & Hq & Hw).
    rewrite H1.
    assert (Hnc1 : find (fun n => String.eqb (nc_name n) (gm_ncName m)) (netcores s1)
                   = Some nc)
      by (destruct Hw as (-> & _); exact Hnc).
    destruct (IH s1 (gm_ncName m) nc Hnc1 Hrest) as (s' & replay & H' & Ht' & He & Hl & Hw').
    exists s', (Emit m :: t ++ replay). rewrite H'.
    destruct (gadStart_not_loud t Hq) as (Hl1 & He1).
    split; [reflexivity|].
    split; [rewrite Ht', Ht; simpl; rewrite <- !app_assoc; reflexivity|].
    split; [simpl; rewrite filter_app, He1, He; reflexivity|].
    split; [simpl; rewrite existsb_app, Hl1, Hl; reflexivity|].
    eapply sameWorld_trans; [|exact Hw'].
    eapply sameWorld_trans; [|exact Hw]. repeat split.
Qed.

Lemma untouched_by_id_assignment (oid : nat) (f : Device -> Device) (box : list Device) :
  (forall d, In d box -> dev_oid d <> oid) ->
  map (fun d => if isDev oid d then f d else d) box = box.
Proof.
  induction box as [|d box IH]; intros H; simpl; [reflexivity|].
  rewrite IH by (intros; apply H; right; assumption).
  unfold isDev. destruct (Nat.eqb_spec (dev_oid d) oid) as [E|E]; [|reflexivity].
  exfalso. apply (H d); [left; reflexivity | exact E].
Qed.

(** C4, as the code has it.  A device-incoming notification of a known
    netcore for an unknown device, whose cook succeeds while the netcore
    permits joining and whose registration succeeds (the cooked device
    being a new object): the device is registered once and is the one new
    entry of the device registry, it is enabled and marked online, one
    "device incoming" event is fired and one devIncoming indication is
    sent, with the id the registry assigned; then the queued gadget
    notifications of that netcore and address are emitted again, oldest
    first, and nothing else is announced or commanded. *)
Theorem unknown_device_joins :
  forall fb msg nc toggles brewedDev id,
    findByNet_netcore (dm_ncName msg) fb = (fb, inr (Some nc)) ->
    findByNet_device (dm_ncName msg) (dm_permAddr msg) fb = (fb, inr None) ->
    (forall d, In d (devbox fb) -> dev_oid d <> dev_oid brewedDev) ->
    let cooking := run (Notify (OnNcDevIncoming msg) :: map toggle toggles) fb in
    joinableNow cooking nc = true ->
    let k := List.length (pending fb) in
    let fb' := run [Complete k (CookedDev brewedDev); Complete k (Registered id)] cooking in
    let devIn := setDevId (Some id) brewedDev in
    let r := RDev (dev_oid brewedDev) in
    devbox fb' = devbox fb ++ [devIn] /\
    gadbox fb' = gadbox fb /\
    exists replay,
      since fb fb'
      = [CookRawDev (nc_name nc) (dm_raw msg); Back (CookedDev brewedDev);
         Register r; Back (Registered id);
         Method r "enable" []; Method r "_poke" []; Method r "set" [VStr "net"; online];
         Fire (EVT_TOP DEV_INCOMING) (devIncomingEvent msg devIn);
         Tweet "dev" (Name "devIncoming") (VNum (Z.of_nat id)) (VDump r)] ++ replay /\
      filter isEmit replay = map Emit (filter (sameDevKey msg) (gadEventQueue fb)) /\
      existsb isLoud replay = false.
Proof.
  intros fb msg nc toggles brewedDev id Hnc Hdev Hnew cooking Hjoin k fb' devIn r.
  assert (Hcooking : cooking
                     = set_netcores (netcores cooking)
                         (step fb (Notify (OnNcDevIncoming msg)))).
  { unfold cooking. simpl. apply toggles_touch_netcores_only. }
  rewrite (ncDevIncoming_starts _ Hnc Hdev) in Hcooking.
  assert (Hpend : pending cooking
                  = pending fb ++ [CookingDev msg nc None (nextListener fb)])
    by (rewrite Hcooking; reflexivity).
  (* the netcore is still there when the registration completes *)
  assert (Hfind : exists nc',
             find (fun n => String.eqb (nc_name n) (dm_ncName msg)) (netcores cooking)
             = Some nc').
  { unfold findByNet_netcore, gets in Hnc. injection Hnc as Hnc.
    destruct (toggles_keep_names toggles
                (step fb (Notify (OnNcDevIncoming msg))) (dm_ncName msg) (nc := nc))
      as (nc' & H' & _).
    - rewrite (ncDevIncoming_starts _ (f_equal (fun o => (fb, inr o)) Hnc) Hdev).
      exact Hnc.
    - exists nc'. exact H'. }
  destruct Hfind as (nc' & Hfind).
  (* the cook calls back *)
  set (registering := step cooking (Complete k (CookedDev brewedDev))).
  assert (Hreg : registering
                 = exec (complete k (CookedDev brewedDev)) cooking) by reflexivity.
  unfold exec, k in Hreg.
  rewrite (@complete_last cooking (CookingDev msg nc None (nextListener fb))
             (CookedDev brewedDev) _ eq_refl (pending fb) Hpend) in Hreg.
  unfold ncDevIncoming_cooked, settle, isJoinable, register_device in Hreg.
  unfold bind, call, await, gets, modify, ret in Hreg. simpl in Hreg.
  change (joinableNow _ nc) with (joinableNow cooking nc) in Hreg.
  rewrite Hjoin in Hreg. simpl in Hreg.
  assert (Hpend2 : pending registering
                   = pending fb ++ [RegisteringDev msg brewedDev (nextListener fb)])
    by (rewrite Hreg; reflexivity).
  (* the registry calls back *)
  assert (Hfb' : fb' = exec (complete k (Registered id)) registering) by reflexivity.
  unfold exec, k in Hfb'.
  rewrite (@complete_last registering (RegisteringDev msg brewedDev (nextListener fb))
             (Registered id) _ eq_refl (pending fb) Hpend2) in Hfb'.
  unfold ncDevIncoming_registered, settle in Hfb'.
  unfold bind at 1 in Hfb'. unfold call at 1, modify at 1 in Hfb'.
  unfold bind at 1 in Hfb'. unfold modify at 1 in Hfb'.
  unfold bind at 1 in Hfb'. unfold removeListener at 1, modify at 1 in Hfb'.
  unfold bind at 1 in Hfb'. unfold call at 1, modify at 1 in Hfb'.
  unfold bind at 1 in Hfb'. unfold call at 1, modify at 1 in Hfb'.
  unfold bind at 1 in Hfb'. unfold call at 1, modify at 1 in Hfb'.
  unfold bind at 1 in Hfb'. unfold _fire at 1, call at 1, modify at 1 in Hfb'.
  unfold bind at 1 in Hfb'. unfold _tweet at 1, call at 1, modify at 1 in Hfb'.
  unfold releasQueueEvent in Hfb'.
  unfold bind at 1 in Hfb'. unfold gets at 1 in Hfb'.
  unfold bind at 1 in Hfb'. unfold modify at 1 in Hfb'.
  match type of Hfb' with
  | _ = fst (forEach ?evt ?f ?s) =>
      set (sR := s) in Hfb';
      assert (HncR : find (fun n => String.eqb (nc_name n) (dm_ncName msg)) (netcores sR)
                     = Some nc')
        by (unfold sR; simpl; rewrite Hreg; simpl; exact Hfind);
      assert (Hall : Forall (fun m => gm_ncName m = dm_ncName msg) evt)
  end.
  { apply Forall_forall. intros m Hm. apply filter_In in Hm. destruct Hm as [_ Hm].
    unfold sameDevKey in Hm. apply andb_true_iff in Hm. destruct Hm as [Hm _].
    apply String.eqb_eq in Hm. exact Hm. }
  destruct (replay_in_order sR HncR Hall) as (s' & replay & Hrun & Htr & Hem & Hloud & Hw).
  rewrite Hrun in Hfb'. simpl in Hfb'.
  destruct Hw as (_ & Hdevbox & Hgadbox & _ & _).
  split; [|split].
  - rewrite Hfb', Hdevbox. unfold sR. simpl. rewrite Hreg. simpl.
    rewrite Hcooking. simpl. rewrite map_app. simpl.
    rewrite untouched_by_id_assignment by exact Hnew.
    unfold isDev. rewrite Nat.eqb_refl. reflexivity.
  - rewrite Hfb', Hgadbox. unfold sR. simpl. rewrite Hreg. simpl.
    rewrite Hcooking. reflexivity.
  - exists replay. split; [|split].
    + apply since_app. rewrite Hfb', Htr. unfold sR. simpl. rewrite Hreg. simpl.
      rewrite Hcooking. simpl. rewrite <- !app_assoc. reflexivity.
    + rewrite Hem. unfold sR. simpl. rewrite Hreg. simpl. rewrite Hcooking. reflexivity.
    + exact Hloud.
Qed.

Lemma unknown_device_joins_witness :
  let nc := mkNetcore "nc1" false in
  let g1 := mkGadMsg "nc1" "0x01" (AuxNum 1) (VStr "temperature") in
  let g2 := mkGadMsg "nc1" "0x02" (AuxNum 1) (VStr "humidity") in
  let g3 := mkGadMsg "nc1" "0x01" (AuxNum 2) (VStr "switch") in
  let fb := mkFreebird [nc] [] [] [g1; g2; g3] [] 0 [] [] in
  let msg := mkDevMsg "nc1" "0x01" (VStr "raw") in
  let brewedDev := mkDevice 0 None "nc1" "0x01" false [] in
  let cooking := run (Notify (OnNcDevIncoming msg) :: map toggle [("nc1", true)]) fb in
  let fb' := run [Complete 0 (CookedDev brewedDev); Complete 0 (Registered 7)] cooking in
  findByNet_netcore "nc1" fb = (fb, inr (Some nc)) /\
  findByNet_device "nc1" "0x01" fb = (fb, inr None) /\
  (forall d, In d (devbox fb) -> dev_oid d <> dev_oid brewedDev) /\
  joinableNow cooking nc = true /\
  devbox fb' = [mkDevice 0 (Some 7) "nc1" "0x01" false []] /\
  filter isEmit (since fb fb') = [Emit g1; Emit g3].
Proof.
  intros nc g1 g2 g3 fb msg brewedDev cooking fb'.
  do 2 (split; [reflexivity|]).
  split; [intros d []|]. split; [reflexivity|].
  destruct (@unknown_device_joins fb msg nc [("nc1", true)] brewedDev 7
              eq_refl eq_refl (fun d (H : In d []) => match H with end) eq_refl)
    as (Hbox & _ & replay & Hsince & Hemit & _).
  split; [exact Hbox|].
  change (since fb fb' = [CookRawDev "nc1" (VStr "raw"); Back (CookedDev brewedDev);
            Register (RDev 0); Back (Registered 7);
            Method (RDev 0) "enable" []; Method (RDev 0) "_poke" [];
            Method (RDev 0) "set" [VStr "net"; online];
            Fire (EVT_TOP DEV_INCOMING)
                 (devIncomingEvent msg (setDevId (Some 7) brewedDev));
            Tweet "dev" (Name "devIncoming") (VNum 7) (VDump (RDev 0))] ++ replay)
    in Hsince.
  rewrite Hsince, filter_app, Hemit. reflexivity.
Defined.

(** C4, as stated, fails when the registry rejects the device: the netcore
    is known and permits joining, the device is unknown, the cook
    succeeds, and yet the registry holds no new device and no "device
    incoming" event is fired; an error indication is sent instead. *)
Lemma rejected_registration_adds_no_device :
  let nc := mkNetcore "nc1" true in
  let fb := fresh [nc] in
  let msg := mkDevMsg "nc1" "0x01" (VStr "raw") in
  let brewedDev := mkDevice 0 None "nc1" "0x01" false [] in
  let cooking := step fb (Notify (OnNcDevIncoming msg)) in
  let fb' := run [Complete 0 (CookedDev brewedDev);
                  Complete 0 (Failed (mkErr "registry full"))] cooking in
  findByNet_netcore "nc1" fb = (fb, inr (Some nc)) /\
  findByNet_device "nc1" "0x01" fb = (fb, inr None) /\
  joinableNow cooking nc = true /\
  devbox fb' = devbox fb /\
  List.length (devbox fb') <> S (List.length (devbox fb)) /\
  filter isFire (since fb fb') = [] /\
  filter isTweet (since fb fb')
  = [Tweet "net" (Name "error") (VNum 0)
           (VObj [("netcore", VStr "nc1"); ("message", VStr "registry full")])].
Proof.
  repeat split. intros H. vm_compute in H. discriminate.
Qed.

(** *** The coalescing queue *)

Lemma auxId_eqb_eq a b : auxId_eqb a b = true <-> a = b.
Proof.
  destruct a, b; simpl; split; intros H; try discriminate; try congruence.
  - apply String.eqb_eq in H. congruence.
  - injection H as ->. apply String.eqb_refl.
  - apply Z.eqb_eq in H. congruence.
  - injection H as ->. apply Z.eqb_refl.
Qed.

Lemma sameGadKey_spec a b : sameGadKey a b = true <-> gadKey a = gadKey b.
Proof.
  unfold sameGadKey, gadKey. rewrite !andb_true_iff, !String.eqb_eq, auxId_eqb_eq.
  split.
  - intros [[H1 H2] H3]. congruence.
  - intros [= H1 H2 H3]. auto.
Qed.

Lemma sameGadKey_same_filter a b (queue : list GadMsg) :
  sameGadKey a b = true -> filter (sameGadKey a) queue = filter (sameGadKey b) queue.
Proof.
  intros H. apply sameGadKey_spec in H. apply filter_ext. intros m.
  destruct (sameGadKey a m) eqn:Ea, (sameGadKey b m) eqn:Eb; try reflexivity.
  - apply sameGadKey_spec in Ea.
    assert (Hb : sameGadKey b m = true) by (apply sameGadKey_spec; congruence).
    congruence.
  - apply sameGadKey_spec in Eb.
    assert (Ha : sameGadKey a m = true) by (apply sameGadKey_spec; congruence).
    congruence.
Qed.

Lemma keyCount_absent (queue : list GadMsg) msg :
  existsb (sameGadKey msg) queue = false -> keyCount queue msg = 0.
Proof.
  unfold keyCount. induction queue as [|m queue IH]; simpl; [reflexivity|].
  destruct (sameGadKey msg m); simpl; [discriminate | exact IH].
Qed.

Lemma filter_shorter A (f g : A -> bool) (l : list A) :
  List.length (filter f (filter g l)) <= List.length (filter f l).
Proof.
  induction l as [|x l IH]; simpl; [lia|].
  destruct (g x) eqn:Eg, (f x) eqn:Ef; simpl; rewrite ?Ef; simpl; lia.
Qed.

(** C1, as the code has it.  On any queue, [queueEvent] with a
    notification whose key is already queued removes the entries of that
    key and appends nothing, so that none of that key is left; with a new
    key it appends the notification.  Either way a queue with at most one
    entry per key stays such a queue. *)
Theorem queueEvent_coalesces :
  forall queue gadMsgIn,
    (existsb (sameGadKey gadMsgIn) queue = true ->
     queueEvent_on queue gadMsgIn
     = filter (fun gadMsg => negb (sameGadKey gadMsgIn gadMsg)) queue /\
     keyCount (queueEvent_on queue gadMsgIn) gadMsgIn = 0) /\
    (existsb (sameGadKey gadMsgIn) queue = false ->
     queueEvent_on queue gadMsgIn = queue ++ [gadMsgIn] /\
     keyCount (queueEvent_on queue gadMsgIn) gadMsgIn = 1) /\
    (atMostOnePerKey queue -> atMostOnePerKey (queueEvent_on queue gadMsgIn)).
Proof.
  intros queue gadMsgIn. unfold queueEvent_on.
  destruct (existsb (sameGadKey gadMsgIn) queue) eqn:Hex.
  - split; [|split]; try discriminate.
    + intros _. split; [reflexivity|].
      unfold keyCount. clear Hex.
      induction queue as [|m queue IH]; simpl; [reflexivity|].
      destruct (sameGadKey gadMsgIn m) eqn:E; simpl; [exact IH|].
      rewrite E. exact IH.
    + intros H msg. unfold keyCount.
      eapply Nat.le_trans; [apply filter_shorter | apply H].
  - split; [|split]; try discriminate.
    + intros _. split; [reflexivity|].
      unfold keyCount. rewrite filter_app, length_app.
      fold (keyCount queue gadMsgIn). rewrite (keyCount_absent _ _ Hex). simpl.
      assert (Hrefl : sameGadKey gadMsgIn gadMsgIn = true)
        by (apply sameGadKey_spec; reflexivity).
      rewrite Hrefl. reflexivity.
    + intros H msg. unfold keyCount. rewrite filter_app, length_app. simpl.
      destruct (sameGadKey msg gadMsgIn) eqn:E; simpl.
      * rewrite (sameGadKey_same_filter _ _ queue E).
        fold (keyCount queue gadMsgIn). rewrite (keyCount_absent _ _ Hex). lia.
      * specialize (H msg). unfold keyCount in H. lia.
Qed.

Lemma queueEvent_coalesces_witness :
  let g1 := mkGadMsg "nc1" "0x01" (AuxNum 1) (VStr "first") in
  let g2 := mkGadMsg "nc1" "0x02" (AuxNum 1) (VStr "other") in
  let again := mkGadMsg "nc1" "0x01" (AuxNum 1) (VStr "second") in
  existsb (sameGadKey again) [g1; g2] = true /\
  queueEvent_on [g1; g2] again = [g2] /\
  keyCount (queueEvent_on [g1; g2] again) again = 0.
Proof.
  intros g1 g2 again.
  split; [reflexivity|].
  destruct (queueEvent_coalesces [g1; g2] again) as (H & _ & _).
  destruct (H eq_refl) as (Hq & Hc).
  split; [rewrite Hq; reflexivity | exact Hc].
Defined.

(** C1, as stated, fails: [ncGadIncoming] pushes its notification without
    looking.  A second notification of a gadget arriving while the cook
    of the first is in flight leaves two entries of one key in the queue. *)
Lemma two_arrivals_are_queued_twice :
  let nc := mkNetcore "nc1" true in
  let msg := mkDevMsg "nc1" "0x01" (VStr "raw") in
  let brewedDev := mkDevice 0 None "nc1" "0x01" false [] in
  let g1 := mkGadMsg "nc1" "0x01" (AuxNum 1) (VStr "temperature") in
  let fb' := run [Notify (OnNcDevIncoming msg);
                  Complete 0 (CookedDev brewedDev);
                  Complete 0 (Registered 1);
                  Notify (OnNcGadIncoming g1);
                  Notify (OnNcGadIncoming g1)] (fresh [nc]) in
  gadEventQueue fb' = [g1; g1] /\
  keyCount (gadEventQueue fb') g1 = 2 /\
  ~ atMostOnePerKey (gadEventQueue fb').
Proof.
  repeat split.
  intros H. specialize (H (mkGadMsg "nc1" "0x01" (AuxNum 1) (VStr "temperature"))).
  vm_compute in H. lia.
Qed.

(** *** Device leaving: the removal cascade *)

Lemma pop_snoc A (l : list A) (x : A) : pop (l ++ [x]) = Some (x, l).
Proof.
  unfold pop. rewrite rev_app_distr. simpl. rewrite rev_involutive. reflexivity.
Qed.

Lemma inspect_eq A (a b : A) (H : a = b) : inspect a = exist _ b H.
Proof. subst. reflexivity. Qed.

Lemma removeGadget_empty msg dev devId :
  removeGadget msg dev devId [] = unregister_device dev (UnregisteringDev msg dev devId).
Proof. reflexivity. Qed.

Lemma removeGadget_skips msg dev devId tbl :
  removeGadget msg dev devId (tbl ++ [None]) = removeGadget msg dev devId tbl.
Proof.
  rewrite removeGadget_equation_1, (inspect_eq (pop_snoc tbl None)). reflexivity.
Qed.

Lemma removeGadget_pops msg dev devId tbl gad :
  removeGadget msg dev devId (tbl ++ [Some gad])
  = unregister_gadget gad (UnregisteringGad msg dev devId tbl gad).
Proof.
  rewrite removeGadget_equation_1, (inspect_eq (pop_snoc tbl (Some gad))). reflexivity.
Qed.

Lemma present_snoc A (l : list (option A)) (x : option A) :
  present (l ++ [x]) = present l ++ match x with Some a => [a] | None => [] end.
Proof.
  unfold present. rewrite flat_map_app. simpl. rewrite app_nil_r. reflexivity.
Qed.

(** From any call of [removeGadget] on: one unregister per gadget left in
    the table, last one first, each called only after the one before has
    called back, and then the device. *)
Lemma cascade_runs : forall msg dev gadTbl s results last,
  List.length results = List.length (present gadTbl) ->
  let k := List.length (pending s) in
  let s' := run (map (fun r => Complete k (report r)) (results ++ [last]))
                (exec (removeGadget msg dev (dev_id dev) gadTbl) s) in
  trace s' = trace s
             ++ List.concat (map (fun gr => gadgetRemoval msg (fst gr) (snd gr))
                            (combine (rev (present gadTbl)) results))
             ++ deviceRemoval msg dev last /\
  pending s' = pending s.
Proof.
  intros msg dev gadTbl.
  induction gadTbl as [|x tbl IH] using rev_ind; intros s results last Hlen k s'.
  - (* the table is empty: the device goes *)
    destruct results; [|discriminate]. subst s'. simpl.
    rewrite removeGadget_empty.
    set (s1 := exec (unregister_device dev (UnregisteringDev msg dev (dev_id dev))) s).
    assert (Hp : pending s1 = pending s ++ [UnregisteringDev msg dev (dev_id dev)])
      by reflexivity.
    unfold step, handle, exec. unfold k.
    destruct last as [e|].
    + rewrite (@complete_last s1 (UnregisteringDev msg dev (dev_id dev))
                 (report (Some e)) _ eq_refl (pending s) Hp).
      subst s1. simpl. rewrite <- !app_assoc. split; reflexivity.
    + rewrite (@complete_last s1 (UnregisteringDev msg dev (dev_id dev))
                 (report None) _ eq_refl (pending s) Hp).
      subst s1. simpl. rewrite <- !app_assoc. split; reflexivity.
  - destruct x as [gad|].
    + (* a gadget is popped and unregistered *)
      rewrite present_snoc, length_app in Hlen. simpl in Hlen.
      destruct results as [|r results]; [simpl in Hlen; lia|].
      simpl in Hlen.
      subst s'. rewrite removeGadget_pops.
      rewrite present_snoc, rev_app_distr.
      cbn [rev app combine map List.concat fst snd].
      set (s1 := exec (unregister_gadget gad
                         (UnregisteringGad msg dev (dev_id dev) tbl gad)) s).
      assert (Hp : pending s1
                   = pending s ++ [UnregisteringGad msg dev (dev_id dev) tbl gad])
        by reflexivity.
      change (run (Complete k (report r)
                   :: map (fun r => Complete k (report r)) (results ++ [last])) s1)
        with (run (map (fun r => Complete k (report r)) (results ++ [last]))
                  (fst (complete k (report r) s1))).
      unfold k.
      assert (Hnext : exists s2,
                 fst (complete (List.length (pending s)) (report r) s1)
                 = exec (removeGadget msg dev (dev_id dev) tbl) s2 /\
                 trace s2 = trace s ++ gadgetRemoval msg gad r /\
                 pending s2 = pending s).
      { destruct r as [e|].
        - rewrite (@complete_last s1 (UnregisteringGad msg dev (dev_id dev) tbl gad)
                     (report (Some e)) _ eq_refl (pending s) Hp).
          subst s1. eexists. split; [reflexivity|]. simpl. rewrite <- !app_assoc.
          split; reflexivity.
        - rewrite (@complete_last s1 (UnregisteringGad msg dev (dev_id dev) tbl gad)
                     (report None) _ eq_refl (pending s) Hp).
          subst s1. eexists. split; [reflexivity|]. simpl. rewrite <- !app_assoc.
          split; reflexivity. }
      destruct Hnext as (s2 & Hs2 & Ht2 & Hp2).
      rewrite Hs2.
      assert (Hlen2 : List.length results = List.length (present tbl)) by lia.
      destruct (IH s2 results last Hlen2) as (Ht & Hp').
      rewrite Hp2 in Ht, Hp'. rewrite Ht, Hp', Ht2. rewrite <- !app_assoc.
      split; reflexivity.
    + (* the gadget of this record is gone: skip it *)
      rewrite present_snoc, app_nil_r in Hlen.
      subst s'. rewrite removeGadget_skips, present_snoc, app_nil_r.
      apply IH. exact Hlen.
Qed.

Lemma unregisters_of_cascade msg : forall gads (results : list (option Err)),
  List.length results = List.length gads ->
  filter isUnregister
    (List.concat (map (fun gr => gadgetRemoval msg (fst gr) (snd gr))
                      (combine gads results)))
  = map (fun g => Unregister (RGad (gad_oid g))) gads.
Proof.
  induction gads as [|g gads IH]; intros results Hlen.
  - reflexivity.
  - destruct results as [|r results]; [discriminate|].
    simpl in Hlen. injection Hlen as Hlen.
    cbn [combine map List.concat fst snd].
    rewrite filter_app, (IH results Hlen).
    destruct r; reflexivity.
Qed.

Lemma present_all A (l : list (option A)) :
  Forall (fun o => o <> None) l -> List.length (present l) = List.length l.
Proof.
  induction 1 as [|o l Ho _ IH]; simpl; [reflexivity|].
  destruct o; [|contradiction]. simpl. rewrite <- IH. reflexivity.
Qed.

(** C2. A device-leaving notification for a registered device flagged
    as being removed, whose table names N gadgets that are in the gadget
    registry: after the device is marked offline, exactly N gadget
    unregister calls are made, each one only after the one before has
    called back, and then exactly one device unregister call.  A gadget
    unregister that fails is followed by a warning event and an error
    indication, a successful one by the gadget-leaving event and
    indication; either way the cascade goes on.  (The gadgets are taken
    from the end of the table; a record whose gadget is not in the
    registry is skipped.) *)
Theorem removal_cascades_gadgets_then_device :
  forall fb msg dev results last,
    findByNet_device (am_ncName msg) (am_permAddr msg) fb = (fb, inr (Some dev)) ->
    dev_removing dev = true ->
    let gadTbl := map (fun rec => getGadget fb (rec_gadId rec)) (dev_gadTable dev) in
    let gads := rev (present gadTbl) in
    List.length results = List.length gads ->
    let k := List.length (pending fb) in
    let fb' := run (Notify (OnNcDevLeaving msg)
                    :: map (fun r => Complete k (report r)) (results ++ [last])) fb in
    since fb fb'
    = [Method (RDev (dev_oid dev)) "_poke" [];
       Method (RDev (dev_oid dev)) "set" [VStr "net"; offline]]
      ++ List.concat (map (fun gr => gadgetRemoval msg (fst gr) (snd gr))
                          (combine gads results))
      ++ deviceRemoval msg dev last /\
    filter isUnregister (since fb fb')
    = map (fun g => Unregister (RGad (gad_oid g))) gads
      ++ [Unregister (RDev (dev_oid dev))] /\
    pending fb' = pending fb /\
    (Forall (fun rec => getGadget fb (rec_gadId rec) <> None) (dev_gadTable dev) ->
     List.length gads = List.length (dev_gadTable dev)).
Proof.
  intros fb msg dev results last Hdev Hrm gadTbl gads Hlen k fb'.
  unfold findByNet_device, gets in Hdev. injection Hdev as Hdev.
  set (s0 := set_trace ((trace fb ++ [Method (RDev (dev_oid dev)) "_poke" []])
                        ++ [Method (RDev (dev_oid dev)) "set" [VStr "net"; offline]]) fb).
  assert (Hstart : step fb (Notify (OnNcDevLeaving msg))
                   = exec (removeGadget msg dev (dev_id dev) gadTbl) s0).
  { unfold step, exec, handle, emit, ncDevLeaving.
    unfold bind at 1. unfold findByNet_netcore, gets at 1.
    unfold bind at 1. unfold findByNet_device, gets at 1. rewrite Hdev.
    unfold bind at 1. unfold call at 1, modify at 1.
    unfold bind at 1. unfold call at 1, modify at 1.
    rewrite Hrm. unfold bind at 1. unfold gets at 1. reflexivity. }
  assert (Hfb' : fb' = run (map (fun r => Complete (List.length (pending s0)) (report r))
                                (results ++ [last]))
                           (exec (removeGadget msg dev (dev_id dev) gadTbl) s0)).
  { unfold fb'. simpl. rewrite Hstart. reflexivity. }
  assert (Hlen' : List.length results = List.length (present gadTbl))
    by (unfold gads in Hlen; rewrite length_rev in Hlen; exact Hlen).
  destruct (@cascade_runs msg dev gadTbl s0 results last Hlen') as (Ht & Hp).
  rewrite <- Hfb' in Ht, Hp.
  assert (Hsince : since fb fb'
                   = [Method (RDev (dev_oid dev)) "_poke" [];
                      Method (RDev (dev_oid dev)) "set" [VStr "net"; offline]]
                     ++ List.concat (map (fun gr => gadgetRemoval msg (fst gr) (snd gr))
                                         (combine gads results))
                     ++ deviceRemoval msg dev last).
  { apply since_app. rewrite Ht. unfold s0. simpl. rewrite <- !app_assoc. reflexivity. }
  split; [exact Hsince|]. split; [|split].
  - rewrite Hsince, !filter_app, (unregisters_of_cascade msg gads results Hlen).
    destruct last; reflexivity.
  - rewrite Hp. reflexivity.
  - intros Hall. unfold gads. rewrite length_rev. unfold gadTbl.
    rewrite present_all, length_map; [reflexivity|].
    apply Forall_map. exact Hall.
Qed.

Lemma removal_cascades_gadgets_then_device_witness :
  let gad k := mkGadget (100 + k) (Some k) "nc1" "0x01" (AuxNum (Z.of_nat k)) "unknown" in
  let dev := mkDevice 0 (Some 7) "nc1" "0x01" true
                      [mkGadRec 1 (AuxNum 1); mkGadRec 2 (AuxNum 2); mkGadRec 3 (AuxNum 3)] in
  let fb := mkFreebird [mkNetcore "nc1" true] [dev] [gad 1; gad 2; gad 3] [] [] 0 [] [] in
  let msg := mkAddrMsg "nc1" "0x01" in
  let results := [None; Some (mkErr "busy"); None] in
  let fb' := run (Notify (OnNcDevLeaving msg)
                  :: map (fun r => Complete 0 (report r)) (results ++ [None])) fb in
  findByNet_device "nc1" "0x01" fb = (fb, inr (Some dev)) /\
  dev_removing dev = true /\
  List.length results = 3 /\
  filter isUnregister (since fb fb')
  = [Unregister (RGad 103); Unregister (RGad 102); Unregister (RGad 101);
     Unregister (RDev 0)] /\
  pending fb' = [].
Proof.
  intros gad dev fb msg results fb'.
  do 3 (split; [reflexivity|]).
  destruct (@removal_cascades_gadgets_then_device fb msg dev results None
              eq_refl eq_refl eq_refl) as (_ & Hun & Hp & _).
  split; [exact Hun | exact Hp].
Defined.

(** *** Gadget arrival before the device has its id *)

Lemma run_snoc events e fb : run (events ++ [e]) fb = step (run events fb) e.
Proof. unfold run. rewrite fold_left_app. reflexivity. Qed.

Lemma repeat_snoc A (x : A) n : repeat x (S n) = repeat x n ++ [x].
Proof.
  induction n as [|n IH]; [reflexivity|].
  simpl in *. rewrite <- IH. reflexivity.
Qed.

Lemma concat_repeat_snoc A (l : list A) n :
  List.concat (repeat l (S n)) = List.concat (repeat l n) ++ l.
Proof.
  rewrite repeat_snoc, concat_app. simpl. rewrite app_nil_r. reflexivity.
Qed.

(** The first readiness check, made by the handler itself. *)
Lemma gadIncoming_starts_retrying fb msg dev :
  findByNet_device (gm_ncName msg) (gm_permAddr msg) fb = (fb, inr (Some dev)) ->
  dev_id (devNow fb dev) = None ->
  Retrying fb msg dev 0 (step fb (Notify (OnNcGadIncoming msg))).
Proof.
  intros Hdev Hid.
  unfold findByNet_device, gets in Hdev. injection Hdev as Hdev.
  unfold step, exec, handle, emit, emit_NcGadIncoming.
  unfold bind at 1. unfold gets at 1.
  unfold bind at 1.
  assert (Hgad : exists s1,
             ncGadIncoming msg fb = (s1, inr tt) /\ Retrying fb msg dev 0 s1).
  { unfold ncGadIncoming.
    unfold bind at 1. unfold findByNet_netcore, gets at 1.
    unfold bind at 1. unfold findByNet_device, gets at 1. rewrite Hdev.
    unfold bind at 1. unfold findByNet_gadget, gets at 1.
    unfold bind at 1. unfold modify at 1.
    unfold bind at 1. unfold call at 1, modify at 1.
    unfold bind at 1. unfold call at 1, modify at 1.
    unfold doGadCook. unfold bind at 1. unfold nowDev, gets at 1.
    cbv beta iota. cbn [gc_dev gc_syncTimes gc_nc gc_msg].
    match goal with
    | |- context [devNow ?s dev] => change (devNow s dev) with (devNow fb dev)
    end.
    rewrite Hid. simpl.
    eexists. split; [reflexivity|].
    unfold Retrying. simpl.
    split; [reflexivity|]. split; [reflexivity|]. split.
    - eexists. split; [reflexivity|]. repeat split.
    - rewrite <- !app_assoc. reflexivity. }
  destruct Hgad as (s1 & Hs1 & Hr). rewrite Hs1.
  destruct (listeners_only_touch_queue (listeners fb) msg s1) as (q & Hq).
  rewrite Hq. simpl. exact Hr.
Qed.

(** A timer fires while the device still has no id: another timer is
    set, until fifty have been. *)
Lemma retry_again fb msg dev j s :
  dev_id (devNow fb dev) = None ->
  Retrying fb msg dev j s -> j < 49 ->
  Retrying fb msg dev (S j) (step s (Complete (List.length (pending fb)) Elapsed)).
Proof.
  intros Hid (Hd & Hg & (c & Hp & Hm & Hdv & Hn) & Ht) Hj.
  unfold step, exec, handle.
  rewrite (@complete_last s (Sleeping c) Elapsed _ eq_refl (pending fb) Hp).
  unfold settle.
  unfold bind at 1. unfold call at 1, modify at 1.
  unfold bind at 1. unfold ret at 1.
  unfold doGadCook. unfold bind at 1. unfold nowDev, gets at 1.
  cbv beta iota. rewrite Hdv.
  match goal with
  | |- context [devNow ?s' dev] =>
      assert (Hnow : devNow s' dev = devNow fb dev)
        by (unfold devNow; simpl; rewrite Hd; reflexivity);
      rewrite Hnow
  end.
  rewrite Hid, Hn.
  assert (Hlt : Nat.ltb 50 (S (S j)) = false) by (apply Nat.ltb_ge; lia).
  rewrite Hlt. unfold bind, call, await, modify. cbn [fst].
  unfold Retrying.
  cbn [devbox gadbox pending trace set_trace set_pending].
  split; [exact Hd|]. split; [exact Hg|]. split.
  - eexists. split; [reflexivity|]. simpl. repeat split; assumption.
  - rewrite Ht, concat_repeat_snoc. rewrite <- !app_assoc. reflexivity.
Qed.

(** The fiftieth timer fires and the device still has no id: the
    notification is given up. *)
Lemma retry_gives_up fb msg dev s :
  dev_id (devNow fb dev) = None ->
  Retrying fb msg dev 49 s ->
  let s' := step s (Complete (List.length (pending fb)) Elapsed) in
  devbox s' = devbox fb /\ gadbox s' = gadbox fb /\ pending s' = pending fb /\
  trace s' = trace fb
             ++ [Method (RDev (dev_oid dev)) "_poke" [];
                 Method (RDev (dev_oid dev)) "set" [VStr "net"; online]]
             ++ List.concat (repeat [SetTimeout 20; Back Elapsed] 50).
Proof.
  intros Hid (Hd & Hg & (c & Hp & Hm & Hdv & Hn) & Ht) s'.
  assert (Hs' : s' = set_trace (trace s ++ [Back Elapsed]) (set_pending (pending fb) s)).
  { unfold s', step, exec, handle.
    rewrite (@complete_last s (Sleeping c) Elapsed _ eq_refl (pending fb) Hp).
    unfold settle.
    unfold bind at 1. unfold call at 1, modify at 1.
    unfold bind at 1. unfold ret at 1.
    unfold doGadCook. unfold bind at 1. unfold nowDev, gets at 1.
    cbv beta iota. rewrite Hdv.
    match goal with
    | |- context [devNow ?s' dev] =>
        assert (Hnow : devNow s' dev = devNow fb dev)
          by (unfold devNow; simpl; rewrite Hd; reflexivity);
        rewrite Hnow
    end.
    rewrite Hid, Hn. reflexivity. }
  rewrite Hs'. cbn [devbox gadbox pending trace set_trace set_pending].
  split; [exact Hd|]. split; [exact Hg|]. split; [reflexivity|].
  rewrite Ht, (concat_repeat_snoc _ 49). rewrite <- !app_assoc. reflexivity.
Qed.

Lemma retrying_through fb msg dev :
  findByNet_device (gm_ncName msg) (gm_permAddr msg) fb = (fb, inr (Some dev)) ->
  dev_id (devNow fb dev) = None ->
  forall j, j < 50 ->
    Retrying fb msg dev j
      (run (Notify (OnNcGadIncoming msg)
            :: repeat (Complete (List.length (pending fb)) Elapsed) j) fb).
Proof.
  intros Hdev Hid. induction j as [|j IH]; intros Hj.
  - apply gadIncoming_starts_retrying; assumption.
  - rewrite repeat_snoc, app_comm_cons, run_snoc.
    apply retry_again; [assumption | apply IH; lia | lia].
Qed.

(** C6. A gadget-incoming notification whose device is in the registry
    without an id, and stays so: the handler marks the device online and
    then checks for the id again every 20 ms; after each of the first
    fifty checks a timer is set, the fifty-first gives up.  Fifty timers
    of 20 ms are set in all, one second together, and then the
    notification is discarded: no cook, no event, no indication, no
    registry call, nothing left pending, both registries as before. *)
Theorem unready_device_is_polled_then_given_up :
  forall fb msg dev,
    findByNet_device (gm_ncName msg) (gm_permAddr msg) fb = (fb, inr (Some dev)) ->
    dev_id (devNow fb dev) = None ->
    let k := List.length (pending fb) in
    (forall j, j < 50 ->
       Retrying fb msg dev j
         (run (Notify (OnNcGadIncoming msg) :: repeat (Complete k Elapsed) j) fb)) /\
    let fb' := run (Notify (OnNcGadIncoming msg) :: repeat (Complete k Elapsed) 50) fb in
    since fb fb'
    = [Method (RDev (dev_oid dev)) "_poke" [];
       Method (RDev (dev_oid dev)) "set" [VStr "net"; online]]
      ++ List.concat (repeat [SetTimeout 20; Back Elapsed] 50) /\
    filter isSetTimeout (since fb fb') = repeat (SetTimeout 20) 50 /\
    list_sum (map delay (since fb fb')) = 1000 /\
    pending fb' = pending fb /\
    droppedSilently fb fb'.
Proof.
  intros fb msg dev Hdev Hid k.
  split; [intros j Hj; apply retrying_through; assumption|].
  intros fb'.
  assert (H49 := retrying_through msg Hdev Hid (j := 49) ltac:(lia)).
  destruct (retry_gives_up Hid H49) as (Hd & Hg & Hp & Ht).
  assert (Hfb' : fb' = step (run (Notify (OnNcGadIncoming msg)
                                  :: repeat (Complete k Elapsed) 49) fb)
                            (Complete k Elapsed)).
  { unfold fb'. rewrite (repeat_snoc _ 49), app_comm_cons, run_snoc. reflexivity. }
  fold k in Hd, Hg, Hp, Ht. rewrite <- Hfb' in Hd, Hg, Hp, Ht.
  assert (Hsince := @since_app fb fb' _ Ht).
  split; [exact Hsince|].
  split; [rewrite Hsince; reflexivity|].
  split; [rewrite Hsince; reflexivity|].
  split; [exact Hp|].
  unfold droppedSilently. split; [exact Hd|]. split; [exact Hg|].
  rewrite Hsince. reflexivity.
Qed.

Lemma unready_device_is_polled_then_given_up_witness :
  let dev := mkDevice 0 None "nc1" "0x01" false [] in
  let fb := mkFreebird [mkNetcore "nc1" true] [dev] [] [] [] 1 [] [] in
  let msg := mkGadMsg "nc1" "0x01" (AuxNum 1) (VStr "temperature") in
  let fb' := run (Notify (OnNcGadIncoming msg) :: repeat (Complete 0 Elapsed) 50) fb in
  findByNet_device "nc1" "0x01" fb = (fb, inr (Some dev)) /\
  dev_id (devNow fb dev) = None /\
  filter isSetTimeout (since fb fb') = repeat (SetTimeout 20) 50 /\
  pending fb' = [] /\
  droppedSilently fb fb'.
Proof.
  intros dev fb msg fb'.
  do 2 (split; [reflexivity|]).
  destruct (@unready_device_is_polled_then_given_up fb msg dev eq_refl eq_refl)
    as (_ & _ & Htimers & _ & Hp & Hdrop).
  split; [exact Htimers|]. split; [exact Hp | exact Hdrop].
Defined.

(** *** What the handlers do to listeners and pending callbacks *)

Section Preservation.

Variable Q : list nat -> nat -> list Pending -> Prop.

Lemma preserves_ret A (a : A) : Preserves Q (ret a).
Proof. intros fb H; exact H. Qed.

Lemma preserves_throw A (e : Exn) : Preserves Q (@throw A e).
Proof. intros fb H; exact H. Qed.

Lemma preserves_gets A (f : Freebird -> A) : Preserves Q (gets f).
Proof. intros fb H; exact H. Qed.

Lemma preserves_bind A B (m : M A) (k : A -> M B) :
  Preserves Q m -> (forall a, Preserves Q (k a)) -> Preserves Q (bind m k).
Proof.
  intros Hm Hk fb H. unfold bind. specialize (Hm fb H).
  destruct (m fb) as [fb' [e|a]]; simpl in *; [exact Hm | apply Hk; exact Hm].
Qed.

Lemma preserves_modify (f : Freebird -> Freebird) :
  (forall fb, listeners (f fb) = listeners fb /\ nextListener (f fb) = nextListener fb
              /\ pending (f fb) = pending fb) ->
  Preserves Q (modify f).
Proof.
  intros Hf fb H. unfold modify, holds in *. simpl.
  destruct (Hf fb) as (-> & -> & ->). exact H.
Qed.

Lemma preserves_call c : Preserves Q (call c).
Proof. apply preserves_modify. intros fb. repeat split. Qed.

Lemma preserves_await p :
  (forall ls n pend, Q ls n pend -> Q ls n (pend ++ [p])) -> Preserves Q (await p).
Proof. intros Hp fb H. apply Hp. exact H. Qed.

Lemma preserves_removeListener q :
  (forall ls n pend, Q ls n pend
                     -> Q (filter (fun l => negb (Nat.eqb l q)) ls) n pend) ->
  Preserves Q (removeListener q).
Proof. intros Hq fb H. apply Hq. exact H. Qed.

Lemma preserves_forEach A (arr : list A) (f : A -> M unit) :
  (forall x, Preserves Q (f x)) -> Preserves Q (forEach arr f).
Proof.
  intros Hf. induction arr as [|x arr IH]; simpl.
  - apply preserves_ret.
  - apply preserves_bind; [apply Hf | intros _; exact IH].
Qed.

End Preservation.

(** Takes a handler apart down to the calls that touch listeners or
    pending callbacks; what is left are the conditions on those. *)
Ltac preserve :=
  repeat match goal with
    | |- Preserves _ (ret _) => apply preserves_ret
    | |- Preserves _ (throw _) => apply preserves_throw
    | |- Preserves _ (gets _) => apply preserves_gets
    | |- Preserves _ (call _) => apply preserves_call
    | |- Preserves _ (_fire _ _) => apply preserves_call
    | |- Preserves _ (_tweet _ _ _ _) => apply preserves_call
    | |- Preserves _ (findByNet_netcore _) => apply preserves_gets
    | |- Preserves _ (findByNet_device _ _) => apply preserves_gets
    | |- Preserves _ (findByNet_gadget _ _ _) => apply preserves_gets
    | |- Preserves _ (nowDev _) => apply preserves_gets
    | |- Preserves _ (nowGad _) => apply preserves_gets
    | |- Preserves _ (isJoinable _) => apply preserves_gets
    | |- Preserves _ (queueEvent _) => unfold queueEvent
    | |- Preserves _ (modify _) => apply preserves_modify; intros ?; repeat split
    | |- Preserves _ (forEach _ _) => apply preserves_forEach; intros ?
    | |- Preserves _ (bind _ _) => apply preserves_bind; [|intros ?]
    | |- Preserves _ (await _) => apply preserves_await
    | |- Preserves _ (removeListener _) => apply preserves_removeListener
    | |- Preserves _ (match ?x with _ => _ end) => destruct x
    | |- Preserves _ (let _ := _ in _) => cbv zeta
    end.

Section Handlers_preserve.

Variable Q : list nat -> nat -> list Pending -> Prop.

(** New pending callbacks that hold no closure are always fine. *)
Hypothesis Q_await :
  forall p, owned p = None -> forall ls n pend, Q ls n pend -> Q ls n (pend ++ [p]).

Lemma doGadCook_preserves c : Preserves Q (doGadCook c).
Proof. unfold doGadCook. preserve; apply Q_await; reflexivity. Qed.

Lemma ncGadIncoming_preserves msg : Preserves Q (ncGadIncoming msg).
Proof.
  unfold ncGadIncoming. preserve. apply doGadCook_preserves.
Qed.

Lemma emit_NcGadIncoming_preserves msg : Preserves Q (emit_NcGadIncoming msg).
Proof.
  unfold emit_NcGadIncoming. preserve. apply ncGadIncoming_preserves.
Qed.

Lemma releasQueueEvent_preserves msg : Preserves Q (releasQueueEvent msg).
Proof.
  unfold releasQueueEvent. preserve. apply emit_NcGadIncoming_preserves.
Qed.

Lemma removeGadget_preserves msg dev devId gadTbl :
  Preserves Q (removeGadget msg dev devId gadTbl).
Proof.
  induction gadTbl as [|x tbl IH] using rev_ind.
  - rewrite removeGadget_empty. unfold unregister_device.
    preserve. apply Q_await; reflexivity.
  - destruct x as [gad|].
    + rewrite removeGadget_pops. unfold unregister_gadget.
      preserve. apply Q_await; reflexivity.
    + rewrite removeGadget_skips. exact IH.
Qed.

Lemma ncDevLeaving_preserves msg : Preserves Q (ncDevLeaving msg).
Proof.
  unfold ncDevLeaving. preserve. apply removeGadget_preserves.
Qed.

Lemma bannedComponent_preserves type indType msg :
  Preserves Q (bannedComponent type indType msg).
Proof.
  unfold bannedComponent, nc_remove, unregister_gadget.
  preserve; apply Q_await; reflexivity.
Qed.

Lemma ncNetBan_preserves msg : Preserves Q (ncNetBan msg).
Proof.
  unfold ncNetBan, nc_remove.
  preserve; apply Q_await; reflexivity.
Qed.

Lemma updateComponent_preserves type namespace msg :
  Preserves Q (updateComponent type namespace msg).
Proof. unfold updateComponent. preserve. apply Q_await; reflexivity. Qed.

Lemma settle_preserves p o : Preserves Q (settle p o).
Proof. unfold settle. destruct p, o; preserve. Qed.

Lemma register_gadget_preserves gadIn msg :
  Preserves Q (register_gadget gadIn (RegisteringGad msg gadIn)).
Proof. unfold register_gadget. preserve. apply Q_await; reflexivity. Qed.

Lemma ncGadIncoming_cooked_preserves c nc res :
  Preserves Q (ncGadIncoming_cooked c nc res).
Proof.
  unfold ncGadIncoming_cooked. preserve. apply register_gadget_preserves.
Qed.

Lemma ncGadIncoming_registered_preserves msg gadIn res :
  Preserves Q (ncGadIncoming_registered msg gadIn res).
Proof. unfold ncGadIncoming_registered. preserve. Qed.

Lemma removeGadget_unregistered_preserves msg dev devId gadTbl gad err :
  Preserves Q (removeGadget_unregistered msg dev devId gadTbl gad err).
Proof.
  unfold removeGadget_unregistered. preserve. apply removeGadget_preserves.
Qed.

Lemma ncDevLeaving_unregistered_preserves msg devId err :
  Preserves Q (ncDevLeaving_unregistered msg devId err).
Proof. unfold ncDevLeaving_unregistered. preserve. Qed.

Lemma nc_remove_done_preserves ncName dev err :
  Preserves Q (nc_remove_done ncName dev err).
Proof. unfold nc_remove_done. preserve. Qed.

Lemma bannedGad_unregistered_preserves msg gadId err :
  Preserves Q (bannedGad_unregistered msg gadId err).
Proof. unfold bannedGad_unregistered. preserve. Qed.

Lemma updateComponent_modified_preserves type namespace msg res :
  Preserves Q (updateComponent_modified type namespace msg res).
Proof. unfold updateComponent_modified, getProp. preserve. Qed.

(** The callbacks of [ncDevIncoming] remove the closure they hold, or
    hand it on to the next callback. *)
Section Closure.

Variable queueEvent : nat.

Hypothesis Q_remove :
  forall ls n pend,
    Q ls n pend -> Q (filter (fun l => negb (Nat.eqb l queueEvent)) ls) n pend.

Hypothesis Q_keep :
  forall p, owned p = Some queueEvent ->
            forall ls n pend, Q ls n pend -> Q ls n (pend ++ [p]).

Lemma ncDevIncoming_registered_preserves msg devIn res :
  Preserves Q (ncDevIncoming_registered msg devIn queueEvent res).
Proof.
  unfold ncDevIncoming_registered. preserve;
    try apply Q_remove. apply releasQueueEvent_preserves.
Qed.

Lemma ncDevIncoming_cooked_preserves msg nc dev res :
  Preserves Q (ncDevIncoming_cooked msg nc dev queueEvent res).
Proof.
  unfold ncDevIncoming_cooked, register_device. preserve;
    try apply Q_remove. apply Q_keep. reflexivity.
Qed.

End Closure.

(** Every callback keeps the property, given that the closure it holds
    (if any) may be removed and handed on. *)
Lemma resume_preserves p o callback :
  resume p o = Some callback ->
  (forall q, owned p = Some q ->
     (forall ls n pend, Q ls n pend -> Q (filter (fun l => negb (Nat.eqb l q)) ls) n pend)
     /\ (forall p', owned p' = Some q ->
           forall ls n pend, Q ls n pend -> Q ls n (pend ++ [p']))) ->
  Preserves Q callback.
Proof.
  intros Hres Hq.
  assert (Some_inj : forall (a b : M unit), Some a = Some b -> a = b)
    by (intros a b [= ->]; reflexivity).
  destruct p, o; cbn [resume] in Hres; try discriminate;
    apply Some_inj in Hres; subst callback;
    try (destruct (Hq _ eq_refl) as [Hrm Hkeep]);
    first [ apply ncDevIncoming_cooked_preserves; [exact Hrm | exact Hkeep]
          | apply ncDevIncoming_registered_preserves; exact Hrm
          | apply removeGadget_unregistered_preserves
          | apply ncDevLeaving_unregistered_preserves
          | apply doGadCook_preserves
          | apply ncGadIncoming_cooked_preserves
          | apply ncGadIncoming_registered_preserves
          | apply nc_remove_done_preserves
          | apply bannedGad_unregistered_preserves
          | apply updateComponent_modified_preserves ].
Qed.

(** The listeners that do not create closures. *)
Lemma emit_preserves n :
  (forall msg, n <> OnNcDevIncoming msg) -> Preserves Q (emit n).
Proof.
  intros Hn. destruct n; cbn [emit];
    unfold ncBannedDevIncoming, ncBannedDevReporting, ncBannedGadIncoming,
           ncBannedGadReporting, devNetChanged, devAttrsChanged, gadPanelChanged,
           gadAttrsChanged;
    first [ apply ncDevLeaving_preserves
          | apply emit_NcGadIncoming_preserves
          | apply bannedComponent_preserves
          | apply ncNetBan_preserves
          | apply updateComponent_preserves
          | exfalso; eapply Hn; reflexivity ].
Qed.

Lemma permitJoin_preserves ncName joinable : Preserves Q (permitJoin ncName joinable).
Proof. unfold permitJoin. preserve. Qed.

End Handlers_preserve.

Lemma dropNth_In A (k : nat) : forall (l : list A) x, In x (dropNth k l) -> In x l.
Proof.
  induction k as [|k IH]; intros [|y l] x H; simpl in *; auto.
  destruct H as [H|H]; auto.
Qed.

(** How [complete] is put together. *)
Lemma complete_preserves (Q Q' : list nat -> nat -> list Pending -> Prop) k o :
  (forall fb p callback,
      holds Q fb -> nth_error (pending fb) k = Some p -> resume p o = Some callback ->
      holds Q' (set_pending (dropNth k (pending fb)) fb) /\
      Preserves Q' (call (Back o) ;; settle p o ;; callback)) ->
  (forall ls n pend, Q' ls n pend -> Q ls n pend) ->
  Preserves Q (complete k o).
Proof.
  intros Hcb Hweak fb H. unfold complete, bind at 1, gets.
  destruct (nth_error (pending fb) k) as [p|] eqn:Hp; [|exact H].
  destruct (resume p o) as [callback|] eqn:Hres; [|exact H].
  destruct (Hcb fb p callback H Hp Hres) as (H1 & H2).
  apply Hweak. unfold bind at 1, modify. apply H2. exact H1.
Qed.

(** **** A leaked closure stays *)

Lemma leaked_await l p :
  owned p <> Some l ->
  forall ls n pend, leakedQ l ls n pend -> leakedQ l ls n (pend ++ [p]).
Proof.
  intros Hp ls n pend (H1 & H2 & H3). repeat split; auto.
  intros p' Hin. apply in_app_or in Hin. destruct Hin as [Hin|[<-|[]]]; auto.
Qed.

Lemma leaked_remove l q :
  q <> l ->
  forall ls n pend,
    leakedQ l ls n pend -> leakedQ l (filter (fun x => negb (Nat.eqb x q)) ls) n pend.
Proof.
  intros Hq ls n pend (H1 & H2 & H3). repeat split; auto.
  apply filter_In. split; [exact H1|].
  apply negb_true_iff, Nat.eqb_neq. congruence.
Qed.

Lemma leaked_ncDevIncoming l msg : Preserves (leakedQ l) (ncDevIncoming msg).
Proof.
  intros fb (H1 & H2 & H3).
  unfold ncDevIncoming, bind, findByNet_netcore, findByNet_device, on_NcGadIncoming,
         gets, modify, ret, call, await.
  destruct (find _ (netcores fb)) as [nc|]; unfold holds, leakedQ; simpl.
  - split; [apply in_or_app; left; exact H1|]. split; [lia|].
    intros p Hin. apply in_app_or in Hin. destruct Hin as [Hin|[<-|[]]]; auto.
    simpl. intros [= E]. lia.
  - split; [apply in_or_app; left; exact H1|]. split; [lia | exact H3].
Qed.

Lemma leaked_step l fb e : Leaked l fb -> Leaked l (step fb e).
Proof.
  assert (Hawait : forall p, owned p = None ->
            forall ls n pend, leakedQ l ls n pend -> leakedQ l ls n (pend ++ [p]))
    by (intros p Hp; apply leaked_await; congruence).
  intros H. unfold Leaked, step, exec.
  destruct e as [n|k o|ncName joinable]; cbn [handle].
  - destruct n; try (apply emit_preserves; [exact Hawait | discriminate | exact H]).
    apply leaked_ncDevIncoming. exact H.
  - revert fb H. apply complete_preserves with (Q' := leakedQ l); [|auto].
    intros fb p callback (H1 & H2 & H3) Hp Hres.
    assert (Hown : owned p <> Some l) by (apply H3; eapply nth_error_In; exact Hp).
    split.
    + repeat split; auto. simpl. intros p' Hin. apply H3. eapply dropNth_In. exact Hin.
    + apply preserves_bind; [apply preserves_call | intros _].
      apply preserves_bind; [apply settle_preserves | intros _].
      eapply resume_preserves; [exact Hawait | exact Hres |].
      intros q Hq. split.
      * apply leaked_remove. congruence.
      * intros p' Hp'. apply leaked_await. congruence.
  - apply permitJoin_preserves. exact H.
Qed.

Lemma leaked_run l events : forall fb, Leaked l fb -> Leaked l (run events fb).
Proof.
  induction events as [|e events IH]; intros fb H; simpl; [exact H|].
  apply IH, leaked_step, H.
Qed.

(** **** Names stay in order *)

Lemma ordered_await p :
  owned p = None ->
  forall ls n pend, orderedQ ls n pend -> orderedQ ls n (pend ++ [p]).
Proof.
  intros Hp ls n pend (H1 & H2). split; auto.
  intros p' q Hin Hq. apply in_app_or in Hin. destruct Hin as [Hin|[<-|[]]]; eauto.
  congruence.
Qed.

Lemma ordered_ncDevIncoming msg : Preserves orderedQ (ncDevIncoming msg).
Proof.
  intros fb (H1 & H2).
  unfold ncDevIncoming, bind, findByNet_netcore, findByNet_device, on_NcGadIncoming,
         gets, modify, ret, call, await.
  assert (Hls : forall l, In l (listeners fb ++ [nextListener fb])
                          -> l < S (nextListener fb)).
  { intros l Hin. apply in_app_or in Hin. destruct Hin as [Hin|[<-|[]]]; [|lia].
    specialize (H1 l Hin). lia. }
  destruct (find _ (netcores fb)) as [nc|]; unfold holds, orderedQ; simpl.
  - split; [exact Hls|].
    intros p q Hin Hq. apply in_app_or in Hin. destruct Hin as [Hin|[<-|[]]].
    + specialize (H2 p q Hin Hq). lia.
    + simpl in Hq. injection Hq as <-. lia.
  - split; [exact Hls|]. intros p q Hin Hq. specialize (H2 p q Hin Hq). lia.
Qed.

Lemma ordered_step fb e : namesInOrder fb -> namesInOrder (step fb e).
Proof.
  intros H. unfold namesInOrder, step, exec.
  destruct e as [n|k o|ncName joinable]; cbn [handle].
  - destruct n; try (apply emit_preserves; [exact ordered_await | discriminate | exact H]).
    apply ordered_ncDevIncoming. exact H.
  - unfold complete, bind at 1, gets.
    destruct (nth_error (pending fb) k) as [p|] eqn:Hp; [|exact H].
    destruct (resume p o) as [callback|] eqn:Hres; [|exact H].
    unfold bind at 1, modify.
    set (Q' := fun ls n pend =>
                 orderedQ ls n pend /\ forall q, owned p = Some q -> q < n).
    assert (H0 : holds Q' (set_pending (dropNth k (pending fb)) fb)).
    { destruct H as (H1 & H2). split; [split|].
      - exact H1.
      - simpl. intros p' q Hin. apply H2. eapply dropNth_In. exact Hin.
      - intros q Hq. eapply H2; [eapply nth_error_In; exact Hp | exact Hq]. }
    assert (Hawait : forall p0, owned p0 = None ->
              forall ls n pend, Q' ls n pend -> Q' ls n (pend ++ [p0])).
    { intros p0 Hp0 ls n pend (Ho & Hq). split; [apply ordered_await; assumption|exact Hq]. }
    assert (Hcb : Preserves Q' (call (Back o) ;; settle p o ;; callback)).
    { apply preserves_bind; [apply preserves_call | intros _].
      apply preserves_bind; [apply settle_preserves | intros _].
      eapply resume_preserves; [exact Hawait | exact Hres |].
      intros q Hq. split.
      - intros ls n pend ((H1 & H2) & H3). split; [split|]; auto.
        intros l Hin. apply filter_In in Hin. apply H1, Hin.
      - intros p' Hp' ls n pend ((H1 & H2) & H3). split; [split|]; auto.
        intros p0 q0 Hin Hq0. apply in_app_or in Hin.
        destruct Hin as [Hin|[<-|[]]]; eauto.
        apply H3. congruence. }
    apply (Hcb _ H0).
  - apply permitJoin_preserves. exact H.
Qed.

Lemma reachable_namesInOrder fb : reachable fb -> namesInOrder fb.
Proof.
  intros (ncs & events & ->).
  assert (H : namesInOrder (fresh ncs)) by (split; simpl; intros; contradiction).
  revert H. generalize (fresh ncs).
  induction events as [|e events IH]; intros fb H; simpl; [exact H|].
  apply IH, ordered_step, H.
Qed.

(** *** The temporary listener of [ncDevIncoming] *)

Lemma listeners_run_queueEvent : forall (ls : list nat) m s,
  forEach ls (fun _ => queueEvent m) s
  = (set_gadEventQueue
       (fold_left (fun queue _ => queueEvent_on queue m) ls (gadEventQueue s)) s,
     inr tt).
Proof.
  induction ls as [|l ls IH]; intros m s.
  - destruct s; reflexivity.
  - simpl. unfold bind at 1. unfold queueEvent at 1, modify.
    rewrite IH. reflexivity.
Qed.


Lemma fresh_name_not_attached fb :
  namesInOrder fb ->
  filter (fun x => negb (Nat.eqb x (nextListener fb)))
         (listeners fb ++ [nextListener fb])
  = listeners fb.
Proof.
  intros (H & _). rewrite filter_app. simpl. rewrite Nat.eqb_refl. simpl.
  rewrite app_nil_r. revert H. generalize (nextListener fb). intros n.
  induction (listeners fb) as [|x ls IH]; intros H; simpl; [reflexivity|].
  assert (Hx : Nat.eqb x n = false)
    by (apply Nat.eqb_neq; specialize (H x (or_introl eq_refl)); lia).
  rewrite Hx. simpl. rewrite IH; [reflexivity|].
  intros l Hl. apply H. right. exact Hl.
Qed.




End HandlerProperties.

(* ===================================================================== *)
(** ** Further properties of the delivery modes                           *)
(* ===================================================================== *)

Section DeliveryInvariants.

Import Dispatcher.

Lemma forallb_isIndicate_tl t q :
  forallb isIndicate (t :: q) = true -> isIndicate t = true /\ forallb isIndicate q = true.
Proof. simpl. intros H. apply andb_true_iff in H. exact H. Qed.

(** In buffered mode a call of [_fire], a call of [_tweet] and a turn of
    the event loop keep the mode and the deliveries, and only [_fire]
    touches the buffer. *)
Lemma lazy_act fb a :
  fire fb = LazyFire ->
  forallb isIndicate (ticks fb ++ immediates fb) = true ->
  let fb' := act fb a in
  fire fb' = LazyFire /\
  forallb isIndicate (ticks fb' ++ immediates fb') = true /\
  emitted fb' = emitted fb /\
  eventQueue fb' = eventQueue fb ++ firedIn [a].
Proof.
  intros Hf Hq.
  assert (Htick : forall d,
            fire (tick d fb) = LazyFire /\
            forallb isIndicate (ticks (tick d fb) ++ immediates (tick d fb)) = true /\
            emitted (tick d fb) = emitted fb /\
            eventQueue (tick d fb) = eventQueue fb ++ []).
  { intros d. rewrite app_nil_r. unfold tick.
    destruct (ticks fb) as [|t rest] eqn:Et.
    + destruct (immediates fb) as [|t rest] eqn:Ei.
      * rewrite Et, Ei. auto.
      * simpl in Hq. apply andb_true_iff in Hq. destruct Hq as [Ht Hrest].
        destruct t; try discriminate. simpl. auto.
    + simpl in Hq. apply andb_true_iff in Hq. destruct Hq as [Ht Hrest].
      destruct t; try discriminate. simpl. auto. }
  destruct a as [evt data|subsys indType id data| |]; simpl.
  - unfold _fire. rewrite Hf. simpl. auto.
  - rewrite app_nil_r. repeat split; auto.
    rewrite app_assoc, forallb_app, Hq. reflexivity.
  - apply Htick.
  - apply Htick.
Qed.

(** X1. In buffered mode nothing is delivered: whatever is fired, tweeted
    or run by the event loop, the mode stays buffered, no event reaches the
    subscribers, and the buffer grows by exactly the fired events, in the
    order they were fired. *)
Theorem lazy_mode_buffers_everything : forall acts fb,
  fire fb = LazyFire ->
  forallb isIndicate (ticks fb ++ immediates fb) = true ->
  let fb' := run acts fb in
  fire fb' = LazyFire /\ emitted fb' = emitted fb /\
  eventQueue fb' = eventQueue fb ++ firedIn acts.
Proof.
  induction acts as [|a acts IH]; intros fb Hf Hq.
  - simpl. rewrite app_nil_r. auto.
  - destruct (@lazy_act fb a Hf Hq) as (Hf1 & Hq1 & He1 & Hb1).
    destruct (IH (act fb a) Hf1 Hq1) as (Hf2 & He2 & Hb2).
    change (run (a :: acts) fb) with (run acts (act fb a)).
    cbv zeta in *. rewrite Hf2, He2, He1, Hb2, Hb1.
    repeat split; auto.
    rewrite <- app_assoc. f_equal.
    destruct a; reflexivity.
Qed.

Lemma lazy_mode_buffers_everything_witness :
  let fb := mkFreebird LazyFire [(Name "a", VNull)] [] [] [] [] in
  let fb' := run [Fire (EVT_BTM NcDevIncoming) VNull; Tick;
                  Tweet "dev" (Name "x") VNull VNull; Tick; Fire (Name "b") VNull; Tick] fb in
  fire fb' = LazyFire /\ emitted fb' = [] /\
  eventQueue fb' = [(Name "a", VNull); (EVT_BTM NcDevIncoming, VNull); (Name "b", VNull)].
Proof.
  exact (@lazy_mode_buffers_everything
           [Fire (EVT_BTM NcDevIncoming) VNull; Tick;
            Tweet "dev" (Name "x") VNull VNull; Tick; Fire (Name "b") VNull; Tick]
           (mkFreebird LazyFire [(Name "a", VNull)] [] [] [] []) eq_refl eq_refl).
Defined.

Lemma emits_app a b : emits (a ++ b) = emits a ++ emits b.
Proof.
  induction a as [|t a IH]; simpl; auto. destruct t; simpl; rewrite IH; reflexivity.
Qed.

Lemma inds_app a b : inds (a ++ b) = inds a ++ inds b.
Proof.
  induction a as [|t a IH]; simpl; auto. destruct t; simpl; rewrite IH; reflexivity.
Qed.

Lemma firedIn_cons a acts : firedIn (a :: acts) = firedIn [a] ++ firedIn acts.
Proof. destruct a; reflexivity. Qed.

Lemma tweetedIn_cons a acts : tweetedIn (a :: acts) = tweetedIn [a] ++ tweetedIn acts.
Proof. destruct a; reflexivity. Qed.

(** In immediate mode, with no [keepReleasing] scheduled, one action
    moves events between "fired", "scheduled" and "delivered" only. *)
Lemma normal_act fb a :
  fire fb = NormalFire ->
  existsb isKeepReleasing (ticks fb ++ immediates fb) = false ->
  let fb' := act fb a in
  fire fb' = NormalFire /\
  existsb isKeepReleasing (ticks fb' ++ immediates fb') = false /\
  eventQueue fb' = eventQueue fb /\
  Permutation (emitted fb' ++ emits (ticks fb') ++ emits (immediates fb'))
              (emitted fb ++ emits (ticks fb) ++ emits (immediates fb) ++ firedIn [a]).
Proof.
  intros Hf Hk. rewrite existsb_app in Hk. apply orb_false_iff in Hk.
  destruct Hk as [Hkt Hki].
  assert (Htick : forall d,
            fire (tick d fb) = NormalFire /\
            existsb isKeepReleasing (ticks (tick d fb) ++ immediates (tick d fb)) = false /\
            eventQueue (tick d fb) = eventQueue fb /\
            Permutation
              (emitted (tick d fb) ++ emits (ticks (tick d fb))
                                   ++ emits (immediates (tick d fb)))
              (emitted fb ++ emits (ticks fb) ++ emits (immediates fb) ++ [])).
  { intros d. rewrite app_nil_r. unfold tick.
    destruct (ticks fb) as [|t rest] eqn:Et.
    + destruct (immediates fb) as [|t rest] eqn:Ei.
      * rewrite Et, Ei. simpl. auto.
      * simpl in Hki. apply orb_false_iff in Hki. destruct Hki as [Ht Hrest].
        destruct t; try discriminate; simpl; repeat split; auto.
        rewrite <- app_assoc. apply Permutation_refl.
    + simpl in Hkt. apply orb_false_iff in Hkt. destruct Hkt as [Ht Hrest].
      destruct t; try discriminate; simpl; repeat split; auto;
        try (rewrite existsb_app, Hrest, Hki; reflexivity).
      rewrite <- app_assoc. apply Permutation_refl. }
  destruct a as [evt data|subsys indType id data| |]; simpl.
  - unfold _fire. rewrite Hf. unfold _normalFire.
    destruct (isNcDevIncoming evt); simpl.
    + repeat split; auto.
      * rewrite <- app_assoc, existsb_app, existsb_app. simpl.
        rewrite Hkt, Hki. reflexivity.
      * rewrite emits_app. simpl. apply Permutation_app_head.
        rewrite <- app_assoc. apply Permutation_app_head.
        apply Permutation_app_comm.
    + repeat split; auto.
      * rewrite app_assoc, existsb_app. simpl.
        rewrite existsb_app, Hkt, Hki. reflexivity.
      * rewrite emits_app. simpl. apply Permutation_refl.
  - repeat split; auto.
    + rewrite app_assoc, existsb_app. simpl.
      rewrite existsb_app, Hkt, Hki. reflexivity.
    + rewrite emits_app. simpl. rewrite !app_nil_r. apply Permutation_refl.
  - apply Htick.
  - apply Htick.
Qed.

(** X2. In immediate mode no fired event is lost, duplicated or set
    aside: whatever is fired, tweeted or run by the event loop, the buffer
    is left alone, and the events delivered or still scheduled are exactly
    those that were so before together with the events fired since. *)
Theorem normal_mode_loses_nothing : forall acts fb,
  fire fb = NormalFire ->
  existsb isKeepReleasing (ticks fb ++ immediates fb) = false ->
  let fb' := run acts fb in
  fire fb' = NormalFire /\ eventQueue fb' = eventQueue fb /\
  Permutation (emitted fb' ++ emits (ticks fb') ++ emits (immediates fb'))
              (emitted fb ++ emits (ticks fb) ++ emits (immediates fb) ++ firedIn acts).
Proof.
  induction acts as [|a acts IH]; intros fb Hf Hk.
  - simpl. rewrite !app_nil_r. auto.
  - destruct (@normal_act fb a Hf Hk) as (Hf1 & Hk1 & Hq1 & Hp1).
    destruct (IH (act fb a) Hf1 Hk1) as (Hf2 & Hq2 & Hp2).
    change (run (a :: acts) fb) with (run acts (act fb a)).
    cbv zeta in *. repeat split; auto; [congruence|].
    eapply Permutation_trans; [exact Hp2|].
    rewrite (firedIn_cons a acts).
    rewrite !app_assoc. apply Permutation_app_tail.
    rewrite <- !app_assoc. exact Hp1.
Qed.

Lemma normal_mode_loses_nothing_witness :
  let fb := mkFreebird NormalFire [] [] [] [] [] in
  let fb' := run [Fire (Name "a") VNull; Fire (EVT_BTM NcDevIncoming) VNull; Tick] fb in
  fire fb' = NormalFire /\ eventQueue fb' = [] /\
  Permutation (emitted fb' ++ emits (ticks fb') ++ emits (immediates fb'))
              [(Name "a", VNull); (EVT_BTM NcDevIncoming, VNull)].
Proof.
  exact (@normal_mode_loses_nothing
           [Fire (Name "a") VNull; Fire (EVT_BTM NcDevIncoming) VNull; Tick]
           (mkFreebird NormalFire [] [] [] [] []) eq_refl eq_refl).
Defined.

Lemma fires_are_scheduled : forall es fb,
  fire fb = NormalFire ->
  let fb' := run (map fireOf es) fb in
  fire fb' = NormalFire /\ eventQueue fb' = eventQueue fb /\
  emitted fb' = emitted fb /\ indicated fb' = indicated fb /\
  ticks fb' = ticks fb ++ map emitTask (filter isArrival es) /\
  immediates fb' = immediates fb
                   ++ map emitTask (filter (fun e => negb (isArrival e)) es).
Proof.
  induction es as [|[evt data] es IH]; intros fb Hf.
  - simpl. rewrite !app_nil_r. repeat split; auto.
  - change (run (map fireOf ((evt, data) :: es)) fb)
      with (run (map fireOf es) (_fire evt data fb)).
    assert (Hf1 : fire (_fire evt data fb) = NormalFire).
    { unfold _fire, _normalFire. rewrite Hf. destruct (isNcDevIncoming evt); exact Hf. }
    destruct (IH _ Hf1) as (H1 & H2 & H3 & H4 & H5 & H6).
    cbv zeta. rewrite H1, H2, H3, H4, H5, H6.
    unfold _fire, _normalFire. rewrite Hf.
    assert (Ea : isArrival (evt, data) = isNcDevIncoming evt) by reflexivity.
    cbn [filter]. rewrite Ea.
    destruct (isNcDevIncoming evt); cbn [negb map]; simpl;
      rewrite <- ?app_assoc; repeat split; auto.
Qed.

Lemma scheduled_emits_run : forall a b fb,
  ticks fb = map emitTask a -> immediates fb = map emitTask b ->
  let fb' := run (repeat Tick (List.length a + List.length b)) fb in
  fire fb' = fire fb /\ eventQueue fb' = eventQueue fb /\
  indicated fb' = indicated fb /\
  ticks fb' = [] /\ immediates fb' = [] /\
  emitted fb' = emitted fb ++ a ++ b.
Proof.
  induction a as [|[evt data] a IHa].
  - induction b as [|[evt data] b IHb]; intros fb Ht Hi.
    + simpl. rewrite app_nil_r. repeat split; auto.
    + change (run (repeat Tick (List.length (@nil (EvtName * JsVal))
                                + List.length ((evt, data) :: b))) fb)
        with (run (repeat Tick (0 + List.length b)) (tick Returns fb)).
      assert (H1 : tick Returns fb = mkFreebird (fire fb) (eventQueue fb) [] (map emitTask b)
                                        (emitted fb ++ [(evt, data)]) (indicated fb)).
      { unfold tick. rewrite Ht, Hi. reflexivity. }
      rewrite H1.
      destruct (IHb (mkFreebird (fire fb) (eventQueue fb) [] (map emitTask b)
                                (emitted fb ++ [(evt, data)]) (indicated fb))
                    eq_refl eq_refl) as (G1 & G2 & G3 & G4 & G5 & G6).
      cbv zeta in *. simpl in G1, G2, G3, G4, G5, G6 |- *.
      rewrite G1, G2, G3, G4, G5, G6, <- app_assoc. repeat split; auto.
  - intros b fb Ht Hi.
    change (run (repeat Tick (List.length ((evt, data) :: a) + List.length b)) fb)
      with (run (repeat Tick (List.length a + List.length b)) (tick Returns fb)).
    assert (H1 : tick Returns fb = mkFreebird (fire fb) (eventQueue fb) (map emitTask a)
                                      (immediates fb)
                                      (emitted fb ++ [(evt, data)]) (indicated fb)).
    { unfold tick. rewrite Ht. reflexivity. }
    rewrite H1.
    destruct (IHa b (mkFreebird (fire fb) (eventQueue fb) (map emitTask a)
                                (immediates fb)
                                (emitted fb ++ [(evt, data)]) (indicated fb))
                  eq_refl Hi) as (G1 & G2 & G3 & G4 & G5 & G6).
    cbv zeta in *. simpl in G1, G2, G3, G4, G5, G6.
    rewrite G1, G2, G3, G4, G5, G6, <- app_assoc. repeat split; auto.
Qed.

Lemma filter_split_length A (f : A -> bool) l :
  List.length l = List.length (filter f l)
                  + List.length (filter (fun x => negb (f x)) l).
Proof.
  induction l as [|x l IH]; simpl; auto.
  destruct (f x); simpl; lia.
Qed.

(** X3. In immediate mode device arrivals overtake: when events are fired
    in one turn on an idle dispatcher, the subscribers first get the
    [NcDevIncoming] events, in the order they were fired, and then all the
    others, in the order they were fired; it takes one turn of the event
    loop per event. *)
Theorem normal_mode_delivers_arrivals_first es fb :
  fire fb = NormalFire -> ticks fb = [] -> immediates fb = [] ->
  let fb' := run (map fireOf es ++ repeat Tick (List.length es)) fb in
  emitted fb' = emitted fb ++ filter isArrival es
                           ++ filter (fun e => negb (isArrival e)) es /\
  ticks fb' = [] /\ immediates fb' = [] /\ fire fb' = NormalFire.
Proof.
  intros Hf Ht Hi. cbv zeta. rewrite run_app.
  destruct (@fires_are_scheduled es fb Hf) as (H1 & H2 & H3 & H4 & H5 & H6).
  cbv zeta in *. rewrite Ht in H5. rewrite Hi in H6. simpl in H5, H6.
  rewrite (filter_split_length isArrival es).
  destruct (@scheduled_emits_run _ _ _ H5 H6) as (G1 & G2 & G3 & G4 & G5 & G6).
  cbv zeta in *. rewrite G6, G4, G5, G1, H3. auto.
Qed.

Lemma normal_mode_delivers_arrivals_first_witness :
  let fb := mkFreebird NormalFire [] [] [] [] [] in
  let es := [(Name "a", VNull); (EVT_BTM NcDevIncoming, VNum 1);
             (Name "b", VNull); (EVT_BTM NcDevIncoming, VNum 2)] in
  emitted (run (map fireOf es ++ repeat Tick 4) fb)
  = [(EVT_BTM NcDevIncoming, VNum 1); (EVT_BTM NcDevIncoming, VNum 2);
     (Name "a", VNull); (Name "b", VNull)].
Proof.
  exact (proj1 (@normal_mode_delivers_arrivals_first
                  [(Name "a", VNull); (EVT_BTM NcDevIncoming, VNum 1);
                   (Name "b", VNull); (EVT_BTM NcDevIncoming, VNum 2)]
                  (mkFreebird NormalFire [] [] [] [] []) eq_refl eq_refl eq_refl)).
Defined.

Lemma inds_act fb a :
  let fb' := act fb a in
  indicated fb' ++ inds (ticks fb') ++ inds (immediates fb')
  = (indicated fb ++ inds (ticks fb) ++ inds (immediates fb)) ++ tweetedIn [a].
Proof.
  assert (Htick : forall d,
            indicated (tick d fb) ++ inds (ticks (tick d fb))
                                  ++ inds (immediates (tick d fb))
            = (indicated fb ++ inds (ticks fb) ++ inds (immediates fb)) ++ []).
  { intros d. rewrite app_nil_r. unfold tick.
    destruct (ticks fb) as [|t rest] eqn:Et.
    + destruct (immediates fb) as [|t rest] eqn:Ei.
      * rewrite Et, Ei. reflexivity.
      * destruct t; simpl; auto.
        -- unfold keepReleasing; simpl.
           destruct (eventQueue fb), d; simpl; rewrite ?inds_app; simpl;
             rewrite ?app_nil_r; reflexivity.
        -- rewrite <- app_assoc. reflexivity.
    + destruct t; simpl; auto.
      * unfold keepReleasing; simpl.
        destruct (eventQueue fb), d; simpl; rewrite ?inds_app; simpl;
          rewrite ?app_nil_r; reflexivity.
      * rewrite <- app_assoc. reflexivity. }
  destruct a as [evt data|subsys indType id data| |]; simpl.
  - rewrite app_nil_r. unfold _fire, _normalFire, _lazyFire.
    destruct (fire fb); [reflexivity|].
    destruct (isNcDevIncoming evt); simpl; rewrite inds_app; simpl;
      rewrite ?app_nil_r; reflexivity.
  - rewrite inds_app. simpl. rewrite <- !app_assoc. reflexivity.
  - apply Htick.
  - apply Htick.
Qed.

(** X4. Indications are never buffered and never overtake one another:
    in either mode, and whatever else is fired or run, the indications
    delivered or still scheduled are those that were so before followed by
    one record per [_tweet] call, in the order of the calls. *)
Theorem indications_keep_their_order : forall acts fb,
  let fb' := run acts fb in
  indicated fb' ++ inds (ticks fb') ++ inds (immediates fb')
  = (indicated fb ++ inds (ticks fb) ++ inds (immediates fb)) ++ tweetedIn acts.
Proof.
  induction acts as [|a acts IH]; intros fb.
  - simpl. rewrite !app_nil_r. reflexivity.
  - change (run (a :: acts) fb) with (run acts (act fb a)).
    cbv zeta. rewrite (IH (act fb a)). cbv zeta.
    rewrite (inds_act fb a), (tweetedIn_cons a acts), <- !app_assoc. reflexivity.
Qed.

(** A turn of the drain whose delivery returns brings its end nearer. *)
Lemma draining_turn e0 B F n fb :
  Draining e0 B F n fb ->
  fire (tick Returns fb) = NormalFire \/
  List.length (immediates (tick Returns fb)) + List.length (eventQueue (tick Returns fb))
  < List.length (immediates fb) + List.length (eventQueue fb).
Proof.
  intros (Hf & Ht & (i1 & i2 & Hi & H1 & H2) & _).
  unfold tick; rewrite Ht, Hi.
  destruct i1 as [|t i1]; simpl.
  - unfold keepReleasing; simpl.
    destruct (eventQueue fb) as [|[evt data] q] eqn:Hq; simpl.
    + left. reflexivity.
    + right. rewrite length_app. simpl. lia.
  - right. simpl in H1. destruct t; simpl in H1; try discriminate.
    simpl. lia.
Qed.

Lemma drained_turns e0 B F : forall m n fb,
  Drained e0 B F n fb -> Drained e0 B F (n + m) (run (repeat Tick m) fb).
Proof.
  induction m as [|m IH]; intros n fb H.
  - rewrite Nat.add_0_r. exact H.
  - change (run (repeat Tick (S m)) fb) with (run (repeat Tick m) (tick Returns fb)).
    rewrite <- Nat.add_succ_comm. apply IH. apply drained_tick. exact H.
Qed.

(** Left alone, and with deliveries that return, a drain ends: after as
    many turns as there are callbacks scheduled and entries buffered the
    dispatcher is in immediate mode. *)
Lemma drain_ends e0 B F : forall m n fb,
  Draining e0 B F n fb ->
  List.length (immediates fb) + List.length (eventQueue fb) <= m ->
  Drained e0 B F (n + m) (run (repeat Tick m) fb).
Proof.
  induction m as [|m IH]; intros n fb H Hm.
  - exfalso. destruct H as (_ & _ & (i1 & i2 & Hi & _) & _).
    rewrite Hi, length_app in Hm. simpl in Hm. lia.
  - change (run (repeat Tick (S m)) fb) with (run (repeat Tick m) (tick Returns fb)).
    rewrite <- Nat.add_succ_comm.
    destruct (@draining_tick e0 B F n fb Returns H) as [H'|[H'|[H' _]]].
    + apply IH; [exact H'|].
      destruct (draining_turn H) as [Hn|Hlt]; [|lia].
      destruct H' as (Hf' & _). congruence.
    + apply drained_turns. exact H'.
    + discriminate.
Qed.

(** X5. A switch to buffered mode asked for while the buffer is being
    drained is lost.  At whatever point of the drain the request comes,
    the dispatcher is in buffered mode already, so the request changes
    nothing; and when the buffer is empty [keepReleasing] installs
    immediate mode all the same: as long as deliveries return, the turns
    that follow deliver the whole buffer and leave the dispatcher in
    immediate mode. *)
Theorem lazy_request_while_draining_is_lost fb on off acts m :
  fire fb = LazyFire -> truthy on = true -> truthy off = false ->
  ticks fb = [] -> forallb isIndicate (immediates fb) = true ->
  existsb isThrow acts = false ->
  let s := run acts (_changeFireMode on fb) in
  fire s = LazyFire ->
  List.length (immediates s) + List.length (eventQueue s) <= m ->
  let s' := run (repeat Tick m) (_changeFireMode off s) in
  _changeFireMode off s = s /\
  fire s' = NormalFire /\ eventQueue s' = [] /\
  exists rest, emitted s' = emitted fb ++ eventQueue fb ++ rest /\
               incl rest (firedIn acts).
Proof.
  intros Hf Hon Hoff Ht Hi Hquiet. cbv zeta. intros Hlazy Hm.
  pose proof (drainInv_run acts (changeFireMode_starts fb on Hf Hon Ht Hi)) as Hinv.
  rewrite Hquiet in Hinv. cbn [orb app Nat.add] in Hinv.
  set (s := run acts (_changeFireMode on fb)) in *.
  assert (Hsame : _changeFireMode off s = s).
  { unfold _changeFireMode. rewrite Hoff. unfold set_fire.
    destruct s; simpl in *. subst. reflexivity. }
  rewrite Hsame. split; [reflexivity|].
  destruct Hinv as [Hd|[(Hn & _)|(Hth & _)]];
    [| rewrite Hlazy in Hn; discriminate | discriminate].
  destruct (@drain_ends _ _ _ m _ _ Hd Hm) as (G1 & G2 & _ & _ & rest & G3 & G4 & _).
  repeat split; auto. exists rest. auto.
Qed.

Lemma lazy_request_while_draining_is_lost_witness :
  let fb := mkFreebird LazyFire [(Name "a", VNull); (Name "b", VNull)] [] [] [] [] in
  let s := run [Tick; Fire (Name "c") VNull] (_changeFireMode (VBool true) fb) in
  let s' := run (repeat Tick 3) (_changeFireMode (VBool false) s) in
  _changeFireMode (VBool false) s = s /\ fire s' = NormalFire /\ eventQueue s' = [].
Proof.
  pose proof (@lazy_request_while_draining_is_lost
                (mkFreebird LazyFire [(Name "a", VNull); (Name "b", VNull)] [] [] [] [])
                (VBool true) (VBool false) [Tick; Fire (Name "c") VNull] 3
                eq_refl eq_refl eq_refl eq_refl eq_refl eq_refl eq_refl (le_n 3)) as H.
  destruct H as (H1 & H2 & H3 & _).
  repeat split; assumption.
Defined.

(** X6. Events in a buffer that [_clearEventQueue] empties are never
    delivered: a switch to immediate mode right after takes effect at
    once, and no turn of the event loop hands any of them to the
    subscribers. *)
Theorem cleared_buffer_is_never_delivered fb on n :
  fire fb = LazyFire -> truthy on = true ->
  ticks fb = [] -> forallb isIndicate (immediates fb) = true ->
  let fb1 := _changeFireMode on (_clearEventQueue fb) in
  let fb' := run (repeat Tick n) fb1 in
  fire fb1 = NormalFire /\
  fire fb' = NormalFire /\ eventQueue fb' = [] /\ emitted fb' = emitted fb.
Proof.
  intros Hf Hon Ht Hi. cbv zeta.
  assert (H1 : _changeFireMode on (_clearEventQueue fb)
               = set_fire NormalFire (set_eventQueue [] fb)).
  { unfold _changeFireMode, _clearEventQueue. rewrite Hon. reflexivity. }
  rewrite H1. split; [reflexivity|].
  exact (@idle_turns n (set_fire NormalFire (set_eventQueue [] fb)) eq_refl eq_refl Ht Hi).
Qed.

Lemma cleared_buffer_is_never_delivered_witness :
  let fb := mkFreebird LazyFire [(Name "a", VNull); (Name "b", VNull)] [] [] [] [] in
  emitted (run (repeat Tick 5) (_changeFireMode (VNum 1) (_clearEventQueue fb))) = [].
Proof.
  exact (proj2 (proj2 (proj2 (@cleared_buffer_is_never_delivered
           (mkFreebird LazyFire [(Name "a", VNull); (Name "b", VNull)] [] [] [] [])
           (VNum 1) 5 eq_refl eq_refl eq_refl eq_refl)))).
Defined.

End DeliveryInvariants.

(* ===================================================================== *)
(** ** Properties of the constructor                                      *)
(* ===================================================================== *)

Section ConstructionProperties.

Import Construction.

Lemma existsb_eqb_In (x : string) (l : list string) :
  existsb (String.eqb x) l = true <-> In x l.
Proof.
  rewrite existsb_exists. split.
  - intros (y & Hy & He). apply String.eqb_eq in He. subst. exact Hy.
  - intros H. exists x. split; [exact H | apply String.eqb_refl].
Qed.

Lemma checkNetcores_spec : forall ncs i ncNames,
  checkNetcores ncs i ncNames = inr tt <->
  forallb isNetcore ncs = true /\ NoDup (map getName ncs) /\
  (forall n, In n (map getName ncs) -> ~ In n ncNames).
Proof.
  induction ncs as [|nc rest IH]; intros i ncNames.
  - simpl. split; [intros _|reflexivity].
    repeat split; [constructor | intros n []].
  - cbn [checkNetcores forallb map].
    destruct (isNetcore nc); cbn [negb andb].
    2: { split; [discriminate | intros (H & _); discriminate]. }
    destruct (existsb (String.eqb (getName nc)) ncNames) eqn:Ex; cbn [negb].
    + apply existsb_eqb_In in Ex.
      split; [discriminate|]. intros (_ & _ & H).
      exfalso. apply (H (getName nc)); [left; reflexivity | exact Ex].
    + assert (Hn : ~ In (getName nc) ncNames).
      { intros Hin. apply existsb_eqb_In in Hin. congruence. }
      rewrite IH. split.
      * intros (Hv & Hd & Hfresh). repeat split; auto.
        -- constructor; [|exact Hd].
           intros Hin. apply (Hfresh _ Hin). apply in_or_app. right. left. reflexivity.
        -- intros n [<-|Hin]; [exact Hn|].
           intros Hacc. apply (Hfresh _ Hin). apply in_or_app. left. exact Hacc.
      * intros (Hv & Hd & Hfresh). inversion Hd as [|x l Hx Hd']; subst.
        repeat split; auto.
        intros n Hin Hacc. apply in_app_or in Hacc. destruct Hacc as [Hacc|[<-|[]]].
        -- apply (Hfresh n); [right; exact Hin | exact Hacc].
        -- exact (Hx Hin).
Qed.

(** X7. The constructor settles the two registry capacities before it
    looks at the netcores.  A device capacity that is absent, zero or NaN
    is replaced by 200, and a gadget capacity that is absent, zero or NaN
    by three times the device capacity, the product being the one of
    doubles; any other capacity is taken as given.  An object is only
    built when the gadget capacity is not less than the device capacity,
    and its device capacity is never zero or NaN. *)
Theorem constructor_settles_capacities netcores options b :
  Freebird netcores options = inr b ->
  lt (b_maxGadNum b) (b_maxDevNum b) = false /\
  numTruthy (b_maxDevNum b) = true /\
  (options = None -> b_maxDevNum b = num 200 /\ b_maxGadNum b = num 600) /\
  (forall o, options = Some o ->
     (unset (maxDevNum o) = true -> b_maxDevNum b = num 200) /\
     (unset (maxGadNum o) = true -> b_maxGadNum b = mul (num 3) (b_maxDevNum b)) /\
     (forall n, maxDevNum o = Some n -> numTruthy n = true -> b_maxDevNum b = n) /\
     (forall n, maxGadNum o = Some n -> numTruthy n = true -> b_maxGadNum b = n)).
Proof.
  unfold Freebird. intros H.
  set (o := match options with Some o => o | None => mkOptions None None end) in *.
  set (d := orElse (maxDevNum o) (num 200)) in *.
  set (g := orElse (maxGadNum o) (mul (num 3) d)) in *.
  destruct (lt g d) eqn:Hlt; [discriminate|].
  destruct (checkNetcores _ 0 []) as [e|[]]; [discriminate|].
  injection H as <-. cbn [b_maxDevNum b_maxGadNum].
  assert (Hor : forall v dflt,
            (unset v = true -> orElse v dflt = dflt) /\
            (forall n, v = Some n -> numTruthy n = true -> orElse v dflt = n)).
  { intros v dflt. unfold unset, orElse. split.
    - destruct v as [n|]; [|reflexivity].
      destruct (numTruthy n); [discriminate|reflexivity].
    - intros n -> Hn. rewrite Hn. reflexivity. }
  split; [exact Hlt|]. split.
  { unfold d, orElse. destruct (maxDevNum o) as [n|]; [|reflexivity].
    destruct (numTruthy n) eqn:E; [exact E|reflexivity]. }
  split.
  - intros ->. split; [reflexivity|]. vm_compute. reflexivity.
  - intros o' ->. subst o. fold d. repeat split; try apply Hor.
Qed.

(** The device capacity [2^53 - 1]: its triple is not a double, and the
    gadget capacity is the double next to it. *)
Lemma constructor_settles_capacities_witness :
  exists b,
    Freebird (Many []) (Some (mkOptions (Some (num (2 ^ 53 - 1))) None)) = inr b /\
    b_maxGadNum b = num 27021597764222972.
Proof.
  eexists. split; [vm_compute; reflexivity|].
  destruct (@constructor_settles_capacities (Many [])
              (Some (mkOptions (Some (num (2 ^ 53 - 1))) None)) _ eq_refl)
    as (_ & _ & _ & H).
  destruct (H _ eq_refl) as (_ & H2 & _).
  etransitivity; [exact (H2 eq_refl) | vm_compute; reflexivity].
Defined.

(** X8. With the default capacities, the constructor accepts an array of
    netcores exactly when every element passes [validate.isNetcore] and
    no two elements have the same name. *)
Theorem constructor_accepts_distinct_netcores ncs :
  (exists b, Freebird (Many ncs) None = inr b) <->
  forallb isNetcore ncs = true /\ NoDup (map getName ncs).
Proof.
  unfold Freebird. cbn [orElse maxDevNum maxGadNum].
  assert (Hcap : lt (mul (num 3) (num 200)) (num 200) = false)
    by (vm_compute; reflexivity).
  rewrite Hcap.
  split.
  - intros (b & H).
    destruct (checkNetcores ncs 0 []) as [e|[]] eqn:Hc; [discriminate|].
    apply checkNetcores_spec in Hc. destruct Hc as (Hv & Hd & _). auto.
  - intros (Hv & Hd).
    assert (Hc : checkNetcores ncs 0 [] = inr tt).
    { apply checkNetcores_spec. repeat split; auto. }
    rewrite Hc. eexists. reflexivity.
Qed.

Lemma constructor_accepts_distinct_netcores_witness :
  exists b,
    Freebird (Many [mkCandidate true (Handlers.mkNetcore "zigbee" true);
                    mkCandidate true (Handlers.mkNetcore "ble" false)]) None = inr b.
Proof.
  apply (proj2 (constructor_accepts_distinct_netcores
                  [mkCandidate true (Handlers.mkNetcore "zigbee" true);
                   mkCandidate true (Handlers.mkNetcore "ble" false)])).
  split; [reflexivity|].
  repeat constructor; cbn; intuition discriminate.
Defined.

Lemma find_by_name_unique : forall (ncs : list Handlers.Netcore) nc,
  NoDup (map Handlers.nc_name ncs) -> In nc ncs ->
  find (fun n => String.eqb (Handlers.nc_name n) (Handlers.nc_name nc)) ncs = Some nc.
Proof.
  induction ncs as [|x ncs IH]; intros nc Hd Hin; [destruct Hin|].
  simpl in Hd. inversion Hd as [|y l Hx Hd']; subst.
  simpl. destruct Hin as [<-|Hin].
  - rewrite String.eqb_refl. reflexivity.
  - destruct (String.eqb (Handlers.nc_name x) (Handlers.nc_name nc)) eqn:E.
    + apply String.eqb_eq in E. exfalso. apply Hx. rewrite E.
      apply in_map. exact Hin.
    + apply IH; assumption.
Qed.

(** X9. Every netcore of a freebird that the constructor has built is
    found by its own name, by [findByNet] and by [findById] alike: the
    lookup returns that very netcore and no other one of the same name. *)
Theorem built_netcores_are_found_by_name netcores options b nc permAddr auxId :
  Freebird netcores options = inr b ->
  In nc (b_netcores b) ->
  Handlers.findByNet "netcore" (getName nc) permAddr auxId (b_handlers b)
  = (b_handlers b, inr (Handlers.FoundNetcore (Some (netcore nc)))) /\
  Handlers.findById "netcore" (VStr (getName nc)) (b_handlers b)
  = (b_handlers b, inr (Handlers.FoundNetcore (Some (netcore nc)))).
Proof.
  unfold Freebird. intros H Hin.
  destruct (lt _ _); [discriminate|].
  destruct (checkNetcores _ 0 []) as [e|[]] eqn:Hc; [discriminate|].
  injection H as <-. cbn [b_netcores b_handlers] in *.
  apply checkNetcores_spec in Hc. destruct Hc as (_ & Hd & _).
  set (l := match netcores with One c => [c] | Many cs => cs end) in *.
  assert (Hd' : NoDup (map Handlers.nc_name (map netcore l))).
  { rewrite map_map. exact Hd. }
  assert (Hin' : In (netcore nc) (map netcore l)) by (apply in_map; exact Hin).
  pose proof (find_by_name_unique _ _ Hd' Hin') as Hf.
  split.
  - unfold Handlers.findByNet. cbn [String.eqb Ascii.eqb Bool.eqb].
    unfold Handlers.bind, Handlers.findByNet_netcore, Handlers.gets, Handlers.ret.
    cbn [Handlers.netcores Handlers.fresh]. unfold getName. rewrite Hf. reflexivity.
  - unfold Handlers.findById. cbn [String.eqb Ascii.eqb Bool.eqb].
    unfold Handlers.gets, Handlers.isName.
    cbn [Handlers.netcores Handlers.fresh]. unfold getName. rewrite Hf. reflexivity.
Qed.

Lemma built_netcores_are_found_by_name_witness :
  let a := mkCandidate true (Handlers.mkNetcore "zigbee" true) in
  let z := mkCandidate true (Handlers.mkNetcore "ble" false) in
  exists b,
    Freebird (Many [a; z]) None = inr b /\
    Handlers.findByNet "netcore" "ble" "0x01" None (b_handlers b)
    = (b_handlers b, inr (Handlers.FoundNetcore (Some (Handlers.mkNetcore "ble" false)))).
Proof.
  eexists. split; [reflexivity|].
  exact (proj1 (@built_netcores_are_found_by_name
           (Many [mkCandidate true (Handlers.mkNetcore "zigbee" true);
                  mkCandidate true (Handlers.mkNetcore "ble" false)])
           None _ (mkCandidate true (Handlers.mkNetcore "ble" false)) "0x01" None
           eq_refl (or_intror (or_introl eq_refl)))).
Defined.

End ConstructionProperties.

(* ===================================================================== *)
(** ** Further properties of the handlers                                 *)
(* ===================================================================== *)

Section FurtherHandlerProperties.

Import Handlers.

(** Runs the straight-line part of a handler on a state whose fields are
    given. *)
Ltac mrun_in E :=
  cbv beta iota zeta delta
    [bind ret gets modify call await throw _fire _tweet
     findByNet_netcore findByNet_device findByNet_gadget nowDev nowGad isJoinable
     register_device register_gadget unregister_device unregister_gadget
     on_NcGadIncoming removeListener queueEvent settle
     emit emit_NcGadIncoming ncGadIncoming doGadCook setSyncTimes
     ncGadIncoming_cooked ncGadIncoming_registered
     ncDevIncoming ncDevIncoming_cooked ncDevIncoming_registered
     ncDevLeaving ncDevLeaving_unregistered
     nc_remove nc_remove_done ncNetBan bannedGad_unregistered bannedComponent
     ncBannedDevIncoming ncBannedDevReporting ncBannedGadIncoming ncBannedGadReporting
     updateComponent updateComponent_modified getProp
     devNetChanged devAttrsChanged gadPanelChanged gadAttrsChanged
     ncDevNetChanging ncDevReporting ncGadReporting
     ncError devError gadError errMessage
     gc_msg gc_nc gc_dev gc_gad gc_syncTimes
     netcores devbox gadbox gadEventQueue listeners nextListener pending trace
     set_netcores set_devbox set_gadbox set_gadEventQueue set_listeners
     set_pending set_trace fst snd] in E;
  cbn [String.eqb Ascii.eqb Bool.eqb] in E.

Ltac mrun :=
  cbv beta iota zeta delta
    [bind ret gets modify call await throw _fire _tweet
     findByNet_netcore findByNet_device findByNet_gadget nowDev nowGad isJoinable
     register_device register_gadget unregister_device unregister_gadget
     on_NcGadIncoming removeListener queueEvent settle
     emit emit_NcGadIncoming ncGadIncoming doGadCook setSyncTimes
     ncGadIncoming_cooked ncGadIncoming_registered
     ncDevIncoming ncDevIncoming_cooked ncDevIncoming_registered
     ncDevLeaving ncDevLeaving_unregistered
     nc_remove nc_remove_done ncNetBan bannedGad_unregistered bannedComponent
     ncBannedDevIncoming ncBannedDevReporting ncBannedGadIncoming ncBannedGadReporting
     updateComponent updateComponent_modified getProp
     devNetChanged devAttrsChanged gadPanelChanged gadAttrsChanged
     ncDevNetChanging ncDevReporting ncGadReporting
     ncError devError gadError errMessage
     gc_msg gc_nc gc_dev gc_gad gc_syncTimes
     netcores devbox gadbox gadEventQueue listeners nextListener pending trace
     set_netcores set_devbox set_gadbox set_gadEventQueue set_listeners
     set_pending set_trace fst snd];
  cbn [String.eqb Ascii.eqb Bool.eqb].

(** Names the state after the first event that is still to be run, and
    hands its defining equation to [tac]. *)
Ltac eval_step tac :=
  match goal with
  | |- context [step ?s0 ?e] =>
      lazymatch s0 with
      | context [step _ _] => fail
      | _ =>
          let s := fresh "s" in
          let E := fresh "E" in
          remember (step s0 e) as s eqn:E;
          unfold step, exec, handle in E; tac E; subst s
      end
  end.

(** The callback pending last is called back. *)
Ltac complete_in E :=
  match type of E with
  | context [complete _ ?o ?s0] =>
      let pd := eval cbn [pending] in (pending s0) in
      lazymatch pd with
      | ?pend ++ [?p] => rewrite (@complete_last s0 p o _ eq_refl pend eq_refl) in E
      end
  end.

Ltac complete_goal :=
  match goal with
  | |- context [complete _ ?o ?s0] =>
      let pd := eval cbn [pending] in (pending s0) in
      lazymatch pd with
      | ?pend ++ [?p] => rewrite (@complete_last s0 p o _ eq_refl pend eq_refl)
      end
  end.

(** A closure reads [nc.isJoinable()], [dev.get('id')] or
    [gad.get('props')] at a later turn: the netcores, the devices or the
    gadgets are those of the state that [H] speaks of. *)
Ltac now_in E H :=
  lazymatch type of H with
  | context [joinableNow ?s1 ?nc] =>
      match type of E with
      | context [joinableNow ?s nc] =>
          lazymatch s with
          | s1 => fail
          | _ => change (joinableNow s nc) with (joinableNow s1 nc) in E
          end
      end
  | context [devNow ?s1 ?dev] =>
      match type of E with
      | context [devNow ?s dev] =>
          lazymatch s with
          | s1 => fail
          | _ => change (devNow s dev) with (devNow s1 dev) in E
          end
      end
  | context [gadNow ?s1 ?gad] =>
      match type of E with
      | context [gadNow ?s gad] =>
          lazymatch s with
          | s1 => fail
          | _ => change (gadNow s gad) with (gadNow s1 gad) in E
          end
      end
  end.

Ltac open_state fb :=
  destruct fb as [ncs devs gads queue lsns next pend tr];
  cbn [netcores devbox gadbox gadEventQueue listeners nextListener pending trace] in *.

Ltac since_trace :=
  apply since_app; cbn [trace]; rewrite <- ?app_assoc; reflexivity.

Lemma found_device fb ncName permAddr dev :
  findByNet_device ncName permAddr fb = (fb, inr dev) ->
  find (fun dev => String.eqb (dev_permAddr dev) permAddr
                   && String.eqb (dev_netcore dev) ncName) (devbox fb) = dev.
Proof. unfold findByNet_device, gets. intros H. injection H as H. exact H. Qed.

Lemma found_netcore fb ncName nc :
  findByNet_netcore ncName fb = (fb, inr nc) ->
  find (fun nc => String.eqb (nc_name nc) ncName) (netcores fb) = nc.
Proof. unfold findByNet_netcore, gets. intros H. injection H as H. exact H. Qed.

Lemma found_gadget fb ncName permAddr auxId gad :
  findByNet_gadget ncName permAddr auxId fb = (fb, inr gad) ->
  find (fun gad => String.eqb (gad_permAddr gad) permAddr
                   && optAuxId_eqb (gad_auxId gad) auxId
                   && String.eqb (gad_netcore gad) ncName) (gadbox fb) = gad.
Proof. unfold findByNet_gadget, gets. intros H. injection H as H. exact H. Qed.

(** X10. A device-incoming notification that names an unknown netcore
    starts nothing, but it has attached its [queueEvent] closure before
    it looks at the netcore, and nothing is left that would remove it:
    the closure stays attached whatever happens later. *)
Theorem unknown_netcore_leaks_listener fb msg :
  findByNet_netcore (dm_ncName msg) fb = (fb, inr None) ->
  namesInOrder fb ->
  let l := nextListener fb in
  let fb1 := step fb (Notify (OnNcDevIncoming msg)) in
  listeners fb1 = listeners fb ++ [l] /\
  pending fb1 = pending fb /\ trace fb1 = trace fb /\
  devbox fb1 = devbox fb /\ gadbox fb1 = gadbox fb /\
  gadEventQueue fb1 = gadEventQueue fb /\
  forall events, In l (listeners (run events fb1)).
Proof.
  intros Hnc Hord. apply found_netcore in Hnc. cbv zeta.
  assert (HL : forall s, s = step fb (Notify (OnNcDevIncoming msg)) ->
                 s = set_listeners (listeners fb ++ [nextListener fb])
                                   (S (nextListener fb)) fb).
  { intros s E. unfold step, exec, handle in E. open_state fb.
    mrun_in E. rewrite Hnc in E. exact E. }
  rewrite (HL _ eq_refl). cbn.
  repeat split; auto.
  intros events.
  assert (HK : Leaked (nextListener fb)
                 (set_listeners (listeners fb ++ [nextListener fb]) (S (nextListener fb)) fb)).
  { destruct Hord as (_ & Hp). unfold Leaked, holds, leakedQ. cbn.
    repeat split.
    - apply in_or_app. right. left. reflexivity.
    - lia.
    - intros p Hin Hown. specialize (Hp p _ Hin Hown). lia. }
  destruct (leaked_run events HK) as (Hin & _). exact Hin.
Qed.

Lemma unknown_netcore_leaks_listener_witness :
  let fb := fresh [mkNetcore "zigbee" true] in
  let msg := mkDevMsg "ble" "0x01" VNull in
  let later := [Notify (OnNcGadIncoming (mkGadMsg "zigbee" "0x02" (AuxNum 1) VNull));
                Notify (OnNcDevIncoming (mkDevMsg "zigbee" "0x02" VNull));
                Complete 0 (Failed (mkErr "bad"))] in
  listeners (step fb (Notify (OnNcDevIncoming msg))) = [0] /\
  In 0 (listeners (run later (step fb (Notify (OnNcDevIncoming msg))))).
Proof.
  assert (Hord : namesInOrder (fresh [mkNetcore "zigbee" true]))
    by (split; cbn; [intros l [] | intros p q []]).
  pose proof (@unknown_netcore_leaks_listener (fresh [mkNetcore "zigbee" true])
                (mkDevMsg "ble" "0x01" VNull) eq_refl Hord) as H.
  destruct H as (H1 & _ & _ & _ & _ & _ & H2).
  split; [exact H1 | apply H2].
Defined.

Lemma run_two fb e1 e2 : run [e1; e2] fb = step (step fb e1) e2.
Proof. reflexivity. Qed.

Lemma run_three fb e1 e2 e3 : run [e1; e2; e3] fb = step (step (step fb e1) e2) e3.
Proof. reflexivity. Qed.

Lemma run_four fb e1 e2 e3 e4 :
  run [e1; e2; e3; e4] fb = step (step (step (step fb e1) e2) e3) e4.
Proof. reflexivity. Qed.

(** X11. A device-incoming notification for a device that is registered
    already refreshes it and nothing more: once the cook has succeeded the
    handler copies the cooked data onto the device and marks it online; it
    registers nothing, fires no event and sends no indication, whether or
    not the netcore permits joining, and its temporary listener is gone. *)
Theorem known_device_is_refreshed fb msg nc dev brewedDev :
  findByNet_netcore (dm_ncName msg) fb = (fb, inr (Some nc)) ->
  findByNet_device (dm_ncName msg) (dm_permAddr msg) fb = (fb, inr (Some dev)) ->
  namesInOrder fb ->
  let k := List.length (pending fb) in
  let fb' := run [Notify (OnNcDevIncoming msg); Complete k (CookedDev brewedDev)] fb in
  since fb fb' = CookRawDev (nc_name nc) (dm_raw msg) :: Back (CookedDev brewedDev)
                 :: devRefresh dev brewedDev /\
  existsb isLoud (since fb fb') = false /\
  devbox fb' = devbox fb /\ gadbox fb' = gadbox fb /\
  pending fb' = pending fb /\ listeners fb' = listeners fb /\
  gadEventQueue fb' = gadEventQueue fb.
Proof.
  intros Hnc Hdev Hord. cbv zeta. rewrite run_two.
  apply found_device in Hdev. apply found_netcore in Hnc.
  pose proof (fresh_name_not_attached Hord) as Hfresh.
  open_state fb.
  eval_step ltac:(fun E => mrun_in E; rewrite Hnc in E; mrun_in E; rewrite Hdev in E).
  eval_step ltac:(fun E => complete_in E; mrun_in E; rewrite Hfresh in E).
  match goal with
  | |- since ?a ?b = ?l /\ _ => assert (Hs : since a b = l) by since_trace
  end.
  rewrite Hs. repeat split; reflexivity.
Qed.

Lemma known_device_is_refreshed_witness :
  let dev := mkDevice 1 (Some 7) "zigbee" "0x01" false [] in
  let fb := mkFreebird [mkNetcore "zigbee" false] [dev] [] [] [] 0 [] [] in
  let fb' := run [Notify (OnNcDevIncoming (mkDevMsg "zigbee" "0x01" VNull));
                  Complete 0 (CookedDev (mkDevice 2 None "zigbee" "0x01" false []))] fb in
  existsb isLoud (since fb fb') = false /\ devbox fb' = [dev] /\ listeners fb' = [].
Proof.
  pose proof (@known_device_is_refreshed
                (mkFreebird [mkNetcore "zigbee" false]
                   [mkDevice 1 (Some 7) "zigbee" "0x01" false []] [] [] [] 0 [] [])
                (mkDevMsg "zigbee" "0x01" VNull) (mkNetcore "zigbee" false)
                (mkDevice 1 (Some 7) "zigbee" "0x01" false [])
                (mkDevice 2 None "zigbee" "0x01" false [])
                eq_refl eq_refl) as H.
  destruct H as (_ & H1 & H2 & _ & _ & H3 & _).
  - split; cbn; [intros l [] | intros p q []].
  - repeat split; assumption.
Defined.

(** X12. When the registration of a new device fails, the gadget
    notifications that were put aside for it during the cook stay in the
    coalescing queue: the failure is reported by one [net/error]
    indication, the temporary listener is removed, and nothing is
    replayed or discarded. *)
Theorem failed_registration_leaves_gadgets_queued fb msg nc g brewedDev err :
  findByNet_netcore (dm_ncName msg) fb = (fb, inr (Some nc)) ->
  findByNet_device (dm_ncName msg) (dm_permAddr msg) fb = (fb, inr None) ->
  joinableNow fb nc = true ->
  gm_ncName g = dm_ncName msg -> gm_permAddr g = dm_permAddr msg ->
  listeners fb = [] -> existsb (sameGadKey g) (gadEventQueue fb) = false ->
  let k := List.length (pending fb) in
  let fb' := run [Notify (OnNcDevIncoming msg); Notify (OnNcGadIncoming g);
                  Complete k (CookedDev brewedDev); Complete k (Failed err)] fb in
  since fb fb' = [CookRawDev (nc_name nc) (dm_raw msg); Back (CookedDev brewedDev);
                  Register (RDev (dev_oid brewedDev)); Back (Failed err);
                  netError (dm_ncName msg) err] /\
  gadEventQueue fb' = gadEventQueue fb ++ [g] /\
  listeners fb' = [] /\ pending fb' = pending fb.
Proof.
  intros Hnc Hdev Hjoin Hn Hp Hls Hq. cbv zeta. rewrite run_four.
  apply found_device in Hdev. apply found_netcore in Hnc.
  open_state fb. subst lsns.
  eval_step ltac:(fun E => mrun_in E; rewrite Hnc in E; mrun_in E; rewrite Hdev in E).
  (* the gadget notification meets no device and is put aside *)
  eval_step ltac:(fun E =>
    mrun_in E; rewrite Hn, Hp, Hdev in E; cbn [forEach app] in E;
    mrun_in E; unfold queueEvent_on in E; rewrite Hq in E).
  (* the cook succeeds: the device is handed to the registry *)
  eval_step ltac:(fun E =>
    complete_in E; mrun_in E; now_in E Hjoin; rewrite Hjoin in E; mrun_in E).
  (* the registry refuses it *)
  eval_step ltac:(fun E =>
    complete_in E; mrun_in E;
    cbn [app filter] in E; rewrite Nat.eqb_refl in E; cbn [negb] in E).
  cbn [gadEventQueue listeners pending].
  repeat split; auto. since_trace.
Qed.

Lemma failed_registration_leaves_gadgets_queued_witness :
  let fb := fresh [mkNetcore "zigbee" true] in
  let g := mkGadMsg "zigbee" "0x01" (AuxNum 3) VNull in
  let fb' := run [Notify (OnNcDevIncoming (mkDevMsg "zigbee" "0x01" VNull));
                  Notify (OnNcGadIncoming g);
                  Complete 0 (CookedDev (mkDevice 1 None "zigbee" "0x01" false []));
                  Complete 0 (Failed (mkErr "full"))] fb in
  gadEventQueue fb' = [g] /\ listeners fb' = [] /\ pending fb' = [].
Proof.
  exact (proj2 (@failed_registration_leaves_gadgets_queued
                  (fresh [mkNetcore "zigbee" true])
                  (mkDevMsg "zigbee" "0x01" VNull) (mkNetcore "zigbee" true)
                  (mkGadMsg "zigbee" "0x01" (AuxNum 3) VNull)
                  (mkDevice 1 None "zigbee" "0x01" false []) (mkErr "full")
                  eq_refl eq_refl eq_refl eq_refl eq_refl eq_refl eq_refl)).
Defined.

(** *** Gadget arrivals *)

Lemma devNow_oid fb dev : dev_oid (devNow fb dev) = dev_oid dev.
Proof.
  unfold devNow.
  destruct (find _ (devbox fb)) as [d|] eqn:E; [|reflexivity].
  apply find_some in E. destruct E as (_ & E). apply Nat.eqb_eq in E. exact E.
Qed.

Lemma sameGadKey_refl m : sameGadKey m m = true.
Proof. apply sameGadKey_spec. reflexivity. Qed.

(** Whatever the attached closures did with the notification, no entry
    of another key was touched. *)
Lemma purge_after_listeners m : forall (ls : list nat) queue,
  filter (fun gadMsg => negb (sameGadKey m gadMsg))
         (fold_left (fun queue _ => queueEvent_on queue m) ls queue)
  = filter (fun gadMsg => negb (sameGadKey m gadMsg)) queue.
Proof.
  induction ls as [|l ls IH]; intros queue; [reflexivity|].
  cbn [fold_left]. rewrite IH. unfold queueEvent_on.
  destruct (existsb (sameGadKey m) queue).
  - induction queue as [|x queue IHq]; [reflexivity|].
    cbn [filter]. destruct (negb (sameGadKey m x)) eqn:Ex.
    + cbn [filter]. rewrite Ex, IHq. reflexivity.
    + exact IHq.
  - rewrite filter_app. cbn [filter]. rewrite sameGadKey_refl. cbn [negb].
    apply app_nil_r.
Qed.

(** What [ncGadIncoming] and the attached closures leave when the device
    is registered and has its id: the cook is under way. *)
Lemma gadIncoming_starts_cook fb msg nc dev gad i :
  findByNet_netcore (gm_ncName msg) fb = (fb, inr (Some nc)) ->
  findByNet_device (gm_ncName msg) (gm_permAddr msg) fb = (fb, inr (Some dev)) ->
  findByNet_gadget (gm_ncName msg) (gm_permAddr msg) (Some (gm_auxId msg)) fb
  = (fb, inr gad) ->
  dev_id (devNow fb dev) = Some i ->
  step fb (Notify (OnNcGadIncoming msg))
  = mkFreebird (netcores fb) (devbox fb) (gadbox fb)
      (fold_left (fun queue _ => queueEvent_on queue msg) (listeners fb)
                 (gadEventQueue fb ++ [msg]))
      (listeners fb) (nextListener fb)
      (pending fb ++ [CookingGad (mkGadCook msg (Some nc) dev gad 0) nc])
      (trace fb ++ touch dev
                ++ [CookRawGad (nc_name nc) (dev_oid dev) (gm_auxId msg) (gm_raw msg)]).
Proof.
  intros Hnc Hdev Hgad Hid.
  apply found_netcore in Hnc. apply found_device in Hdev. apply found_gadget in Hgad.
  pose proof (devNow_oid fb dev) as Hoid.
  open_state fb.
  unfold step, exec, handle.
  match goal with |- fst ?t = _ => remember t as r eqn:E end.
  mrun_in E. rewrite Hdev in E. rewrite Hnc, Hgad in E. mrun_in E.
  repeat now_in E Hid. rewrite Hid, Hoid in E.
  match type of E with
  | context [forEach lsns _ ?s0] =>
      change (forEach lsns _ s0) with (forEach lsns (fun _ => queueEvent msg) s0) in E
  end.
  rewrite listeners_run_queueEvent in E. mrun_in E.
  subst r. cbn [fst]. unfold touch. rewrite <- !app_assoc. reflexivity.
Qed.

(** X13. A gadget-incoming notification for a new gadget of a registered
    device, on a netcore that permits joining: the gadget is cooked once,
    registered once, enabled, named after its panel if its name is
    unknown, and announced by one [GAD_INCOMING] event and one
    [gadIncoming] indication that carry the id the registry assigned.
    Nothing stays pending, and no entry of the gadget's key is left in the
    coalescing queue. *)
Theorem unknown_gadget_joins fb msg nc dev brewedGad i gid :
  findByNet_netcore (gm_ncName msg) fb = (fb, inr (Some nc)) ->
  findByNet_device (gm_ncName msg) (gm_permAddr msg) fb = (fb, inr (Some dev)) ->
  findByNet_gadget (gm_ncName msg) (gm_permAddr msg) (Some (gm_auxId msg)) fb
  = (fb, inr None) ->
  dev_id (devNow fb dev) = Some i ->
  joinableNow fb nc = true ->
  let k := List.length (pending fb) in
  let gadIn := setGadId (Some gid) brewedGad in
  let fb' := run [Notify (OnNcGadIncoming msg); Complete k (CookedGad brewedGad);
                  Complete k (Registered gid)] fb in
  since fb fb'
  = touch dev
    ++ [CookRawGad (nc_name nc) (dev_oid dev) (gm_auxId msg) (gm_raw msg);
        Back (CookedGad brewedGad);
        Register (RGad (gad_oid brewedGad)); Back (Registered gid)]
    ++ gadAnnounce msg gadIn /\
  In gadIn (gadbox fb') /\ devbox fb' = devbox fb /\ pending fb' = pending fb /\
  gadEventQueue fb' = filter (fun m => negb (sameGadKey msg m)) (gadEventQueue fb).
Proof.
  intros Hnc Hdev Hgad Hid Hjoin. cbv zeta. rewrite run_three.
  rewrite (gadIncoming_starts_cook msg Hnc Hdev Hgad Hid).
  open_state fb.
  eval_step ltac:(fun E =>
    complete_in E; mrun_in E; now_in E Hjoin; rewrite Hjoin in E; mrun_in E).
  eval_step ltac:(fun E => complete_in E; mrun_in E).
  rewrite purge_after_listeners, filter_app. cbn [filter].
  rewrite sameGadKey_refl. cbn [negb]. rewrite app_nil_r.
  unfold gadAnnounce, gadIncomingEvent, touch.
  destruct (String.eqb (gad_name (setGadId (Some gid) brewedGad)) "unknown");
    mrun; cbn [gadEventQueue devbox gadbox pending].
  all: repeat split; try reflexivity; try since_trace.
  all: rewrite map_app; apply in_or_app; right; cbn [map];
       unfold isGad; rewrite Nat.eqb_refl; left; reflexivity.
Qed.

Lemma unknown_gadget_joins_witness :
  let dev := mkDevice 1 (Some 7) "zigbee" "0x01" false [] in
  let fb := mkFreebird [mkNetcore "zigbee" true] [dev] [] [] [] 0 [] [] in
  let msg := mkGadMsg "zigbee" "0x01" (AuxNum 3) VNull in
  let gadIn := mkGadget 2 None "zigbee" "0x01" (AuxNum 3) "lamp" in
  let fb' := run [Notify (OnNcGadIncoming msg); Complete 0 (CookedGad gadIn);
                  Complete 0 (Registered 9)] fb in
  In (setGadId (Some 9) gadIn) (gadbox fb') /\ pending fb' = [] /\ gadEventQueue fb' = [].
Proof.
  pose proof (@unknown_gadget_joins
                (mkFreebird [mkNetcore "zigbee" true]
                   [mkDevice 1 (Some 7) "zigbee" "0x01" false []] [] [] [] 0 [] [])
                (mkGadMsg "zigbee" "0x01" (AuxNum 3) VNull) (mkNetcore "zigbee" true)
                (mkDevice 1 (Some 7) "zigbee" "0x01" false [])
                (mkGadget 2 None "zigbee" "0x01" (AuxNum 3) "lamp") 7 9
                eq_refl eq_refl eq_refl eq_refl eq_refl) as H.
  destruct H as (_ & H1 & _ & H2 & H3).
  repeat split; assumption.
Defined.

(** X14. When the cook of a gadget fails, the failure is reported by one
    [net/error] indication and by nothing else: no warning event is
    fired, nothing is registered, nothing stays pending, and the entries
    of the gadget's key are taken out of the coalescing queue all the
    same. *)
Theorem failed_gadget_cook_is_only_indicated fb msg nc dev gad i err :
  findByNet_netcore (gm_ncName msg) fb = (fb, inr (Some nc)) ->
  findByNet_device (gm_ncName msg) (gm_permAddr msg) fb = (fb, inr (Some dev)) ->
  findByNet_gadget (gm_ncName msg) (gm_permAddr msg) (Some (gm_auxId msg)) fb
  = (fb, inr gad) ->
  dev_id (devNow fb dev) = Some i ->
  let k := List.length (pending fb) in
  let fb' := run [Notify (OnNcGadIncoming msg); Complete k (Failed err)] fb in
  since fb fb'
  = touch dev
    ++ [CookRawGad (nc_name nc) (dev_oid dev) (gm_auxId msg) (gm_raw msg);
        Back (Failed err); netError (gm_ncName msg) err] /\
  existsb isFire (since fb fb') = false /\
  gadbox fb' = gadbox fb /\ devbox fb' = devbox fb /\ pending fb' = pending fb /\
  gadEventQueue fb' = filter (fun m => negb (sameGadKey msg m)) (gadEventQueue fb).
Proof.
  intros Hnc Hdev Hgad Hid. cbv zeta. rewrite run_two.
  rewrite (gadIncoming_starts_cook msg Hnc Hdev Hgad Hid).
  open_state fb.
  eval_step ltac:(fun E => complete_in E; mrun_in E).
  rewrite purge_after_listeners, filter_app. cbn [filter].
  rewrite sameGadKey_refl. cbn [negb]. rewrite app_nil_r.
  match goal with
  | |- since ?a ?b = ?l /\ _ =>
      assert (Hs : since a b = l) by (unfold touch; since_trace)
  end.
  rewrite Hs. repeat split; reflexivity.
Qed.

Lemma failed_gadget_cook_is_only_indicated_witness :
  let dev := mkDevice 1 (Some 7) "zigbee" "0x01" false [] in
  let fb := mkFreebird [mkNetcore "zigbee" true] [dev] [] [] [] 0 [] [] in
  let msg := mkGadMsg "zigbee" "0x01" (AuxNum 3) VNull in
  let fb' := run [Notify (OnNcGadIncoming msg); Complete 0 (Failed (mkErr "bad"))] fb in
  since fb fb' = touch dev ++ [CookRawGad "zigbee" 1 (AuxNum 3) VNull;
                               Back (Failed (mkErr "bad")); netError "zigbee" (mkErr "bad")].
Proof.
  exact (proj1 (@failed_gadget_cook_is_only_indicated
                  (mkFreebird [mkNetcore "zigbee" true]
                     [mkDevice 1 (Some 7) "zigbee" "0x01" false []] [] [] [] 0 [] [])
                  (mkGadMsg "zigbee" "0x01" (AuxNum 3) VNull) (mkNetcore "zigbee" true)
                  (mkDevice 1 (Some 7) "zigbee" "0x01" false []) None 7 (mkErr "bad")
                  eq_refl eq_refl eq_refl eq_refl)).
Defined.

(** X15. A new gadget that has been cooked while its netcore does not
    permit joining is dropped: besides the calls on the device and the
    cook itself nothing is called, no event is fired, no indication is
    sent, both registries are as before and nothing stays pending. *)
Theorem unknown_gadget_is_dropped_when_joining_is_closed fb msg nc dev brewedGad i :
  findByNet_netcore (gm_ncName msg) fb = (fb, inr (Some nc)) ->
  findByNet_device (gm_ncName msg) (gm_permAddr msg) fb = (fb, inr (Some dev)) ->
  findByNet_gadget (gm_ncName msg) (gm_permAddr msg) (Some (gm_auxId msg)) fb
  = (fb, inr None) ->
  dev_id (devNow fb dev) = Some i ->
  joinableNow fb nc = false ->
  let k := List.length (pending fb) in
  let fb' := run [Notify (OnNcGadIncoming msg); Complete k (CookedGad brewedGad)] fb in
  since fb fb'
  = touch dev
    ++ [CookRawGad (nc_name nc) (dev_oid dev) (gm_auxId msg) (gm_raw msg);
        Back (CookedGad brewedGad)] /\
  droppedSilently fb fb' /\ pending fb' = pending fb /\
  gadEventQueue fb' = filter (fun m => negb (sameGadKey msg m)) (gadEventQueue fb).
Proof.
  intros Hnc Hdev Hgad Hid Hjoin. cbv zeta. rewrite run_two.
  rewrite (gadIncoming_starts_cook msg Hnc Hdev Hgad Hid).
  open_state fb.
  eval_step ltac:(fun E =>
    complete_in E; mrun_in E; now_in E Hjoin; rewrite Hjoin in E; mrun_in E).
  rewrite purge_after_listeners, filter_app. cbn [filter].
  rewrite sameGadKey_refl. cbn [negb]. rewrite app_nil_r.
  unfold droppedSilently.
  match goal with
  | |- since ?a ?b = ?l /\ _ =>
      assert (Hs : since a b = l) by (unfold touch; since_trace)
  end.
  rewrite Hs. repeat split; reflexivity.
Qed.

Lemma unknown_gadget_is_dropped_when_joining_is_closed_witness :
  let dev := mkDevice 1 (Some 7) "zigbee" "0x01" false [] in
  let fb := mkFreebird [mkNetcore "zigbee" false] [dev] [] [] [] 0 [] [] in
  let msg := mkGadMsg "zigbee" "0x01" (AuxNum 3) VNull in
  let fb' := run [Notify (OnNcGadIncoming msg);
                  Complete 0 (CookedGad (mkGadget 2 None "zigbee" "0x01" (AuxNum 3) "lamp"))]
                 fb in
  droppedSilently fb fb' /\ pending fb' = [].
Proof.
  pose proof (@unknown_gadget_is_dropped_when_joining_is_closed
                (mkFreebird [mkNetcore "zigbee" false]
                   [mkDevice 1 (Some 7) "zigbee" "0x01" false []] [] [] [] 0 [] [])
                (mkGadMsg "zigbee" "0x01" (AuxNum 3) VNull) (mkNetcore "zigbee" false)
                (mkDevice 1 (Some 7) "zigbee" "0x01" false [])
                (mkGadget 2 None "zigbee" "0x01" (AuxNum 3) "lamp") 7
                eq_refl eq_refl eq_refl eq_refl eq_refl) as H.
  destruct H as (_ & H1 & H2 & _). split; assumption.
Defined.

(** X16. A gadget-incoming notification for a gadget that is registered
    already refreshes it and nothing more: the cooked data are copied onto
    the gadget, and its name is taken from the cooked panel only while it
    is ['unknown']; nothing is registered, no event is fired and no
    indication is sent, whether or not the netcore permits joining. *)
Theorem known_gadget_is_refreshed fb msg nc dev gad brewedGad i :
  findByNet_netcore (gm_ncName msg) fb = (fb, inr (Some nc)) ->
  findByNet_device (gm_ncName msg) (gm_permAddr msg) fb = (fb, inr (Some dev)) ->
  findByNet_gadget (gm_ncName msg) (gm_permAddr msg) (Some (gm_auxId msg)) fb
  = (fb, inr (Some gad)) ->
  dev_id (devNow fb dev) = Some i ->
  let k := List.length (pending fb) in
  let fb' := run [Notify (OnNcGadIncoming msg); Complete k (CookedGad brewedGad)] fb in
  since fb fb'
  = touch dev
    ++ [CookRawGad (nc_name nc) (dev_oid dev) (gm_auxId msg) (gm_raw msg);
        Back (CookedGad brewedGad)]
    ++ gadRefresh gad brewedGad (gad_name (gadNow fb gad)) /\
  droppedSilently fb fb' /\ pending fb' = pending fb /\
  gadEventQueue fb' = filter (fun m => negb (sameGadKey msg m)) (gadEventQueue fb).
Proof.
  intros Hnc Hdev Hgad Hid. cbv zeta. rewrite run_two.
  rewrite (gadIncoming_starts_cook msg Hnc Hdev Hgad Hid).
  pose proof (@eq_refl _ (gad_name (gadNow fb gad))) as Hname.
  open_state fb.
  eval_step ltac:(fun E => complete_in E; mrun_in E; repeat now_in E Hname).
  rewrite purge_after_listeners, filter_app. cbn [filter].
  rewrite sameGadKey_refl. cbn [negb]. rewrite app_nil_r.
  unfold droppedSilently, gadRefresh, touch.
  destruct (String.eqb (gad_name (gadNow _ gad)) "unknown"); mrun.
  all: match goal with
       | |- since ?a ?b = ?l /\ _ => assert (Hs : since a b = l) by since_trace
       end.
  all: rewrite Hs; repeat split; reflexivity.
Qed.

Lemma known_gadget_is_refreshed_witness :
  let dev := mkDevice 1 (Some 7) "zigbee" "0x01" false [] in
  let gad := mkGadget 2 (Some 9) "zigbee" "0x01" (AuxNum 3) "lamp" in
  let fb := mkFreebird [mkNetcore "zigbee" false] [dev] [gad] [] [] 0 [] [] in
  let msg := mkGadMsg "zigbee" "0x01" (AuxNum 3) VNull in
  let fb' := run [Notify (OnNcGadIncoming msg);
                  Complete 0 (CookedGad (mkGadget 4 None "zigbee" "0x01" (AuxNum 3) "x"))]
                 fb in
  droppedSilently fb fb' /\ pending fb' = [].
Proof.
  pose proof (@known_gadget_is_refreshed
                (mkFreebird [mkNetcore "zigbee" false]
                   [mkDevice 1 (Some 7) "zigbee" "0x01" false []]
                   [mkGadget 2 (Some 9) "zigbee" "0x01" (AuxNum 3) "lamp"] [] [] 0 [] [])
                (mkGadMsg "zigbee" "0x01" (AuxNum 3) VNull) (mkNetcore "zigbee" false)
                (mkDevice 1 (Some 7) "zigbee" "0x01" false [])
                (mkGadget 2 (Some 9) "zigbee" "0x01" (AuxNum 3) "lamp")
                (mkGadget 4 None "zigbee" "0x01" (AuxNum 3) "x") 7
                eq_refl eq_refl eq_refl eq_refl) as H.
  destruct H as (_ & H1 & H2 & _). split; assumption.
Defined.

(** X17. The poll of [ncGadIncoming] ends as soon as a timer callback
    finds the device's id: whatever the number of timers that have fired,
    the callback starts the cook at once and sets no further timer. *)
Theorem poll_ends_when_the_id_is_there s c nc pend i :
  pending s = pend ++ [Sleeping c] ->
  gc_nc c = Some nc ->
  dev_id (devNow s (gc_dev c)) = Some i ->
  let s' := step s (Complete (List.length pend) Elapsed) in
  since s s' = [Back Elapsed;
                CookRawGad (nc_name nc) (dev_oid (gc_dev c))
                           (gm_auxId (gc_msg c)) (gm_raw (gc_msg c))] /\
  pending s' = pend ++ [CookingGad c nc] /\
  devbox s' = devbox s /\ gadbox s' = gadbox s /\ gadEventQueue s' = gadEventQueue s.
Proof.
  intros Hp Hnc Hid. cbv zeta.
  pose proof (devNow_oid s (gc_dev c)) as Hoid.
  unfold step, exec, handle.
  rewrite (@complete_last s (Sleeping c) Elapsed _ eq_refl pend Hp).
  destruct c as [msg onc dev gad n]. cbn [gc_nc gc_dev gc_msg] in *. subst onc.
  destruct s as [ncs devs gads queue lsns next pnd tr].
  cbn [netcores devbox gadbox gadEventQueue listeners nextListener pending trace] in *.
  match goal with |- context [fst ?t] => remember t as r eqn:E end.
  mrun_in E. repeat now_in E Hid. rewrite Hid, Hoid in E. subst r.
  cbn [fst pending devbox gadbox gadEventQueue].
  repeat split; auto. since_trace.
Qed.

Lemma poll_ends_when_the_id_is_there_witness :
  let dev := mkDevice 1 (Some 7) "zigbee" "0x01" false [] in
  let nc := mkNetcore "zigbee" true in
  let c := mkGadCook (mkGadMsg "zigbee" "0x01" (AuxNum 3) VNull) (Some nc) dev None 50 in
  let s := mkFreebird [nc] [dev] [] [] [] 0 [Sleeping c] [] in
  pending (step s (Complete 0 Elapsed)) = [CookingGad c nc].
Proof.
  pose proof (@poll_ends_when_the_id_is_there
                (mkFreebird [mkNetcore "zigbee" true]
                   [mkDevice 1 (Some 7) "zigbee" "0x01" false []] [] [] [] 0
                   [Sleeping (mkGadCook (mkGadMsg "zigbee" "0x01" (AuxNum 3) VNull)
                                (Some (mkNetcore "zigbee" true))
                                (mkDevice 1 (Some 7) "zigbee" "0x01" false []) None 50)] [])
                (mkGadCook (mkGadMsg "zigbee" "0x01" (AuxNum 3) VNull)
                   (Some (mkNetcore "zigbee" true))
                   (mkDevice 1 (Some 7) "zigbee" "0x01" false []) None 50)
                (mkNetcore "zigbee" true) [] 7 eq_refl eq_refl eq_refl) as H.
  destruct H as (_ & H & _). exact H.
Defined.

(** *** Banned gadgets and devices *)

Ltac banned_cases H :=
  destruct H as [[-> ->]|[-> ->]].

(** X18. A banned gadget that is registered is announced and
    unregistered, and the netcore is not consulted: the handler does not
    throw even when the netcore is unknown.  When the registry has taken
    the gadget out, [GAD_LEAVING] and a [gadLeaving] indication carry the
    id the gadget had when the notification came; when it refuses, a
    warning and a [gad/error] indication do. *)
Theorem banned_gadget_is_unregistered fb n evt msg gad err :
  bannedGadNotification n evt msg ->
  findByNet_gadget (bm_ncName msg) (bm_permAddr msg) (bm_auxId msg) fb
  = (fb, inr (Some gad)) ->
  let k := List.length (pending fb) in
  let fb1 := step fb (Notify n) in
  let fb' := step fb1 (Complete k (report err)) in
  thrown (handle (Notify n)) fb = None /\
  since fb fb1 = [Fire (EVT_TOP evt) (bannedGadEvent msg);
                  Tweet "gad" (EVT_TOP evt) (idVal (gad_id gad)) (bannedGadInfo msg);
                  Unregister (RGad (gad_oid gad))] /\
  since fb1 fb' = Back (report err) :: bannedGadLeaving msg (gad_id gad) err /\
  pending fb' = pending fb /\ devbox fb' = devbox fb.
Proof.
  intros Hn Hgad. cbv zeta. apply found_gadget in Hgad.
  open_state fb.
  split.
  { unfold thrown, handle. banned_cases Hn; mrun; rewrite Hgad; reflexivity. }
  banned_cases Hn.
  all: eval_step ltac:(fun E => mrun_in E; rewrite Hgad in E; mrun_in E).
  all: destruct err as [e|]; cbn [report].
  all: eval_step ltac:(fun E => complete_in E; mrun_in E).
  all: cbn [pending devbox]; unfold bannedGadLeaving, bannedGadInfo, bannedGadEvent.
  all: repeat split; try reflexivity; since_trace.
Qed.

Lemma banned_gadget_is_unregistered_witness :
  let gad := mkGadget 2 (Some 9) "zigbee" "0x01" (AuxNum 3) "lamp" in
  let fb := mkFreebird [] [] [gad] [] [] 0 [] [] in
  let msg := mkBanMsg "zigbee" "0x01" (Some (AuxNum 3)) in
  let fb1 := step fb (Notify (OnNcBannedGadReporting msg)) in
  thrown (handle (Notify (OnNcBannedGadReporting msg))) fb = None /\
  since fb1 (step fb1 (Complete 0 (report None)))
  = Back (report None) :: bannedGadLeaving msg (Some 9) None.
Proof.
  pose proof (@banned_gadget_is_unregistered
                (mkFreebird [] [] [mkGadget 2 (Some 9) "zigbee" "0x01" (AuxNum 3) "lamp"]
                   [] [] 0 [] [])
                (OnNcBannedGadReporting (mkBanMsg "zigbee" "0x01" (Some (AuxNum 3))))
                GAD_BAN_REPORTING (mkBanMsg "zigbee" "0x01" (Some (AuxNum 3)))
                (mkGadget 2 (Some 9) "zigbee" "0x01" (AuxNum 3) "lamp") None
                (or_intror (conj eq_refl eq_refl)) eq_refl) as H.
  destruct H as (H1 & _ & H2 & _). split; assumption.
Defined.

(** X19. A banned gadget that is not registered is only announced: one
    event and one indication with id 0, no unregistration, nothing
    pending, and no exception even when the netcore is unknown. *)
Theorem banned_unknown_gadget_is_only_announced fb n evt msg :
  bannedGadNotification n evt msg ->
  findByNet_gadget (bm_ncName msg) (bm_permAddr msg) (bm_auxId msg) fb = (fb, inr None) ->
  let fb1 := step fb (Notify n) in
  thrown (handle (Notify n)) fb = None /\
  since fb fb1 = [Fire (EVT_TOP evt) (bannedGadEvent msg);
                  Tweet "gad" (EVT_TOP evt) (VNum 0) (bannedGadInfo msg)] /\
  pending fb1 = pending fb /\ devbox fb1 = devbox fb /\ gadbox fb1 = gadbox fb.
Proof.
  intros Hn Hgad. cbv zeta. apply found_gadget in Hgad.
  open_state fb.
  split.
  { unfold thrown, handle. banned_cases Hn; mrun; rewrite Hgad; reflexivity. }
  banned_cases Hn.
  all: eval_step ltac:(fun E => mrun_in E; rewrite Hgad in E; mrun_in E).
  all: cbn [pending devbox gadbox]; unfold bannedGadInfo, bannedGadEvent.
  all: repeat split; try reflexivity; since_trace.
Qed.

Lemma banned_unknown_gadget_is_only_announced_witness :
  let fb := fresh [] in
  let msg := mkBanMsg "zigbee" "0x01" (Some (AuxNum 3)) in
  thrown (handle (Notify (OnNcBannedGadIncoming msg))) fb = None /\
  pending (step fb (Notify (OnNcBannedGadIncoming msg))) = [].
Proof.
  pose proof (@banned_unknown_gadget_is_only_announced (fresh [])
                (OnNcBannedGadIncoming (mkBanMsg "zigbee" "0x01" (Some (AuxNum 3))))
                GAD_BAN_INCOMING (mkBanMsg "zigbee" "0x01" (Some (AuxNum 3)))
                (or_introl (conj eq_refl eq_refl)) eq_refl) as H.
  destruct H as (H1 & _ & H2 & _). split; assumption.
Defined.

(** X20. A banned device that is registered is announced with its id,
    and its netcore is asked to remove it; the handler itself
    unregisters nothing.  When the netcore reports a failure, a warning
    and a [dev/error] indication with the device's id go out; when it
    reports success nothing more is said.  Either way both registries are
    as before. *)
Theorem banned_device_is_left_to_its_netcore fb n evt msg nc dev err :
  bannedDevNotification n evt msg ->
  findByNet_netcore (bm_ncName msg) fb = (fb, inr (Some nc)) ->
  findByNet_device (bm_ncName msg) (bm_permAddr msg) fb = (fb, inr (Some dev)) ->
  let k := List.length (pending fb) in
  let fb1 := step fb (Notify n) in
  let fb' := step fb1 (Complete k (report err)) in
  since fb fb1 = [Fire (EVT_TOP evt) (bannedDevEvent msg);
                  Tweet "dev" (EVT_TOP evt) (idVal (dev_id dev)) (bannedDevInfo msg);
                  NcRemove (nc_name nc) (bm_permAddr msg)] /\
  since fb1 fb' = Back (report err)
                  :: removeFailure (bm_ncName msg) (dev_id (devNow fb dev)) err /\
  devbox fb' = devbox fb /\ gadbox fb' = gadbox fb /\ pending fb' = pending fb.
Proof.
  intros Hn Hnc Hdev. cbv zeta.
  apply found_netcore in Hnc. apply found_device in Hdev.
  pose proof (@eq_refl _ (dev_id (devNow fb dev))) as Hnow.
  open_state fb.
  banned_cases Hn.
  all: eval_step ltac:(fun E =>
         mrun_in E; rewrite Hdev in E; rewrite Hnc in E; mrun_in E).
  all: destruct err as [e|]; cbn [report].
  all: eval_step ltac:(fun E => complete_in E; mrun_in E; repeat now_in E Hnow).
  all: cbn [pending devbox gadbox]; unfold removeFailure, bannedDevInfo, bannedDevEvent.
  all: repeat split; try reflexivity; since_trace.
Qed.

Lemma banned_device_is_left_to_its_netcore_witness :
  let dev := mkDevice 1 (Some 7) "zigbee" "0x01" false [] in
  let fb := mkFreebird [mkNetcore "zigbee" true] [dev] [] [] [] 0 [] [] in
  let msg := mkBanMsg "zigbee" "0x01" None in
  let fb1 := step fb (Notify (OnNcBannedDevIncoming msg)) in
  let fb' := step fb1 (Complete 0 (report (Some (mkErr "busy")))) in
  devbox fb' = [dev] /\ pending fb' = [].
Proof.
  pose proof (@banned_device_is_left_to_its_netcore
                (mkFreebird [mkNetcore "zigbee" true]
                   [mkDevice 1 (Some 7) "zigbee" "0x01" false []] [] [] [] 0 [] [])
                (OnNcBannedDevIncoming (mkBanMsg "zigbee" "0x01" None))
                DEV_BAN_INCOMING (mkBanMsg "zigbee" "0x01" None)
                (mkNetcore "zigbee" true) (mkDevice 1 (Some 7) "zigbee" "0x01" false [])
                (Some (mkErr "busy"))
                (or_introl (conj eq_refl eq_refl)) eq_refl eq_refl) as H.
  destruct H as (_ & _ & H1 & _ & H2). split; assumption.
Defined.

(** X21. A net-ban notification for a registered device asks the netcore
    to remove it and announces nothing; only a failed removal is reported,
    by a warning and a [dev/error] indication.  The device stays in the
    registry whatever the netcore answers. *)
Theorem net_ban_asks_the_netcore_to_remove fb msg nc dev err :
  findByNet_netcore (am_ncName msg) fb = (fb, inr (Some nc)) ->
  findByNet_device (am_ncName msg) (am_permAddr msg) fb = (fb, inr (Some dev)) ->
  let k := List.length (pending fb) in
  let fb1 := step fb (Notify (OnNcNetBan msg)) in
  let fb' := step fb1 (Complete k (report err)) in
  since fb fb1 = [NcRemove (nc_name nc) (am_permAddr msg)] /\
  since fb1 fb' = Back (report err)
                  :: removeFailure (am_ncName msg) (dev_id (devNow fb dev)) err /\
  devbox fb' = devbox fb /\ gadbox fb' = gadbox fb /\ pending fb' = pending fb.
Proof.
  intros Hnc Hdev. cbv zeta.
  apply found_netcore in Hnc. apply found_device in Hdev.
  pose proof (@eq_refl _ (dev_id (devNow fb dev))) as Hnow.
  open_state fb.
  eval_step ltac:(fun E =>
    mrun_in E; rewrite Hdev in E; rewrite Hnc in E; mrun_in E).
  destruct err as [e|]; cbn [report].
  all: eval_step ltac:(fun E => complete_in E; mrun_in E; repeat now_in E Hnow).
  all: cbn [pending devbox gadbox]; unfold removeFailure.
  all: repeat split; try reflexivity; since_trace.
Qed.

Lemma net_ban_asks_the_netcore_to_remove_witness :
  let dev := mkDevice 1 (Some 7) "zigbee" "0x01" false [] in
  let fb := mkFreebird [mkNetcore "zigbee" true] [dev] [] [] [] 0 [] [] in
  let msg := mkAddrMsg "zigbee" "0x01" in
  let fb1 := step fb (Notify (OnNcNetBan msg)) in
  since fb fb1 = [NcRemove "zigbee" "0x01"] /\
  devbox (step fb1 (Complete 0 (report None))) = [dev].
Proof.
  pose proof (@net_ban_asks_the_netcore_to_remove
                (mkFreebird [mkNetcore "zigbee" true]
                   [mkDevice 1 (Some 7) "zigbee" "0x01" false []] [] [] [] 0 [] [])
                (mkAddrMsg "zigbee" "0x01") (mkNetcore "zigbee" true)
                (mkDevice 1 (Some 7) "zigbee" "0x01" false []) None
                eq_refl eq_refl) as H.
  destruct H as (H1 & _ & H2 & _). split; assumption.
Defined.

(** *** The update pipeline *)

Ltac update_cases n H :=
  destruct n; cbn [updateOf] in H; try discriminate H;
  injection H as <- <- <-.

(** X22. When the registry refuses a change of network info, attributes
    or panel, the four update handlers report it by a warning event and
    an error indication of their subsystem with the id of the message,
    and by nothing else: no changed event goes out. *)
Theorem refused_update_is_only_warned fb n type namespace msg err :
  updateOf n = Some (type, namespace, msg) ->
  let k := List.length (pending fb) in
  let fb' := run [Notify n; Complete k (Failed err)] fb in
  since fb fb' = [BoxModify (boxOf type) (um_id msg) namespace (um_data msg);
                  Back (Failed err)] ++ updateFailure type msg err /\
  pending fb' = pending fb /\ devbox fb' = devbox fb /\ gadbox fb' = gadbox fb.
Proof.
  intros Hn. cbv zeta. rewrite run_two. open_state fb.
  update_cases n Hn.
  all: eval_step ltac:(fun E => mrun_in E).
  all: eval_step ltac:(fun E => complete_in E; mrun_in E).
  all: cbn [pending devbox gadbox]; repeat split; try reflexivity.
  all: unfold updateFailure, boxOf; cbn [String.eqb Ascii.eqb Bool.eqb]; since_trace.
Qed.

Lemma refused_update_is_only_warned_witness :
  let msg := mkUpdMsg "zigbee" "0x01" (Some (AuxNum 3)) (VNum 9)
                      (VObj [("status", VStr "online")]) VNull in
  let fb' := run [Notify (OnGadAttrsChanged msg); Complete 0 (Failed (mkErr "no"))]
                 (fresh []) in
  since (fresh []) fb'
  = [BoxModify Gadbox (VNum 9) "attrs" (VObj [("status", VStr "online")]);
     Back (Failed (mkErr "no"))] ++ updateFailure "gad" msg (mkErr "no").
Proof.
  exact (proj1 (@refused_update_is_only_warned (fresh [])
                  (OnGadAttrsChanged
                     (mkUpdMsg "zigbee" "0x01" (Some (AuxNum 3)) (VNum 9)
                               (VObj [("status", VStr "online")]) VNull))
                  "gad" "attrs" _ (mkErr "no") eq_refl)).
Defined.

(** X23. Only a change of a device's network info can raise a
    status-changed event.  A change of attributes or panel that the
    registry took raises exactly one changed event and one indication,
    even when its delta has a [status]; so does a change of network info
    whose delta has no status, or a falsy one. *)
Theorem other_updates_raise_no_status_change fb n type namespace msg diff :
  updateOf n = Some (type, namespace, msg) ->
  isDevNetChanged (getUpdateEventName type namespace) = false \/
  (isNil (um_data msg) = false /\ truthy (prop (um_data msg) "status") = false) ->
  let k := List.length (pending fb) in
  let fb1 := step fb (Notify n) in
  let fb' := step fb1 (Complete k (Succeeded diff)) in
  since fb fb' = [BoxModify (boxOf type) (um_id msg) namespace (um_data msg);
                  Back (Succeeded diff)] ++ changedPair type namespace msg /\
  thrown (handle (Complete k (Succeeded diff))) fb1 = None /\
  pending fb' = pending fb.
Proof.
  intros Hn Hwhy. cbv zeta. open_state fb.
  assert (Hdelta : isDevNetChanged (getUpdateEventName type namespace) = true ->
                   exists v, getProp (um_data msg) "status" = ret v /\ truthy v = false).
  { intros Hnet. destruct Hwhy as [Hno|[Hnil Hst]]; [congruence|].
    exists (prop (um_data msg) "status"). split; [|exact Hst].
    unfold getProp. destruct (um_data msg); try reflexivity; discriminate. }
  update_cases n Hn.
  all: eval_step ltac:(fun E => mrun_in E).
  all: unfold thrown, step, exec, handle.
  all: complete_goal.
  all: unfold settle, updateComponent_modified, changedPair, boxOf.
  all: cbn [getUpdateEventName String.eqb Ascii.eqb Bool.eqb isDevNetChanged] in *.
  all: try (destruct (Hdelta eq_refl) as (v & Hv & Hf); rewrite Hv).
  all: mrun; try rewrite Hf; cbn [pending fst snd].
  all: repeat split; try reflexivity; since_trace.
Qed.

Lemma other_updates_raise_no_status_change_witness :
  let msg := mkUpdMsg "zigbee" "0x01" None (VNum 9)
                      (VObj [("status", VStr "online")]) VNull in
  let fb1 := step (fresh []) (Notify (OnDevAttrsChanged msg)) in
  since (fresh []) (step fb1 (Complete 0 (Succeeded VNull)))
  = [BoxModify Devbox (VNum 9) "attrs" (VObj [("status", VStr "online")]);
     Back (Succeeded VNull)] ++ changedPair "dev" "attrs" msg.
Proof.
  exact (proj1 (@other_updates_raise_no_status_change (fresh [])
                  (OnDevAttrsChanged
                     (mkUpdMsg "zigbee" "0x01" None (VNum 9)
                               (VObj [("status", VStr "online")]) VNull))
                  "dev" "attrs" _ VNull eq_refl (or_introl eq_refl))).
Defined.

(** X24. A change of a device's network info that the registry took but
    that carries no delta makes the registry callback throw: the
    net-changed event and indication have gone out when the callback reads
    [status] of the missing delta. *)
Theorem net_change_without_delta_throws fb msg diff :
  isNil (um_data msg) = true ->
  let k := List.length (pending fb) in
  let fb1 := step fb (Notify (OnDevNetChanged msg)) in
  let fb' := step fb1 (Complete k (Succeeded diff)) in
  thrown (handle (Complete k (Succeeded diff))) fb1
  = Some (TypeError "cannot read a property of undefined") /\
  since fb fb' = [BoxModify Devbox (um_id msg) "net" (um_data msg);
                  Back (Succeeded diff)] ++ changedPair "dev" "net" msg.
Proof.
  intros Hnil. cbv zeta. open_state fb.
  eval_step ltac:(fun E => mrun_in E).
  unfold thrown, step, exec, handle.
  complete_goal.
  unfold changedPair.
  destruct (um_data msg) eqn:Ed; try discriminate Hnil.
  all: mrun; rewrite Ed; cbn [fst snd].
  all: split; [reflexivity | since_trace].
Qed.

Lemma net_change_without_delta_throws_witness :
  let msg := mkUpdMsg "zigbee" "0x01" None (VNum 9) VUndef VNull in
  let fb1 := step (fresh []) (Notify (OnDevNetChanged msg)) in
  thrown (handle (Complete 0 (Succeeded VNull))) fb1
  = Some (TypeError "cannot read a property of undefined").
Proof.
  exact (proj1 (@net_change_without_delta_throws (fresh [])
                  (mkUpdMsg "zigbee" "0x01" None (VNum 9) VUndef VNull) VNull eq_refl)).
Defined.

(** *** Leaving and reporting *)

(** X25. A device-leaving notification for a device that is not being
    removed only marks it offline: whatever gadgets its table lists,
    nothing is unregistered, no event is fired, no indication is sent and
    nothing stays pending. *)
Theorem leaving_without_removal_only_marks_offline fb msg dev :
  findByNet_device (am_ncName msg) (am_permAddr msg) fb = (fb, inr (Some dev)) ->
  dev_removing dev = false ->
  let fb1 := step fb (Notify (OnNcDevLeaving msg)) in
  since fb fb1 = [Method (RDev (dev_oid dev)) "_poke" [];
                  Method (RDev (dev_oid dev)) "set" [VStr "net"; offline]] /\
  droppedSilently fb fb1 /\ pending fb1 = pending fb.
Proof.
  intros Hdev Hrm. cbv zeta. apply found_device in Hdev. open_state fb.
  eval_step ltac:(fun E => mrun_in E; rewrite Hdev in E; mrun_in E; rewrite Hrm in E).
  unfold droppedSilently.
  match goal with
  | |- since ?a ?b = ?l /\ _ => assert (Hs : since a b = l) by since_trace
  end.
  rewrite Hs. repeat split; reflexivity.
Qed.

Lemma leaving_without_removal_only_marks_offline_witness :
  let dev := mkDevice 1 (Some 7) "zigbee" "0x01" false [mkGadRec 9 (AuxNum 3)] in
  let gad := mkGadget 2 (Some 9) "zigbee" "0x01" (AuxNum 3) "lamp" in
  let fb := mkFreebird [mkNetcore "zigbee" true] [dev] [gad] [] [] 0 [] [] in
  let fb1 := step fb (Notify (OnNcDevLeaving (mkAddrMsg "zigbee" "0x01"))) in
  droppedSilently fb fb1 /\ pending fb1 = [].
Proof.
  exact (proj2 (@leaving_without_removal_only_marks_offline
                  (mkFreebird [mkNetcore "zigbee" true]
                     [mkDevice 1 (Some 7) "zigbee" "0x01" false [mkGadRec 9 (AuxNum 3)]]
                     [mkGadget 2 (Some 9) "zigbee" "0x01" (AuxNum 3) "lamp"] [] [] 0 [] [])
                  (mkAddrMsg "zigbee" "0x01")
                  (mkDevice 1 (Some 7) "zigbee" "0x01" false [mkGadRec 9 (AuxNum 3)])
                  eq_refl eq_refl)).
Defined.

(** X26. A device report for a registered device marks it online, hands
    the attributes to the device and fires [DEV_REPORTING] with the
    device's id; it sends no indication and commands nothing.  A report
    or a change of network info for a device that is not registered is
    ignored without a trace. *)
Theorem device_report_is_fired_not_indicated fb msg dev :
  findByNet_device (rm_ncName msg) (rm_permAddr msg) fb = (fb, inr dev) ->
  match dev with
  | Some dev =>
      let fb1 := exec (ncDevReporting msg) fb in
      since fb fb1
      = touch dev
        ++ [Method (RDev (dev_oid dev)) "set" [VStr "attrs"; rm_data msg];
            Fire (EVT_TOP DEV_REPORTING) (devReportingEvent msg (dev_id dev))] /\
      existsb isTweet (since fb fb1) = false /\
      existsb isCommand (since fb fb1) = false /\
      pending fb1 = pending fb /\
      since fb (exec (ncDevNetChanging msg) fb)
      = [Method (RDev (dev_oid dev)) "set" [VStr "net"; rm_data msg]]
  | None =>
      ncDevReporting msg fb = (fb, inr tt) /\ ncDevNetChanging msg fb = (fb, inr tt)
  end.
Proof.
  intros Hdev. apply found_device in Hdev. open_state fb.
  destruct dev as [dev|].
  - cbv zeta. unfold exec.
    assert (H1 : forall r, r = ncDevReporting msg (mkFreebird ncs devs gads queue lsns next pend tr) ->
              since (mkFreebird ncs devs gads queue lsns next pend tr) (fst r)
              = touch dev
                ++ [Method (RDev (dev_oid dev)) "set" [VStr "attrs"; rm_data msg];
                    Fire (EVT_TOP DEV_REPORTING) (devReportingEvent msg (dev_id dev))]
              /\ pending (fst r) = pend).
    { intros r E. mrun_in E. rewrite Hdev in E. subst r. cbn [fst pending].
      split; [unfold touch, devReportingEvent; since_trace | reflexivity]. }
    destruct (H1 _ eq_refl) as (Hs & Hp). rewrite Hs, Hp.
    repeat split; try reflexivity.
    mrun. rewrite Hdev. cbn [fst]. since_trace.
  - split; mrun; rewrite Hdev; reflexivity.
Qed.

Lemma device_report_is_fired_not_indicated_witness :
  let fb := fresh [mkNetcore "zigbee" true] in
  let msg := mkReportMsg "zigbee" "0x01" None (VNum 1) VUndef in
  ncDevReporting msg fb = (fb, inr tt) /\ ncDevNetChanging msg fb = (fb, inr tt).
Proof.
  exact (@device_report_is_fired_not_indicated (fresh [mkNetcore "zigbee" true])
           (mkReportMsg "zigbee" "0x01" None (VNum 1) VUndef) None eq_refl).
Defined.

(** X27. A gadget report is ignored when its device is not registered.
    When the device is registered but the gadget is not, the device is
    still marked online but nothing is announced.  When both are
    registered the attributes are handed to the gadget, appended if the
    message has a truthy append flag and set otherwise, and [GAD_REPORTING]
    and an [attrsReport] indication carry the gadget's id. *)
Theorem gadget_report_needs_device_and_gadget fb msg dev gad :
  findByNet_device (rm_ncName msg) (rm_permAddr msg) fb = (fb, inr dev) ->
  findByNet_gadget (rm_ncName msg) (rm_permAddr msg) (rm_auxId msg) fb = (fb, inr gad) ->
  let fb1 := exec (ncGadReporting msg) fb in
  thrown (ncGadReporting msg) fb = None /\ pending fb1 = pending fb /\
  since fb fb1
  = match dev, gad with
    | None, _ => []
    | Some dev, None => touch dev
    | Some dev, Some gad =>
        touch dev
        ++ [attrsCall gad msg;
            Fire (EVT_TOP GAD_REPORTING) (gadReportingEvent msg (gad_id gad));
            Tweet "gad" (Name "attrsReport") (idVal (gad_id gad)) (rm_data msg)]
    end.
Proof.
  intros Hdev Hgad. apply found_device in Hdev. apply found_gadget in Hgad.
  cbv zeta. unfold exec, thrown. open_state fb.
  match goal with |- context [snd ?t] => remember t as r eqn:E end.
  mrun_in E. rewrite Hdev, Hgad in E.
  destruct dev as [dev|]; [destruct gad as [gad|]|].
  - unfold attrsCall. destruct (truthy (rm_appendFlag msg)); cbn [negb] in E;
      mrun_in E; subst r; cbn [fst snd pending];
      repeat split; try reflexivity; unfold touch, gadReportingEvent; since_trace.
  - subst r; cbn [fst snd pending];
      repeat split; try reflexivity; unfold touch; since_trace.
  - subst r; cbn [fst snd pending].
    repeat split; try reflexivity. apply since_app. cbn [trace]. rewrite app_nil_r.
    reflexivity.
Qed.

Lemma gadget_report_needs_device_and_gadget_witness :
  let dev := mkDevice 1 (Some 7) "zigbee" "0x01" false [] in
  let fb := mkFreebird [mkNetcore "zigbee" true] [dev] [] [] [] 0 [] [] in
  let msg := mkReportMsg "zigbee" "0x01" (Some (AuxNum 3)) (VNum 1) VUndef in
  since fb (exec (ncGadReporting msg) fb) = touch dev.
Proof.
  exact (proj2 (proj2 (@gadget_report_needs_device_and_gadget
           (mkFreebird [mkNetcore "zigbee" true]
              [mkDevice 1 (Some 7) "zigbee" "0x01" false []] [] [] [] 0 [] [])
           (mkReportMsg "zigbee" "0x01" (Some (AuxNum 3)) (VNum 1) VUndef)
           (Some (mkDevice 1 (Some 7) "zigbee" "0x01" false [])) None
           eq_refl eq_refl))).
Defined.

(** *** Errors *)

(** X28. The three error handlers fire their event before they read the
    error's message.  With an error object the event and one error
    indication of the handler's subsystem go out; with a message that
    carries no error the event is fired with undefined, reading the
    message throws, and no indication is sent. *)
Theorem error_handlers_fire_before_they_read fb h evt subsys idOf msg :
  In (h, evt, subsys, idOf) errorHandlers ->
  match em_error msg with
  | Some e =>
      h msg fb
      = (set_trace (trace fb
                    ++ [Fire evt (VErr e);
                        Tweet subsys (Name "error") (idOf msg)
                              (errorMessageInfo (em_ncName msg) (message e))]) fb,
         inr tt)
  | None =>
      h msg fb
      = (set_trace (trace fb ++ [Fire evt VUndef]) fb,
         inl (TypeError "cannot read a property of undefined"))
  end.
Proof.
  intros Hin. open_state fb.
  destruct Hin as [H|[H|[H|[]]]]; injection H as <- <- <- <-.
  all: destruct (em_error msg) as [e|] eqn:Ee; mrun; rewrite Ee; mrun;
       rewrite <- ?app_assoc; reflexivity.
Qed.

Lemma error_handlers_fire_before_they_read_witness :
  let msg := mkErrMsg "zigbee" None (VNum 4) in
  devError msg (fresh [])
  = (set_trace [Fire (Name "warn") VUndef] (fresh []),
     inl (TypeError "cannot read a property of undefined")).
Proof.
  exact (@error_handlers_fire_before_they_read (fresh []) devError (Name "warn") "dev"
           em_id (mkErrMsg "zigbee" None (VNum 4)) (or_intror (or_introl eq_refl))).
Defined.

(** *** Lookups *)

(** X29. [findByNet] and [findById] accept the types ['netcore'],
    ['device'] and ['gadget'] and throw a TypeError for any other; they
    never change the freebird.  The device [findByNet] returns is
    registered and has the permanent address and the netcore name asked
    for, and when it returns none no registered device has both. *)
Theorem lookups_check_their_type fb type ncName permAddr auxId id :
  fst (findByNet type ncName permAddr auxId fb) = fb /\
  fst (findById type id fb) = fb /\
  (isFindType type = false ->
   snd (findByNet type ncName permAddr auxId fb) = inl (unknownType type) /\
   snd (findById type id fb) = inl (unknownType type)) /\
  (isFindType type = true ->
   thrown (findByNet type ncName permAddr auxId) fb = None /\
   thrown (findById type id) fb = None) /\
  (forall dev,
     findByNet "device" ncName permAddr auxId fb = (fb, inr (FoundDevice (Some dev))) ->
     In dev (devbox fb) /\ dev_permAddr dev = permAddr /\ dev_netcore dev = ncName) /\
  (findByNet "device" ncName permAddr auxId fb = (fb, inr (FoundDevice None)) ->
   forall dev, In dev (devbox fb) ->
     dev_permAddr dev <> permAddr \/ dev_netcore dev <> ncName).
Proof.
  unfold isFindType, findByNet, findById, thrown.
  repeat split.
  - destruct (String.eqb type "netcore"); [reflexivity|].
    destruct (String.eqb type "device"); [reflexivity|].
    destruct (String.eqb type "gadget"); reflexivity.
  - destruct (String.eqb type "netcore"); [reflexivity|].
    destruct (String.eqb type "device"); [reflexivity|].
    destruct (String.eqb type "gadget"); reflexivity.
  - destruct (String.eqb type "netcore"); [discriminate|].
    destruct (String.eqb type "device"); [discriminate|].
    destruct (String.eqb type "gadget"); [discriminate|reflexivity].
  - destruct (String.eqb type "netcore"); [discriminate|].
    destruct (String.eqb type "device"); [discriminate|].
    destruct (String.eqb type "gadget"); [discriminate|reflexivity].
  - destruct (String.eqb type "netcore"); [reflexivity|].
    destruct (String.eqb type "device"); [reflexivity|].
    destruct (String.eqb type "gadget"); [reflexivity|discriminate].
  - destruct (String.eqb type "netcore"); [reflexivity|].
    destruct (String.eqb type "device"); [reflexivity|].
    destruct (String.eqb type "gadget"); [reflexivity|discriminate].
  - cbn [String.eqb Ascii.eqb Bool.eqb] in H. mrun_in H.
    injection H as H. apply find_some in H. tauto.
  - cbn [String.eqb Ascii.eqb Bool.eqb] in H. mrun_in H.
    injection H as H. apply find_some in H. destruct H as (_ & H).
    apply andb_true_iff in H. destruct H as (H & _). apply String.eqb_eq. exact H.
  - cbn [String.eqb Ascii.eqb Bool.eqb] in H. mrun_in H.
    injection H as H. apply find_some in H. destruct H as (_ & H).
    apply andb_true_iff in H. destruct H as (_ & H). apply String.eqb_eq. exact H.
  - intros H dev Hin. cbn [String.eqb Ascii.eqb Bool.eqb] in H. mrun_in H.
    injection H as H. pose proof (find_none _ _ H _ Hin) as Hf.
    apply andb_false_iff in Hf. destruct Hf as [Hf|Hf]; apply String.eqb_neq in Hf; auto.
Qed.

Lemma lookups_check_their_type_witness :
  snd (findByNet "gagdet" "zigbee" "0x01" None (fresh [])) = inl (unknownType "gagdet").
Proof.
  exact (proj1 (proj1 (proj2 (proj2 (@lookups_check_their_type (fresh []) "gagdet"
           "zigbee" "0x01" None VUndef))) eq_refl)).
Defined.

End FurtherHandlerProperties.

(* ===================================================================== *)
(** ** Properties of the wiring                                           *)
(* ===================================================================== *)

Section WiringProperties.

Import Wiring.

(** X30. [attachEventListeners] leaves exactly one listener, its own
    handler, on each of the events it clears first; on the events it does
    not clear (the net-ban, unban and ping events and the read, write and
    exec results) it adds its handler behind the listeners that are there.
    Attaching a second time therefore changes nothing on the former and
    leaves each handler twice on the latter: a net-ban notification then
    runs [ncNetBan] twice. *)
Theorem attaching_again_doubles_the_uncleared_listeners freebird c h :
  In (c, h) attached ->
  let once := attachEventListeners freebird in
  let twice := attachEventListeners once in
  (In c cleared -> once c = [Bound h] /\ twice c = [Bound h]) /\
  (~ In c cleared ->
   once c = freebird c ++ [Bound h] /\ twice c = freebird c ++ [Bound h; Bound h]).
Proof.
  intros Hin. cbv zeta.
  assert (Happ : forall l : list Listener,
            (l ++ [Bound h]) ++ [Bound h] = l ++ [Bound h; Bound h]).
  { intros l. rewrite <- app_assoc. reflexivity. }
  unfold attached in Hin.
  repeat (destruct Hin as [Hin|Hin];
          [injection Hin as <- <-;
           split;
           [intros Hc; first [split; reflexivity
                             | exfalso; unfold cleared in Hc;
                               repeat (destruct Hc as [Hc|Hc]; [discriminate Hc|]);
                               exact Hc]
           |intros Hc; first [split; [reflexivity | apply Happ]
                             | exfalso; apply Hc; unfold cleared;
                               repeat first [left; reflexivity | right]]]
          |]).
  destruct Hin.
Qed.

Lemma attaching_again_doubles_the_uncleared_listeners_witness :
  let once := attachEventListeners (fun _ => []) in
  let twice := attachEventListeners once in
  twice (Btm NcNetBan) = [Bound ncNetBan; Bound ncNetBan] /\
  twice (Btm NcDevIncoming) = [Bound ncDevIncoming].
Proof.
  split.
  - refine (proj2 (proj2 (@attaching_again_doubles_the_uncleared_listeners
                     (fun _ => []) (Btm NcNetBan) ncNetBan _) _)).
    + unfold attached. repeat first [left; reflexivity | right].
    + unfold cleared. intros H.
      repeat (destruct H as [H|H]; [discriminate H|]). exact H.
  - refine (proj2 (proj1 (@attaching_again_doubles_the_uncleared_listeners
                     (fun _ => []) (Btm NcDevIncoming) ncDevIncoming _) _)).
    + unfold attached. repeat first [left; reflexivity | right].
    + unfold cleared. repeat first [left; reflexivity | right].
Defined.

End WiringProperties.
